(** * Attendance system: roster model, column detection, ledger and save

    A shallow embedding of [src/app.py] (class [AttendanceSystem]) and the
    properties of its roster/attendance core.

    Layout: Python text helpers, exceptions, the part of pandas the program
    uses, the application state, the four methods of the core
    ([add_new_class], [open_attendance_screen], [toggle_attendance],
    [save_attendance]) and then the lemmas and theorems.

    The methods run in a monad of state and exceptions. [DataFrame]
    variables are references into an object store, so that [df.copy()] and
    the in-place assignments [df[key] = ...] are told apart. Of the user
    interface the state keeps what the core reads or writes: the student
    buttons with their colour and their window, which session windows have
    been destroyed, the class tiles and the message boxes; layout is left
    out. *)

From Stdlib Require Import Ascii String ZArith List Lia DecimalString.
From stdpp Require Import base option list gmap strings fin_maps.

Local Open Scope string_scope.
Local Open Scope list_scope.

(** ** Python text helpers *)

Module PyStr.

(** [c.lower()] for one ASCII character; other bytes are left alone. *)
Definition lower_ascii (c : ascii) : ascii :=
  let n := nat_of_ascii c in
  if (65 <=? n)%nat && (n <=? 90)%nat then ascii_of_nat (n + 32) else c.

(** [s.lower()] *)
Fixpoint lower (s : string) : string :=
  match s with
  | EmptyString => EmptyString
  | String c s' => String (lower_ascii c) (lower s')
  end.

(** [pat in s] on strings: [pat] occurs in [s] as a contiguous substring. *)
Fixpoint contains (pat s : string) : bool :=
  String.prefix pat s
  || match s with
     | EmptyString => false
     | String _ s' => contains pat s'
     end.

(** [any(pattern in s for pattern in patterns)] *)
Definition any_in (patterns : list string) (s : string) : bool :=
  existsb (fun pattern => contains pattern s) patterns.

(** Truth value of a variable that holds [None] or a string. *)
Definition truthy (o : option string) : bool :=
  match o with
  | None => false
  | Some s => negb (String.eqb s "")
  end.

(** [s.split(sep)[0]] for a one-character separator. *)
Fixpoint split_head (sep : ascii) (s : string) : string :=
  match s with
  | EmptyString => EmptyString
  | String c s' => if Ascii.eqb c sep then EmptyString else String c (split_head sep s')
  end.

(** [os.path.basename(p)]: what follows the last ["/"]. *)
Fixpoint basename (p : string) : string :=
  match p with
  | EmptyString => EmptyString
  | String c p' =>
      if contains "/" p then basename p' else p
  end.

(** Two decimal digits, zero padded, of [n mod 100] (the [%d], [%m], [%y]
    fields of [strftime]). *)
Definition digit (n : nat) : ascii := ascii_of_nat (48 + n mod 10).

Definition two_digits (n : nat) : string :=
  String (digit ((n / 10) mod 10)) (String (digit n) EmptyString).

End PyStr.

(** ** Exceptions *)

Inductive exn :=
| KeyError
| IndexError
| FileNotFoundError
| PermissionError
| TclError.

(** What evaluating a Python expression gives: a value or a raised
    exception. *)
Inductive outcome (A : Type) :=
| Return (a : A)
| Raise (e : exn).
Arguments Return {A} a.
Arguments Raise {A} e.

#[export] Instance outcome_ret : MRet outcome := fun A a => Return a.
#[export] Instance outcome_bind : MBind outcome := fun A B f m =>
  match m with
  | Return a => f a
  | Raise e => Raise e
  end.

(** ** The part of pandas the program uses *)

(** Column labels are the texts of the header row (a label that is not a
    text stands here as its [str]). ASCII is assumed for [lower]. *)
Abbreviation label := string.

Inductive cell :=
| CStr (s : string)
| CInt (z : Z)
| CNaN.

#[export] Instance cell_eq_dec : EqDecision cell.
Proof. solve_decision. Defined.

(** A row as [iterrows] yields it: the cells of one row under their labels. *)
Abbreviation Series := (list (label * cell)).

(** A table, column-wise: [nrows] is the length of the index and every
    column holds one cell per row. Labels may repeat. *)
Record DataFrame := {
  nrows : nat;
  cols : list (label * list cell)
}.

Module Pd.

(** [df.columns] *)
Definition columns (df : DataFrame) : list label := map fst (cols df).

(** [key in df.columns] *)
Definition has_column (key : label) (df : DataFrame) : bool :=
  bool_decide (key ∈ columns df).

(** [df.columns[i]]: out of range raises [IndexError]. *)
Definition column_at (df : DataFrame) (i : nat) : outcome label :=
  match columns df !! i with
  | Some c => Return c
  | None => Raise IndexError
  end.

(** [df[key] = values] for a sequence [values] with one entry per row (the
    program never passes another length): every column labelled [key] takes
    the new values in place (pandas broadcasts over a repeated label); when
    there is none a column is appended on the right. *)
Definition setitem (key : label) (values : list cell) (df : DataFrame) : DataFrame :=
  if has_column key df
  then {| nrows := nrows df;
          cols := map (fun kc => if String.eqb (fst kc) key then (fst kc, values) else kc)
                      (cols df) |}
  else {| nrows := nrows df; cols := cols df ++ [(key, values)] |}.

(** [df[key] = c] for a scalar: the scalar on every row. *)
Definition setitem_scalar (key : label) (c : cell) (df : DataFrame) : DataFrame :=
  setitem key (replicate (nrows df) c) df.

(** The columns labelled [key], left to right. *)
Definition labelled (key : label) (df : DataFrame) : list (label * list cell) :=
  filter (fun kc => fst kc = key) (cols df).

(** [df[keys]] for a list of labels: for each key in turn, every column
    carrying that label (one when labels are unique, all of them when a label
    repeats, as the indexer of a non-unique [Index] gives every position of
    each key); a key that labels no column raises [KeyError]. *)
Fixpoint take (keys : list label) (df : DataFrame) : outcome (list (label * list cell)) :=
  match keys with
  | [] => Return []
  | key :: keys' =>
      match labelled key df with
      | [] => Raise KeyError
      | found => rest ← take keys' df; Return (found ++ rest)
      end
  end.

Definition getitem (keys : list label) (df : DataFrame) : outcome DataFrame :=
  picked ← take keys df; Return {| nrows := nrows df; cols := picked |}.

(** [row[key]] exists: the row carries the label (otherwise [KeyError]). *)
Definition series_has (key : label) (r : Series) : bool :=
  bool_decide (key ∈ map fst r).

(** Row [i] of the table. *)
Definition row (df : DataFrame) (i : nat) : Series :=
  map (fun kc => (fst kc, nth i (snd kc) CNaN)) (cols df).

(** [df.iterrows()], without the index. *)
Definition iterrows (df : DataFrame) : list Series :=
  map (row df) (seq 0 (nrows df)).

(** [value == "Present"] *)
Definition is_present (value : cell) : bool :=
  match value with
  | CStr s => String.eqb s "Present"
  | _ => false
  end.

(** [sum(1 for value in row if value == "Present")] *)
Definition count_present (r : Series) : nat :=
  length (filter (fun kv => is_present (snd kv) = true) r).

(** [df.apply(lambda row: sum(1 for value in row if value == "Present"), axis=1)] *)
Definition apply_count_present (df : DataFrame) : list cell :=
  map (fun r => CInt (Z.of_nat (count_present r))) (iterrows df).

End Pd.

(** ** Column detection *)

Definition roll_patterns : list string := ["roll"; "enrollment"; "id"; "number"].
Definition name_patterns : list string := ["name"; "student"].

(** [any(pattern in col_lower for pattern in roll_patterns)] and the same
    for [name_patterns], with [col_lower = str(col).lower()]. *)
Definition matches_roll (col : label) : bool :=
  PyStr.any_in roll_patterns (PyStr.lower col).
Definition matches_name (col : label) : bool :=
  PyStr.any_in name_patterns (PyStr.lower col).

(** One iteration of the loop of [detect_data_columns] over the pair
    [(roll_col, name_col)]. *)
Definition detect_step (st : option label * option label) (col : label)
  : option label * option label :=
  if negb (PyStr.truthy (fst st)) && matches_roll col
  then (Some col, snd st)
  else if negb (PyStr.truthy (snd st)) && matches_name col
  then (fst st, Some col)
  else st.

(** The loop [for col in df.columns], from [roll_col = name_col = None]. *)
Definition detect_scan (columns : list label) : option label * option label :=
  fold_left detect_step columns (None, None).

(** [x or default] where [default] may raise. *)
Definition py_or (x : option label) (default : outcome label) : outcome label :=
  match x with
  | Some s => if PyStr.truthy x then Return s else default
  | None => default
  end.

Definition detect_data_columns (df : DataFrame) : outcome (label * label) :=
  let st := detect_scan (Pd.columns df) in
  roll_col ← py_or (fst st) (Pd.column_at df 0);
  name_col ← py_or (snd st) (Pd.column_at df 1);
  Return (roll_col, name_col).

(** ** Application state *)

(** Text of [str(row[key])] for a row that carries [key]; how Python and
    pandas print the value is left open (an integer, a text, or the
    sub-series a repeated label selects). The text is a function of the
    cells of the row: under a label that repeats, where pandas also prints
    the index of the row, rows with the same cells have one text here. *)
Class Rendering := { str_item : Series -> label -> string }.

(** A rendering for rows of text and integer cells under unique labels:
    the text itself, the decimal digits of the integer. Used to run the
    program on concrete tables. *)
Definition text_of_cell (c : cell) : string :=
  match c with
  | CStr s => s
  | CInt z => NilZero.string_of_int (Z.to_int z)
  | CNaN => "nan"
  end.

Definition text_item (r : Series) (key : label) : string :=
  match filter (fun kv => fst kv = key) r with
  | [kv] => text_of_cell (snd kv)
  | _ => "<series>"
  end.

Definition text_rendering : Rendering := {| str_item := text_item |}.

(** Python values the methods hand back. *)
Inductive pyval :=
| PNone
| PBool (b : bool).

(** A [DataFrame] variable is a reference to an object; [ref] is its
    address in the object store. *)
Abbreviation ref := nat.

(** [self.classes_data[class_name]] *)
Record ClassEntry := {
  dataframe : ref;
  file_path : string;
  roll_column : label;
  name_column : label
}.

(** Message boxes shown to the user. *)
Inductive dialog :=
| showerror (title : string) (message : string) (e : exn)
| showinfo (title : string) (message : string).

(** [COLORS] (the two entries the core touches). *)
Definition COLOR_absent : string := "#E74C3C".
Definition COLOR_present : string := "#2ECC71".

(** A session window ([tk.Toplevel]) is named by its number in the order
    of creation. *)
Abbreviation window := nat.

(** The [tk.Button] of a student tile: the session window it was created
    in and its background colour. Each button object is held by one entry of
    [student_buttons] at most, so the entry stands for the object. *)
Record Button := {
  master : window;
  bg : string
}.

Record AppState := {
  heap : list DataFrame;                               (* DataFrame objects by address *)
  classes_data : gmap string ClassEntry;
  attendance_records : gmap string (gmap string bool);
  student_buttons : gmap string (gmap string Button);
  class_tiles : list string;                           (* tiles packed in classes_frame *)
  disk : gmap string DataFrame;                        (* the table read from each path *)
  locked : list string;                                (* paths that cannot be written *)
  dialogs : list dialog;
  toplevels : nat;                                     (* session windows created so far *)
  destroyed : list window                              (* session windows destroyed *)
}.

(** [initialize_data_structures], on a given file system and before any
    session window. *)
Definition initial_state (files : gmap string DataFrame) (lck : list string) : AppState :=
  {| heap := []; classes_data := ∅; attendance_records := ∅; student_buttons := ∅;
     class_tiles := []; disk := files; locked := lck; dialogs := [];
     toplevels := 0; destroyed := [] |}.

Definition set_heap (f : list DataFrame -> list DataFrame) (s : AppState) : AppState :=
  {| heap := f (heap s); classes_data := classes_data s;
     attendance_records := attendance_records s; student_buttons := student_buttons s;
     class_tiles := class_tiles s; disk := disk s; locked := locked s;
     dialogs := dialogs s; toplevels := toplevels s; destroyed := destroyed s |}.

Definition set_classes_data (f : gmap string ClassEntry -> gmap string ClassEntry)
  (s : AppState) : AppState :=
  {| heap := heap s; classes_data := f (classes_data s);
     attendance_records := attendance_records s; student_buttons := student_buttons s;
     class_tiles := class_tiles s; disk := disk s; locked := locked s;
     dialogs := dialogs s; toplevels := toplevels s; destroyed := destroyed s |}.

Definition set_attendance_records
  (f : gmap string (gmap string bool) -> gmap string (gmap string bool))
  (s : AppState) : AppState :=
  {| heap := heap s; classes_data := classes_data s;
     attendance_records := f (attendance_records s); student_buttons := student_buttons s;
     class_tiles := class_tiles s; disk := disk s; locked := locked s;
     dialogs := dialogs s; toplevels := toplevels s; destroyed := destroyed s |}.

Definition set_student_buttons
  (f : gmap string (gmap string Button) -> gmap string (gmap string Button))
  (s : AppState) : AppState :=
  {| heap := heap s; classes_data := classes_data s;
     attendance_records := attendance_records s; student_buttons := f (student_buttons s);
     class_tiles := class_tiles s; disk := disk s; locked := locked s;
     dialogs := dialogs s; toplevels := toplevels s; destroyed := destroyed s |}.

Definition set_class_tiles (f : list string -> list string) (s : AppState) : AppState :=
  {| heap := heap s; classes_data := classes_data s;
     attendance_records := attendance_records s; student_buttons := student_buttons s;
     class_tiles := f (class_tiles s); disk := disk s; locked := locked s;
     dialogs := dialogs s; toplevels := toplevels s; destroyed := destroyed s |}.

Definition set_disk (f : gmap string DataFrame -> gmap string DataFrame)
  (s : AppState) : AppState :=
  {| heap := heap s; classes_data := classes_data s;
     attendance_records := attendance_records s; student_buttons := student_buttons s;
     class_tiles := class_tiles s; disk := f (disk s); locked := locked s;
     dialogs := dialogs s; toplevels := toplevels s; destroyed := destroyed s |}.

Definition set_dialogs (f : list dialog -> list dialog) (s : AppState) : AppState :=
  {| heap := heap s; classes_data := classes_data s;
     attendance_records := attendance_records s; student_buttons := student_buttons s;
     class_tiles := class_tiles s; disk := disk s; locked := locked s;
     dialogs := f (dialogs s); toplevels := toplevels s; destroyed := destroyed s |}.

Definition set_toplevels (f : nat -> nat) (s : AppState) : AppState :=
  {| heap := heap s; classes_data := classes_data s;
     attendance_records := attendance_records s; student_buttons := student_buttons s;
     class_tiles := class_tiles s; disk := disk s; locked := locked s;
     dialogs := dialogs s; toplevels := f (toplevels s); destroyed := destroyed s |}.

Definition set_destroyed (f : list window -> list window) (s : AppState) : AppState :=
  {| heap := heap s; classes_data := classes_data s;
     attendance_records := attendance_records s; student_buttons := student_buttons s;
     class_tiles := class_tiles s; disk := disk s; locked := locked s;
     dialogs := dialogs s; toplevels := toplevels s; destroyed := f (destroyed s) |}.

(** ** The monad of the methods: state of the object, and exceptions *)

Definition Py (A : Type) : Type := AppState -> outcome A * AppState.

#[export] Instance Py_ret : MRet Py := fun A a s => (Return a, s).
#[export] Instance Py_bind : MBind Py := fun A B f m s =>
  match m s with
  | (Return a, s') => f a s'
  | (Raise e, s') => (Raise e, s')
  end.

Definition get_state : Py AppState := fun s => (Return s, s).
Definition modify (f : AppState -> AppState) : Py unit := fun s => (Return tt, f s).
Definition raise {A} (e : exn) : Py A := fun s => (Raise e, s).

Definition lift {A} (o : outcome A) : Py A := fun s => (o, s).

(** [try: body except Exception as e: handler e] *)
Definition try_except {A} (body : Py A) (handler : exn -> Py A) : Py A := fun s =>
  match body s with
  | (Return a, s') => (Return a, s')
  | (Raise e, s') => handler e s'
  end.

(** [for x in xs: body x] *)
Fixpoint for_each {A} (xs : list A) (body : A -> Py unit) : Py unit :=
  match xs with
  | [] => mret tt
  | x :: xs' => body x;; for_each xs' body
  end.

(** [d[key]] on a dictionary: a missing key raises [KeyError]. *)
Definition dict_get {V} (d : gmap string V) (key : string) : Py V :=
  match d !! key with
  | Some v => mret v
  | None => raise KeyError
  end.

(** A new [DataFrame] object holding [d]; gives its reference. *)
Definition new_frame (d : DataFrame) : Py ref := fun s =>
  (Return (length (heap s)), set_heap (fun h => h ++ [d]) s).

(** The table a reference points to. References come from [new_frame], so
    on the states the program builds the object is always there. *)
Definition load (r : ref) : Py DataFrame := fun s =>
  match heap s !! r with
  | Some d => (Return d, s)
  | None => (Raise KeyError, s)
  end.

(** In-place change of the object a reference points to. *)
Definition update (r : ref) (f : DataFrame -> DataFrame) : Py unit :=
  modify (set_heap (fun h => match h !! r with
                             | Some d => <[r := f d]> h
                             | None => h
                             end)).

Definition show (d : dialog) : Py unit := modify (set_dialogs (fun l => l ++ [d])).

(** [tk.Toplevel(self.root)]: a new session window. *)
Definition new_toplevel : Py window := fun s =>
  (Return (toplevels s), set_toplevels S s).

(** The state after [w.destroy()]: the window and every widget in it are
    gone; on a window that is gone already nothing happens. A reference
    names a window that was created. *)
Definition destroy_window (w : window) (s : AppState) : AppState :=
  set_destroyed (fun l => if bool_decide (w < toplevels s) then w :: l else l) s.

Definition destroy (w : window) : Py unit := modify (destroy_window w).

(** [button.configure(bg=colour)]: Tk refuses a widget that has been
    destroyed ([TclError], invalid command name). *)
Definition configure (button : Button) (colour : string) : Py Button := fun s =>
  if bool_decide (master button ∈ destroyed s) then (Raise TclError, s)
  else (Return {| master := master button; bg := colour |}, s).

(** ** The methods of [AttendanceSystem] *)

Section Methods.
Context `{Rendering}.

(** [pd.read_excel(file_path)]: [disk] holds, for each path, the table
    pandas reads from the workbook there, with the cell types it infers and
    the header it makes of the first row. *)
Definition read_excel (path : string) : Py ref :=
  s ← get_state;
  match disk s !! path with
  | Some table => new_frame table
  | None => raise FileNotFoundError
  end.

(** [df.to_excel(path, index=False)]: the workbook written is taken to read
    back as the table written. *)
Definition to_excel (df : ref) (path : string) : Py unit :=
  d ← load df;
  s ← get_state;
  if bool_decide (path ∈ locked s) then raise PermissionError
  else modify (set_disk (insert path d)).

(** [[col for col in df.columns if col not in [roll_col, name_col, "Total"]]] *)
Definition other_columns (roll_col name_col : label) (d : DataFrame) : list label :=
  filter (fun col => col ∉ [roll_col; name_col; "Total"]) (Pd.columns d).

(** [os.path.basename(file_path).split('.')[0]] *)
Definition class_name_of (path : string) : string :=
  PyStr.split_head "." (PyStr.basename path).

Definition create_class_tile (class_name : string) : Py unit :=
  modify (set_class_tiles (fun l => l ++ [class_name])).

(** [add_new_class], with the path the file dialog gave. *)
Definition add_new_class (path : string) : Py pyval :=
  if String.eqb path "" then mret PNone
  else
    try_except
      (df ← read_excel path;
       d ← load df;
       (if negb (Pd.has_column "Total" d)
        then update df (Pd.setitem_scalar "Total" (CInt 0))
        else mret tt);;
       let class_name := class_name_of path in
       d ← load df;
       rn ← lift (detect_data_columns d);
       let roll_col := fst rn in
       let name_col := snd rn in
       let others := other_columns roll_col name_col d in
       d' ← lift (Pd.getitem ([roll_col; name_col; "Total"] ++ others) d);
       df ← new_frame d';
       modify (set_classes_data (insert class_name
                 {| dataframe := df; file_path := path;
                    roll_column := roll_col; name_column := name_col |}));;
       create_class_tile class_name;;
       mret PNone)
      (fun e => show (showerror "Error" "Failed to load class: " e);; mret PNone).

(** [str(row[roll_col])] *)
Definition student_id_of (r : Series) (roll_col : label) : outcome string :=
  if Pd.series_has roll_col r then Return (str_item r roll_col) else Raise KeyError.

(** The body of the loop of [create_student_grid] for one row; the button
    is created in the window of [container]. *)
Definition create_student_tile (container : window) (class_name : string)
  (roll_col name_col : label) (r : Series) : Py unit :=
  student_id ← lift (student_id_of r roll_col);
  (if Pd.series_has name_col r then mret tt else raise KeyError);;
  let button := {| master := container; bg := COLOR_absent |} in
  s ← get_state;
  buttons ← dict_get (student_buttons s) class_name;
  modify (set_student_buttons (insert class_name (<[student_id := button]> buttons)));;
  s ← get_state;
  ledger ← dict_get (attendance_records s) class_name;
  modify (set_attendance_records (insert class_name (<[student_id := false]> ledger))).

Definition create_student_grid (container : window) (class_name : string) : Py unit :=
  s ← get_state;
  entry ← dict_get (classes_data s) class_name;
  d ← load (dataframe entry);
  let roll_col := roll_column entry in
  let name_col := name_column entry in
  modify (set_student_buttons (insert class_name ∅));;
  for_each (Pd.iterrows d) (create_student_tile container class_name roll_col name_col).

Definition open_attendance_screen (class_name : string) : Py pyval :=
  attendance_window ← new_toplevel;
  s ← get_state;
  (if bool_decide (class_name ∉ dom (attendance_records s))
   then modify (set_attendance_records (insert class_name ∅))
   else mret tt);;
  create_student_grid attendance_window class_name;;
  mret PNone.

Definition toggle_attendance (class_name student_id : string) : Py pyval :=
  s ← get_state;
  ledger ← dict_get (attendance_records s) class_name;
  current_status ← dict_get ledger student_id;
  modify (set_attendance_records
            (insert class_name (<[student_id := negb current_status]> ledger)));;
  s ← get_state;
  buttons ← dict_get (student_buttons s) class_name;
  button ← dict_get buttons student_id;
  button ← configure button (if negb current_status then COLOR_present else COLOR_absent);
  modify (set_student_buttons (insert class_name (<[student_id := button]> buttons)));;
  mret PNone.

(** [datetime.now()], the calendar part. *)
Record datetime := { year : nat; month : nat; day : nat }.

(** [now.strftime("%d-%m-%y")] *)
Definition strftime_dmy (now : datetime) : string :=
  PyStr.two_digits (day now) +:+ "-" +:+ PyStr.two_digits (month now) +:+ "-"
  +:+ PyStr.two_digits (year now).

(** The status of one row in the loop of [save_attendance]. *)
Definition attendance_status (class_name : string) (roll_col : label) (r : Series)
  : Py cell :=
  student_id ← lift (student_id_of r roll_col);
  s ← get_state;
  ledger ← dict_get (attendance_records s) class_name;
  mret (if default false (ledger !! student_id) then CStr "Present" else CStr "Absent").

(** [save_attendance], with the clock reading [now]. *)
Definition save_attendance (class_name : string) (attendance_window : window)
  (now : datetime) : Py pyval :=
  try_except
    (s ← get_state;
     entry ← dict_get (classes_data s) class_name;
     stored ← load (dataframe entry);
     df ← new_frame stored;
     let date := strftime_dmy now in
     let roll_col := roll_column entry in
     let name_col := name_column entry in
     d ← load df;
     attendance_list ← mapM (attendance_status class_name roll_col) (Pd.iterrows d);
     update df (Pd.setitem date attendance_list);;
     d ← load df;
     let attendance_columns := other_columns roll_col name_col d in
     sub ← lift (Pd.getitem attendance_columns d);
     update df (Pd.setitem "Total" (Pd.apply_count_present sub));;
     d ← load df;
     let others := other_columns roll_col name_col d in
     d' ← lift (Pd.getitem ([roll_col; name_col; "Total"] ++ others) d);
     df ← new_frame d';
     to_excel df (file_path entry);;
     show (showinfo "Success" "Attendance saved!");;
     destroy attendance_window;;
     mret PNone)
    (fun e => show (showerror "Error" "Failed to save attendance: " e);; mret PNone).

End Methods.

(** ** What a load and a save compute

    Functions of the tables alone, without the object store; the section on
    the methods proves that [add_new_class] and [save_attendance] compute
    exactly these. *)

Section Plans.
Context `{Rendering}.

(** [v = d[key]] on an optional entry. *)
Definition found {V} (o : option V) : outcome V :=
  match o with
  | Some v => Return v
  | None => Raise KeyError
  end.

(** Lines 87-88: the table with its ["Total"] column. *)
Definition ensure_total (table : DataFrame) : DataFrame :=
  if negb (Pd.has_column "Total" table)
  then Pd.setitem_scalar "Total" (CInt 0) table
  else table.

(** Lines 92-96: the two detected columns and the reordered table. *)
Definition load_plan (table : DataFrame) : outcome (label * label * DataFrame) :=
  let d := ensure_total table in
  rn ← detect_data_columns d;
  d' ← Pd.getitem ([fst rn; snd rn; "Total"] ++ other_columns (fst rn) (snd rn) d) d;
  Return (fst rn, snd rn, d').

(** Lines 274-275 for one row, on the ledgers [records]. *)
Definition status_of (records : gmap string (gmap string bool)) (class_name : string)
  (roll_col : label) (r : Series) : outcome cell :=
  student_id ← student_id_of r roll_col;
  ledger ← found (records !! class_name);
  Return (if default false (ledger !! student_id) then CStr "Present" else CStr "Absent").

(** Lines 279-289 on the working copy: the table with today's column
    ([merged]), with the recomputed total ([totalled]) and reordered
    ([saved_table]). *)
Definition merged (date : label) (statuses : list cell) (stored : DataFrame) : DataFrame :=
  Pd.setitem date statuses stored.

Definition totalled (roll_col name_col : label) (d : DataFrame) : outcome DataFrame :=
  sub ← Pd.getitem (other_columns roll_col name_col d) d;
  Return (Pd.setitem "Total" (Pd.apply_count_present sub) d).

Definition saved_table (roll_col name_col : label) (d : DataFrame) : outcome DataFrame :=
  Pd.getitem ([roll_col; name_col; "Total"] ++ other_columns roll_col name_col d) d.

(** The number of attendance columns of [table] (every column except the
    identifier, the name and ["Total"]) whose cell on row [i] is exactly the
    text ["Present"]. *)
Definition present_in (roll_col name_col : label) (table : DataFrame) (i : nat) : nat :=
  length (filter (fun kc => (fst kc ∉ [roll_col; name_col; "Total"])
                            /\ snd kc !! i = Some (CStr "Present"))
                 (cols table)).

(** Lines 266-292: the path written and the table written, or the
    exception that ends the [try] block. *)
Definition save_plan (class_name : string) (now : datetime) (s : AppState)
  : outcome (string * DataFrame) :=
  entry ← found (classes_data s !! class_name);
  stored ← found (heap s !! dataframe entry);
  statuses ← mapM (status_of (attendance_records s) class_name (roll_column entry))
                  (Pd.iterrows stored);
  d ← totalled (roll_column entry) (name_column entry)
        (merged (strftime_dmy now) statuses stored);
  table ← saved_table (roll_column entry) (name_column entry) d;
  if bool_decide (file_path entry ∈ locked s) then Raise PermissionError
  else Return (file_path entry, table).

(** Lines 213-239: the identifiers of the roster, in row order, and what
    the loop makes of a ledger and of a button map. *)
Definition roster_ids (roll_col : label) (d : DataFrame) : list string :=
  map (fun r => str_item r roll_col) (Pd.iterrows d).

Definition absent_all (ids : list string) (ledger : gmap string bool) : gmap string bool :=
  fold_left (fun l student_id => <[student_id := false]> l) ids ledger.

Definition tiles_for (container : window) (ids : list string)
  (buttons : gmap string Button) : gmap string Button :=
  fold_left
    (fun b student_id => <[student_id := {| master := container; bg := COLOR_absent |}]> b)
    ids buttons.

End Plans.

(** ** A small class to run the program on *)

Definition roster_table : DataFrame :=
  {| nrows := 3;
     cols := [("Roll No", [CStr "101"; CStr "102"; CStr "103"]);
              ("Student Name", [CStr "Asha"; CStr "Bilal"; CStr "Chen"])] |}.

Definition demo_now : datetime := {| year := 2024; month := 6; day := 5 |}.

(** The file is loaded, the session opened and student 101 marked present. *)
Definition demo_loaded : AppState :=
  snd (add_new_class "/data/cs.xlsx" (initial_state {[ "/data/cs.xlsx" := roster_table ]} [])).

Definition demo_open : AppState :=
  snd (@open_attendance_screen text_rendering "cs" demo_loaded).

Definition demo_marked : AppState :=
  snd (toggle_attendance "cs" "101" demo_open).

(** A sheet of names and marks without an identifier column, and a sheet
    with a single column. *)
Definition marks_table : DataFrame :=
  {| nrows := 2;
     cols := [("Name", [CStr "Asha"; CStr "Bilal"]); ("Marks", [CInt 71; CInt 64])] |}.

Definition single_table : DataFrame :=
  {| nrows := 2; cols := [("Roll", [CStr "101"; CStr "102"])] |}.

Definition marks_loaded : AppState :=
  snd (add_new_class "/data/marks.xlsx"
         (initial_state {[ "/data/marks.xlsx" := marks_table ]} [])).

Definition marks_open : AppState :=
  snd (@open_attendance_screen text_rendering "marks" marks_loaded).

(** A sheet whose identifier column stands second and which has no name
    column. *)
Definition fallback_table : DataFrame :=
  {| nrows := 2;
     cols := [("Marks", [CInt 71; CInt 64]); ("Roll No", [CStr "101"; CStr "102"])] |}.

Definition fallback_loaded : AppState :=
  snd (add_new_class "/data/fallback.xlsx"
         (initial_state {[ "/data/fallback.xlsx" := fallback_table ]} [])).

(** A sheet with an identifier column first and no name column. *)
Definition mixed_table : DataFrame :=
  {| nrows := 2;
     cols := [("Roll No", [CStr "101"; CStr "102"]); ("Marks", [CInt 71; CInt 64])] |}.

Definition mixed_loaded : AppState :=
  snd (add_new_class "/data/mixed.xlsx"
         (initial_state {[ "/data/mixed.xlsx" := mixed_table ]} [])).

(** Two workbooks with the same base name, in two folders. *)
Definition archive_table : DataFrame :=
  {| nrows := 2;
     cols := [("Roll No", [CStr "201"; CStr "202"]);
              ("Student Name", [CStr "Dana"; CStr "Emil"])] |}.

Definition reload_marked : AppState :=
  snd (toggle_attendance "cs" "101"
         (snd (@open_attendance_screen text_rendering "cs"
                 (snd (add_new_class "/data/cs.xlsx"
                         (initial_state {[ "/data/cs.xlsx" := roster_table;
                                           "/archive/cs.xlsx" := archive_table ]} [])))))).

Definition reload_reopened : AppState :=
  snd (@open_attendance_screen text_rendering "cs"
         (snd (add_new_class "/archive/cs.xlsx" reload_marked))).

Definition single_loaded : AppState :=
  snd (add_new_class "/data/single.xlsx"
         (initial_state {[ "/data/single.xlsx" := single_table ]} [])).

(** A workbook whose sheet is empty. *)
Definition blank_table : DataFrame := {| nrows := 0; cols := [] |}.

(** The record and the table [demo_loaded] holds for the class, and the
    ledger of [demo_open]. *)
Definition demo_entry : ClassEntry :=
  {| dataframe := 1; file_path := "/data/cs.xlsx";
     roll_column := "Roll No"; name_column := "Student Name" |}.

Definition demo_stored : DataFrame :=
  {| nrows := 3;
     cols := [("Roll No", [CStr "101"; CStr "102"; CStr "103"]);
              ("Student Name", [CStr "Asha"; CStr "Bilal"; CStr "Chen"]);
              ("Total", [CInt 0; CInt 0; CInt 0])] |}.

Definition demo_ledger : gmap string bool :=
  <["103" := false]> (<["102" := false]> (<["101" := false]> ∅)).

(** A workbook with four earlier sessions, spellings that do not count, and
    a stale total. *)
Definition history_table : DataFrame :=
  {| nrows := 2;
     cols := [("Roll No", [CStr "7"; CStr "8"]);
              ("Student Name", [CStr "Gia"; CStr "Hal"]);
              ("Total", [CInt 9; CInt 9]);
              ("01-06-24", [CStr "Present"; CStr "present"]);
              ("02-06-24", [CStr "Present"; CStr "PRESENT"]);
              ("03-06-24", [CStr "Absent"; CStr "Present"]);
              ("04-06-24", [CStr "Absent"; CStr "Absent"])] |}.

Definition history_marked : AppState :=
  snd (toggle_attendance "log" "7"
         (snd (@open_attendance_screen text_rendering "log"
                 (snd (add_new_class "/data/log.xlsx"
                         (initial_state {[ "/data/log.xlsx" := history_table ]} [])))))).

(** ** Predicates of the proofs *)

(** What the loop has assigned sits in the list, and two assigned slots sit
    at two positions. *)
Definition slots_in (seen : list label) (st : option label * option label) : Prop :=
  (forall r, fst st = Some r -> exists i, seen !! i = Some r)
  /\ (forall n, snd st = Some n -> exists j, seen !! j = Some n)
  /\ (forall r n, st = (Some r, Some n) ->
       exists i j, i <> j /\ seen !! i = Some r /\ seen !! j = Some n).

(** What the scan has assigned holds the pattern of its slot. *)
Definition slots_match (st : option label * option label) : Prop :=
  (forall r, fst st = Some r -> matches_roll r = true)
  /\ (forall n, snd st = Some n -> matches_name n = true).

(** Characters a [%d-%m-%y] label is made of: digits and the dash. *)
Definition date_char (c : ascii) : bool :=
  let n := nat_of_ascii c in
  ((48 <=? n)%nat && (n <=? 57)%nat) || (n =? 45)%nat.

(** Every character of the text passes the test. *)
Fixpoint all_chars (P : ascii -> bool) (s : string) : bool :=
  match s with
  | EmptyString => true
  | String c s' => P c && all_chars P s'
  end.

(** The list without its first element that passes the test. *)
Fixpoint remove_first (P : label -> bool) (l : list label) : list label :=
  match l with
  | [] => []
  | c :: l' => if P c then l' else c :: remove_first P l'
  end.

(** Every column of the table holds one cell per row. *)
Definition rectangular (d : DataFrame) : Prop :=
  Forall (fun kc => length (snd kc) = nrows d) (cols d).

(** ** The main loop *)

Section Events.
Context `{Rendering}.

(** The callbacks the widgets are bound to: the button of the main screen
    (line 63) with the file the dialog gives, a class tile (line 147), a
    student tile (line 232) and the button of a session window (line 182)
    with the clock [save_attendance] reads; and the close button of a
    session window, which the program leaves to Tk: the window is
    destroyed. *)
Inductive callback :=
| add_btn (path : string)
| class_tile (class_name : string)
| student_button (class_name student_id : string)
| save_btn (class_name : string) (attendance_window : window) (now : datetime)
| wm_delete_window (attendance_window : window).

(** One callback run by [mainloop]: Tk reports an exception a callback
    raises and goes on with the next event, so the state the method leaves
    is the state the next callback finds, whether it returned or raised. *)
Definition dispatch (cb : callback) (s : AppState) : AppState :=
  match cb with
  | add_btn path => snd (add_new_class path s)
  | class_tile class_name => snd (open_attendance_screen class_name s)
  | student_button class_name student_id => snd (toggle_attendance class_name student_id s)
  | save_btn class_name attendance_window now =>
      snd (save_attendance class_name attendance_window now s)
  | wm_delete_window attendance_window => destroy_window attendance_window s
  end.

(** [run]: the callbacks of the events in turn. *)
Definition mainloop (events : list callback) (s : AppState) : AppState :=
  fold_left (fun s cb => dispatch cb s) events s.

End Events.

(** Every record of a class points at a stored table that has the two
    detected columns and ["Total"]. *)
Definition records_sound (s : AppState) : Prop :=
  forall class_name entry,
    classes_data s !! class_name = Some entry ->
    exists d,
      heap s !! dataframe entry = Some d
      /\ Pd.has_column (roll_column entry) d = true
      /\ Pd.has_column (name_column entry) d = true
      /\ Pd.has_column "Total" d = true.

(** Every student button has a flag in the ledger of its class, and shows
    it as long as its window exists. *)
Definition buttons_agree (s : AppState) : Prop :=
  forall class_name buttons,
    student_buttons s !! class_name = Some buttons ->
    exists ledger,
      attendance_records s !! class_name = Some ledger
      /\ forall student_id button,
           buttons !! student_id = Some button ->
           exists b : bool,
             ledger !! student_id = Some b
             /\ ((master button ∉ destroyed s) ->
                 bg button = if b then COLOR_present else COLOR_absent).

(** The windows that were destroyed and the windows of the student buttons
    are windows that were created. *)
Definition windows_created (s : AppState) : Prop :=
  (forall w, w ∈ destroyed s -> w < toplevels s)
  /\ (forall class_name buttons student_id button,
        student_buttons s !! class_name = Some buttons ->
        buttons !! student_id = Some button ->
        master button < toplevels s).

(** Every class with student tiles has a record. *)
Definition sessions_listed (s : AppState) : Prop :=
  forall class_name : string,
    is_Some (student_buttons s !! class_name) -> is_Some (classes_data s !! class_name).

(** Every class tile stands for a record. *)
Definition tiles_listed (s : AppState) : Prop :=
  forall class_name : string,
    class_name ∈ class_tiles s -> is_Some (classes_data s !! class_name).

(** The five together. *)
Definition sound (s : AppState) : Prop :=
  records_sound s /\ buttons_agree s /\ tiles_listed s /\ sessions_listed s
  /\ windows_created s.

(** ** More runs *)

(** A sheet whose labels match no pattern. *)
Definition plain_table : DataFrame :=
  {| nrows := 2;
     cols := [("Code", [CStr "A1"; CStr "B2"]); ("Pupil", [CStr "Ines"; CStr "Joao"])] |}.

(** The class of [roster_table] in a session where the user loads the file,
    opens the class and marks student 101. *)
Definition demo_files : gmap string DataFrame := {[ "/data/cs.xlsx" := roster_table ]}.

Definition demo_events : list callback :=
  [add_btn "/data/cs.xlsx"; class_tile "cs"; student_button "cs" "101"].

(** The same class while its workbook cannot be written. *)
Definition locked_open : AppState :=
  @mainloop text_rendering [add_btn "/data/cs.xlsx"; class_tile "cs"]
    (initial_state demo_files ["/data/cs.xlsx"]).

(** The buttons of [demo_open], in the first window. *)
Definition demo_buttons : gmap string Button :=
  <["103" := {| master := 0; bg := COLOR_absent |}]>
    (<["102" := {| master := 0; bg := COLOR_absent |}]>
       (<["101" := {| master := 0; bg := COLOR_absent |}]> ∅)).

(** The class opened twice and saved from the second window: the first
    window is still there, the buttons the class holds are those of the
    second. *)
Definition demo_saved : AppState :=
  @mainloop text_rendering
    [add_btn "/data/cs.xlsx"; class_tile "cs"; class_tile "cs"; save_btn "cs" 1 demo_now]
    (initial_state demo_files []).

(** The day after [demo_now]. *)
Definition demo_next : datetime := {| year := 2024; month := 6; day := 6 |}.

(** * Properties *)

(** ** Column detection *)

Section Detection.

Lemma matches_roll_truthy col : matches_roll col = true -> PyStr.truthy (Some col) = true.
Proof. destruct col; [discriminate | reflexivity]. Qed.

Lemma matches_name_truthy col : matches_name col = true -> PyStr.truthy (Some col) = true.
Proof. destruct col; [discriminate | reflexivity]. Qed.

(** The four shapes of a loop iteration. *)
Lemma detect_step_roll name_col col :
  matches_roll col = true -> detect_step (None, name_col) col = (Some col, name_col).
Proof. intros Hr. unfold detect_step. simpl. now rewrite Hr. Qed.

Lemma detect_step_name roll_col col :
  (PyStr.truthy roll_col = true \/ matches_roll col = false) ->
  matches_name col = true ->
  detect_step (roll_col, None) col = (roll_col, Some col).
Proof.
  intros Hr Hn. unfold detect_step. simpl. rewrite Hn.
  destruct Hr as [-> | ->]; simpl; [reflexivity |].
  now rewrite andb_false_r.
Qed.

Lemma detect_step_skip st col :
  (PyStr.truthy (fst st) = true \/ matches_roll col = false) ->
  (PyStr.truthy (snd st) = true \/ matches_name col = false) ->
  detect_step st col = st.
Proof.
  intros Hr Hn. unfold detect_step.
  assert (H1 : negb (PyStr.truthy (fst st)) && matches_roll col = false)
    by (destruct Hr as [-> | ->]; [reflexivity | now rewrite andb_false_r]).
  assert (H2 : negb (PyStr.truthy (snd st)) && matches_name col = false)
    by (destruct Hn as [-> | ->]; [reflexivity | now rewrite andb_false_r]).
  now rewrite H1, H2.
Qed.

Lemma detect_step_cases st col :
  (detect_step st col = (Some col, snd st))
  \/ (detect_step st col = (fst st, Some col))
  \/ detect_step st col = st.
Proof.
  unfold detect_step.
  destruct (negb (PyStr.truthy (fst st)) && matches_roll col); [now left |].
  destruct (negb (PyStr.truthy (snd st)) && matches_name col); [right; now left |].
  right; now right.
Qed.

(** Once both slots hold a non-empty label the loop leaves them alone. *)
Lemma scan_full columns r n :
  PyStr.truthy (Some r) = true -> PyStr.truthy (Some n) = true ->
  fold_left detect_step columns (Some r, Some n) = (Some r, Some n).
Proof.
  intros Hr Hn. induction columns as [|c columns IH]; [reflexivity |].
  simpl fold_left. rewrite detect_step_skip by (now left). exact IH.
Qed.

(** With the identifier slot filled, the first later column that holds a
    name pattern fills the name slot. *)
Lemma scan_name_after columns r j n :
  PyStr.truthy (Some r) = true ->
  columns !! j = Some n -> matches_name n = true ->
  (forall k c, k < j -> columns !! k = Some c -> matches_name c = false) ->
  fold_left detect_step columns (Some r, None) = (Some r, Some n).
Proof.
  intros Hr. revert j. induction columns as [|c columns IH]; intros j Hj Hn Hfirst.
  - discriminate.
  - simpl fold_left. destruct j as [|j].
    + injection Hj as ->. rewrite detect_step_name by (auto).
      apply scan_full; [exact Hr | now apply matches_name_truthy].
    + rewrite detect_step_skip.
      * apply (IH j); [exact Hj | exact Hn |].
        intros k c' Hk Hc'. apply (Hfirst (S k) c'); [lia | exact Hc'].
      * now left.
      * right. apply (Hfirst 0 c); [lia | reflexivity].
Qed.

(** With the name slot filled, the first later column that holds an
    identifier pattern fills the identifier slot. *)
Lemma scan_roll_after columns n i r :
  PyStr.truthy (Some n) = true ->
  columns !! i = Some r -> matches_roll r = true ->
  (forall k c, k < i -> columns !! k = Some c -> matches_roll c = false) ->
  fold_left detect_step columns (None, Some n) = (Some r, Some n).
Proof.
  intros Hn. revert i. induction columns as [|c columns IH]; intros i Hi Hr Hfirst.
  - discriminate.
  - simpl fold_left. destruct i as [|i].
    + injection Hi as ->. rewrite detect_step_roll by exact Hr.
      apply scan_full; [now apply matches_roll_truthy | exact Hn].
    + rewrite detect_step_skip.
      * apply (IH i); [exact Hi | exact Hr |].
        intros k c' Hk Hc'. apply (Hfirst (S k) c'); [lia | exact Hc'].
      * right. apply (Hfirst 0 c); [lia | reflexivity].
      * now left.
Qed.

(** The scan from empty slots: the first column with an identifier pattern
    (position [i]) and the first column other than that one with a name
    pattern (position [j]). *)
Lemma scan_first_matches columns i j r n :
  columns !! i = Some r -> matches_roll r = true ->
  (forall k c, k < i -> columns !! k = Some c -> matches_roll c = false) ->
  columns !! j = Some n -> j <> i -> matches_name n = true ->
  (forall k c, k < j -> k <> i -> columns !! k = Some c -> matches_name c = false) ->
  detect_scan columns = (Some r, Some n).
Proof.
  unfold detect_scan. revert i j.
  induction columns as [|c columns IH]; intros i j Hi Hr Hri Hj Hij Hn Hnj.
  - discriminate.
  - simpl fold_left. destruct i as [|i].
    + injection Hi as ->. rewrite detect_step_roll by exact Hr.
      destruct j as [|j]; [congruence |].
      apply (scan_name_after columns r j n); auto using matches_roll_truthy.
      intros k c Hk Hc. apply (Hnj (S k) c); [lia | lia | exact Hc].
    + destruct j as [|j].
      * injection Hj as ->. rewrite detect_step_name; [| right | exact Hn].
        -- apply (scan_roll_after columns n i r); auto using matches_name_truthy.
           intros k c Hk Hc. apply (Hri (S k) c); [lia | exact Hc].
        -- apply (Hri 0 n); [lia | reflexivity].
      * rewrite detect_step_skip.
        -- apply (IH i j); auto.
           ++ intros k c' Hk Hc'. apply (Hri (S k) c'); [lia | exact Hc'].
           ++ intros k c' Hk Hne Hc'. apply (Hnj (S k) c'); [lia | lia | exact Hc'].
        -- right. apply (Hri 0 c); [lia | reflexivity].
        -- right. apply (Hnj 0 c); [lia | lia | reflexivity].
Qed.


Lemma slots_in_step seen st col :
  slots_in seen st -> slots_in (seen ++ [col]) (detect_step st col).
Proof.
  intros (Hr & Hn & Hrn).
  assert (Hlast : (seen ++ [col]) !! length seen = Some col).
  { rewrite lookup_app_r by lia. now rewrite Nat.sub_diag. }
  assert (Hold : forall k c, seen !! k = Some c ->
                   (seen ++ [col]) !! k = Some c /\ k <> length seen).
  { intros k c Hk. split; [now apply lookup_app_l_Some |].
    apply lookup_lt_Some in Hk. lia. }
  destruct st as [ro no]. simpl in Hr, Hn.
  destruct (detect_step_cases (ro, no) col) as [-> | [-> | ->]]; simpl.
  - split; [| split].
    + intros r [= <-]. eauto.
    + intros n Hno. destruct (Hn n Hno) as [j Hj]. exists j. now apply Hold.
    + intros r n [= <- ->]. destruct (Hn n eq_refl) as [j Hj].
      exists (length seen), j. destruct (Hold j n Hj). auto.
  - split; [| split].
    + intros r Hro. destruct (Hr r Hro) as [i Hi]. exists i. now apply Hold.
    + intros n [= <-]. eauto.
    + intros r n [= -> <-]. destruct (Hr r eq_refl) as [i Hi].
      exists i, (length seen). destruct (Hold i r Hi). auto.
  - split; [| split].
    + intros r Hro. destruct (Hr r Hro) as [i Hi]. exists i. now apply Hold.
    + intros n Hno. destruct (Hn n Hno) as [j Hj]. exists j. now apply Hold.
    + intros r n Heq. destruct (Hrn r n Heq) as (i & j & Hij & Hi & Hj).
      exists i, j. destruct (Hold i r Hi), (Hold j n Hj). auto.
Qed.

Lemma slots_in_scan columns : forall seen st,
  slots_in seen st -> slots_in (seen ++ columns) (fold_left detect_step columns st).
Proof.
  induction columns as [|c columns IH]; intros seen st Hst.
  - now rewrite app_nil_r.
  - simpl fold_left. replace (seen ++ c :: columns) with ((seen ++ [c]) ++ columns)
      by now rewrite <- app_assoc.
    apply IH. now apply slots_in_step.
Qed.

(** C10: the scan never gives one column to both slots. In one iteration
    at most one slot changes (the name test sits in the [elif] of the
    identifier test), and when the loop ends with both slots assigned the two
    labels come from two different positions of the column list, hence are
    different labels when the header has no repeated label. The two results
    of [detect_data_columns] can therefore coincide only when a slot was left
    to the first/second-column default. *)
Theorem scan_never_assigns_one_column_twice (df : DataFrame) (r n : label) :
  detect_scan (Pd.columns df) = (Some r, Some n) ->
  (forall st col, fst (detect_step st col) = fst st \/ snd (detect_step st col) = snd st)
  /\ (exists i j, i <> j /\ Pd.columns df !! i = Some r /\ Pd.columns df !! j = Some n)
  /\ (NoDup (Pd.columns df) -> r <> n).
Proof.
  intros Hscan.
  assert (Hpos : exists i j, i <> j /\ Pd.columns df !! i = Some r
                            /\ Pd.columns df !! j = Some n).
  { assert (Hinit : slots_in [] (None, None)).
    { repeat split; intros; simpl in *; discriminate. }
    apply (slots_in_scan (Pd.columns df)) in Hinit. simpl app in Hinit.
    fold (detect_scan (Pd.columns df)) in Hinit. rewrite Hscan in Hinit.
    destruct Hinit as (_ & _ & Hboth). now apply Hboth. }
  split; [| split; [exact Hpos |]].
  - intros st col. destruct (detect_step_cases st col) as [-> | [-> | ->]]; auto.
  - intros Hnodup ->. destruct Hpos as (i & j & Hij & Hi & Hj).
    apply Hij. exact (NoDup_lookup _ _ _ _ Hnodup Hi Hj).
Qed.

(** C3 (amended): when some column holds an identifier pattern and some
    column other than the first such one holds a name pattern,
    [detect_data_columns] returns the first column with an identifier pattern
    and the first column, other than that one, with a name pattern. *)
Theorem detect_first_matches (df : DataFrame) (i j : nat) (r n : label) :
  Pd.columns df !! i = Some r -> matches_roll r = true ->
  (forall k c, k < i -> Pd.columns df !! k = Some c -> matches_roll c = false) ->
  Pd.columns df !! j = Some n -> j <> i -> matches_name n = true ->
  (forall k c, k < j -> k <> i -> Pd.columns df !! k = Some c -> matches_name c = false) ->
  detect_data_columns df = Return (r, n).
Proof.
  intros Hi Hr Hri Hj Hij Hn Hnj. unfold detect_data_columns.
  rewrite (scan_first_matches (Pd.columns df) i j r n) by assumption.
  unfold py_or, fst, snd.
  rewrite (matches_roll_truthy r Hr), (matches_name_truthy n Hn).
  reflexivity.
Qed.

End Detection.

(** ** Facts about the pandas operations *)

Section Frames.

Lemma labelled_in key d kc : kc ∈ Pd.labelled key d <-> fst kc = key /\ kc ∈ cols d.
Proof. unfold Pd.labelled. rewrite list_elem_of_filter. tauto. Qed.

Lemma labelled_nil key d : Pd.labelled key d = [] <-> key ∉ Pd.columns d.
Proof.
  unfold Pd.labelled, Pd.columns.
  induction (cols d) as [|kc l IH]; simpl.
  - split; [intros _; apply not_elem_of_nil | reflexivity].
  - rewrite filter_cons, not_elem_of_cons. destruct (decide (fst kc = key)) as [Heq | Hne].
    + split; [discriminate | intros [Hk _]; congruence].
    + rewrite IH. split; [intros Hl; split; [congruence | exact Hl] | tauto].
Qed.

Lemma labelled_columns key d :
  map fst (Pd.labelled key d) = repeat key (count_occ string_dec (Pd.columns d) key).
Proof.
  unfold Pd.labelled, Pd.columns.
  induction (cols d) as [|kc l IH]; simpl; [reflexivity |].
  rewrite filter_cons. destruct (decide (fst kc = key)) as [Heq | Hne];
    destruct (string_dec (fst kc) key); try congruence.
  simpl. now rewrite IH, Heq.
Qed.

Lemma take_Return keys d picked :
  Pd.take keys d = Return picked ->
  picked = flat_map (fun key => Pd.labelled key d) keys
  /\ Forall (fun key => key ∈ Pd.columns d) keys.
Proof.
  revert picked. induction keys as [|key keys IH]; intros picked; simpl.
  - intros [= <-]. split; [reflexivity | constructor].
  - destruct (Pd.labelled key d) as [|kc found] eqn:Hfound; [discriminate |].
    destruct (Pd.take keys d) as [rest|]; simpl; [| discriminate].
    intros [= <-]. destruct (IH rest eq_refl) as [-> Hall]. split; [reflexivity |].
    constructor; [| exact Hall].
    destruct (decide (key ∈ Pd.columns d)) as [Hin | Hnot]; [exact Hin |].
    apply labelled_nil in Hnot. congruence.
Qed.

Lemma take_ok keys d :
  Forall (fun key => key ∈ Pd.columns d) keys ->
  Pd.take keys d = Return (flat_map (fun key => Pd.labelled key d) keys).
Proof.
  induction 1 as [|key keys Hin Hall IH]; simpl; [reflexivity |].
  rewrite IH. destruct (Pd.labelled key d) as [|kc found] eqn:Hfound.
  - apply labelled_nil in Hfound. contradiction.
  - reflexivity.
Qed.

Lemma getitem_Return keys d table :
  Pd.getitem keys d = Return table ->
  nrows table = nrows d
  /\ cols table = flat_map (fun key => Pd.labelled key d) keys
  /\ Forall (fun key => key ∈ Pd.columns d) keys.
Proof.
  unfold Pd.getitem. destruct (Pd.take keys d) as [picked|] eqn:Htake; simpl;
    [| discriminate].
  intros [= <-]. simpl. split; [reflexivity |]. now apply take_Return.
Qed.

Lemma getitem_ok keys d :
  Forall (fun key => key ∈ Pd.columns d) keys ->
  Pd.getitem keys d
  = Return {| nrows := nrows d; cols := flat_map (fun key => Pd.labelled key d) keys |}.
Proof. intros Hall. unfold Pd.getitem. now rewrite take_ok. Qed.

(** How often a label occurs among the columns picked by [df[keys]]. *)
Lemma count_picked keys d x :
  count_occ string_dec (map fst (flat_map (fun key => Pd.labelled key d) keys)) x
  = count_occ string_dec keys x * count_occ string_dec (Pd.columns d) x.
Proof.
  induction keys as [|key keys IH]; simpl; [reflexivity |].
  rewrite map_app, count_occ_app, IH, labelled_columns.
  destruct (string_dec key x) as [-> | Hne].
  - rewrite count_occ_repeat_eq by reflexivity. lia.
  - rewrite count_occ_repeat_neq by congruence. lia.
Qed.

(** With unique labels, [df[keys]] has exactly the labels [keys]. *)
Lemma columns_picked keys d :
  NoDup (Pd.columns d) -> Forall (fun key => key ∈ Pd.columns d) keys ->
  map fst (flat_map (fun key => Pd.labelled key d) keys) = keys.
Proof.
  intros Hnodup. induction 1 as [|key keys Hin Hall IH]; simpl; [reflexivity |].
  rewrite map_app, IH, labelled_columns.
  assert (Hone : count_occ string_dec (Pd.columns d) key = 1).
  { apply NoDup_ListNoDup in Hnodup.
    pose proof (proj1 (NoDup_count_occ string_dec _) Hnodup key) as Hle.
    apply list_elem_of_In in Hin.
    apply (count_occ_In string_dec) in Hin. lia. }
  now rewrite Hone.
Qed.

Lemma nrows_setitem key v d : nrows (Pd.setitem key v d) = nrows d.
Proof. unfold Pd.setitem. now destruct (Pd.has_column key d). Qed.

Lemma columns_setitem key v d :
  Pd.columns (Pd.setitem key v d)
  = if Pd.has_column key d then Pd.columns d else Pd.columns d ++ [key].
Proof.
  unfold Pd.setitem, Pd.columns. destruct (Pd.has_column key d); simpl.
  - rewrite map_map. apply map_ext. intros kc. now destruct (String.eqb (fst kc) key).
  - now rewrite map_app.
Qed.

Lemma setitem_has key v d : key ∈ Pd.columns (Pd.setitem key v d).
Proof.
  rewrite columns_setitem. unfold Pd.has_column. case_bool_decide as Hin; [exact Hin |].
  apply elem_of_app. right. apply list_elem_of_singleton. reflexivity.
Qed.

Lemma labelled_setitem_ne key key' v d :
  key' <> key -> Pd.labelled key' (Pd.setitem key v d) = Pd.labelled key' d.
Proof.
  intros Hne. unfold Pd.labelled, Pd.setitem. destruct (Pd.has_column key d); simpl.
  - induction (cols d) as [|kc l IH]; [reflexivity |].
    simpl map. rewrite !filter_cons, IH.
    destruct (String.eqb_spec (fst kc) key) as [Heq | Hneq]; simpl; [| reflexivity].
    destruct (decide (fst kc = key')); [congruence | reflexivity].
  - rewrite filter_app, filter_cons, filter_nil. simpl.
    destruct (decide (key = key')); [congruence |]. now rewrite app_nil_r.
Qed.

Lemma setitem_value key v d kc :
  kc ∈ cols (Pd.setitem key v d) -> fst kc = key -> snd kc = v.
Proof.
  unfold Pd.setitem. destruct (Pd.has_column key d) eqn:Hhas; simpl.
  - intros Hin Hk. apply list_elem_of_fmap in Hin as (kc' & -> & _).
    destruct (String.eqb_spec (fst kc') key) as [_ | Hne]; [reflexivity |].
    contradiction.
  - intros Hin Hk. apply elem_of_app in Hin as [Hin | Hin].
    + unfold Pd.has_column in Hhas. apply bool_decide_eq_false in Hhas.
      exfalso. apply Hhas. unfold Pd.columns. apply list_elem_of_fmap. eauto.
    + apply list_elem_of_singleton in Hin. now subst kc.
Qed.

Lemma other_columns_in r n d key :
  key ∈ other_columns r n d <-> (key ∉ [r; n; "Total"]) /\ key ∈ Pd.columns d.
Proof. unfold other_columns. now rewrite list_elem_of_filter. Qed.

Lemma other_columns_all_in r n d :
  Forall (fun key => key ∈ Pd.columns d) (other_columns r n d).
Proof. apply Forall_forall. intros key Hin. now apply other_columns_in in Hin. Qed.

Lemma other_columns_setitem_total r n v d :
  other_columns r n (Pd.setitem "Total" v d) = other_columns r n d.
Proof.
  unfold other_columns. rewrite columns_setitem.
  destruct (Pd.has_column "Total" d); [reflexivity |].
  rewrite filter_app, filter_cons_False, filter_nil; [now rewrite app_nil_r |].
  intros Hnot. apply Hnot. set_solver.
Qed.

(** The attendance columns are picked from the same columns before and after
    the total is written. *)
Lemma picked_setitem_total r n v d :
  flat_map (fun key => Pd.labelled key (Pd.setitem "Total" v d)) (other_columns r n d)
  = flat_map (fun key => Pd.labelled key d) (other_columns r n d).
Proof.
  assert (Hall : Forall (fun key => key <> "Total") (other_columns r n d)).
  { apply Forall_forall. intros key Hin. apply other_columns_in in Hin as [Hnot _].
    intros ->. apply Hnot. set_solver. }
  induction Hall as [|key keys Hkey Hall IH]; simpl; [reflexivity |].
  now rewrite IH, labelled_setitem_ne.
Qed.

Lemma filter_labelled_out (X : list label) key d :
  key ∈ X -> filter (fun kc => fst kc ∉ X) (Pd.labelled key d) = [].
Proof.
  intros Hin. unfold Pd.labelled.
  induction (cols d) as [|kc l IH]; [reflexivity |].
  rewrite filter_cons. destruct (decide (fst kc = key)) as [Heq | _]; [| exact IH].
  rewrite filter_cons, IH. destruct (decide (fst kc ∉ X)) as [Hnot | _]; [| reflexivity].
  exfalso. apply Hnot. now rewrite Heq.
Qed.

Lemma filter_labelled_in (X : list label) key d :
  key ∉ X -> filter (fun kc => fst kc ∉ X) (Pd.labelled key d) = Pd.labelled key d.
Proof.
  intros Hnot. unfold Pd.labelled.
  induction (cols d) as [|kc l IH]; [reflexivity |].
  rewrite filter_cons. destruct (decide (fst kc = key)) as [Heq | _]; [| exact IH].
  rewrite filter_cons, IH. destruct (decide (fst kc ∉ X)) as [_ | Hin]; [reflexivity |].
  exfalso. apply Hin. now rewrite Heq.
Qed.

Lemma filter_picked_others r n d0 d :
  filter (fun kc => fst kc ∉ [r; n; "Total"])
    (flat_map (fun key => Pd.labelled key d) (other_columns r n d0))
  = flat_map (fun key => Pd.labelled key d) (other_columns r n d0).
Proof.
  assert (Hall : Forall (fun key => key ∉ [r; n; "Total"]) (other_columns r n d0)).
  { apply Forall_forall. intros key Hin. now apply other_columns_in in Hin. }
  induction Hall as [|key keys Hkey Hall IH]; simpl; [reflexivity |].
  now rewrite filter_app, IH, filter_labelled_in.
Qed.

Lemma series_has_row_eq key d i : Pd.series_has key (Pd.row d i) = Pd.has_column key d.
Proof.
  unfold Pd.series_has, Pd.has_column, Pd.row, Pd.columns.
  now rewrite map_map.
Qed.

(** A cell passes [value == "Present"] exactly when it is that text. *)
Lemma is_present_iff value : Pd.is_present value = true <-> value = CStr "Present".
Proof.
  destruct value as [s | z |]; simpl; try (split; discriminate).
  rewrite String.eqb_eq. split; [now intros -> | now intros [= ->]].
Qed.

Lemma is_present_nth (column : list cell) i :
  Pd.is_present (nth i column CNaN) = true <-> column !! i = Some (CStr "Present").
Proof.
  rewrite is_present_iff. revert i.
  induction column as [|c column IH]; intros [|i]; simpl; try (split; discriminate).
  - split; [now intros -> | now intros [= ->]].
  - apply IH.
Qed.

(** The count of one row of [df[attendance_columns]]. *)
Lemma count_present_row d i :
  Pd.count_present (Pd.row d i)
  = length (filter (fun kc => snd kc !! i = Some (CStr "Present")) (cols d)).
Proof.
  unfold Pd.count_present, Pd.row.
  induction (cols d) as [|kc l IH]; [reflexivity |].
  simpl map. rewrite !filter_cons. simpl snd.
  destruct (decide (Pd.is_present (nth i (snd kc) CNaN) = true)) as [Hp | Hp];
    destruct (decide (snd kc !! i = Some (CStr "Present"))) as [Hl | Hl];
    simpl; rewrite ?IH; try reflexivity.
  - apply is_present_nth in Hp. contradiction.
  - apply is_present_nth in Hl. contradiction.
Qed.

Lemma apply_count_present_lookup d i :
  i < nrows d ->
  Pd.apply_count_present d !! i = Some (CInt (Z.of_nat (Pd.count_present (Pd.row d i)))).
Proof.
  intros Hi. unfold Pd.apply_count_present, Pd.iterrows.
  rewrite !list_lookup_fmap, lookup_seq_lt by exact Hi. reflexivity.
Qed.

(** Lines 282-289: in the reordered table every ["Total"] column holds, on
    every row, the number of attendance columns of that same table whose cell
    is ["Present"]. *)
Lemma saved_total_counts r n d1 d2 table :
  totalled r n d1 = Return d2 -> saved_table r n d2 = Return table ->
  nrows table = nrows d1
  /\ (exists column, ("Total", column) ∈ cols table)
  /\ (forall i column, i < nrows table -> ("Total", column) ∈ cols table ->
       column !! i = Some (CInt (Z.of_nat (present_in r n table i)))).
Proof.
  unfold totalled, saved_table.
  destruct (Pd.getitem (other_columns r n d1) d1) as [sub|] eqn:Hsub; [| discriminate].
  cbn [mbind outcome_bind]. intros [= <-].
  apply getitem_Return in Hsub as (Hsub_rows & Hsub_cols & _).
  rewrite other_columns_setitem_total.
  intros Htable. apply getitem_Return in Htable as (Hrows & Hcols & Hkeys).
  rewrite nrows_setitem in Hrows.
  set (counts := Pd.apply_count_present sub) in *.
  set (d2 := Pd.setitem "Total" counts d1) in *.
  assert (Hatt : filter (fun kc => fst kc ∉ [r; n; "Total"]) (cols table) = cols sub).
  { rewrite Hcols, Hsub_cols. simpl flat_map.
    rewrite !filter_app, !filter_labelled_out by set_solver.
    simpl app. unfold d2. rewrite picked_setitem_total. apply filter_picked_others. }
  assert (Hcount : forall i, present_in r n table i = Pd.count_present (Pd.row sub i)).
  { intros i. unfold present_in. rewrite count_present_row, <- Hatt.
    rewrite list_filter_filter. f_equal. apply list_filter_iff. tauto. }
  split; [exact Hrows | split].
  - assert (Hin : "Total" ∈ Pd.columns d2) by apply setitem_has.
    destruct (Pd.labelled "Total" d2) as [|kc found] eqn:Hfound.
    { apply labelled_nil in Hfound. contradiction. }
    assert (Hkc : kc ∈ Pd.labelled "Total" d2) by (rewrite Hfound; left).
    pose proof Hkc as Hlabel. apply labelled_in in Hlabel as [Hlabel _].
    exists (snd kc). rewrite Hcols. simpl flat_map.
    rewrite !elem_of_app. right. right. left.
    destruct kc as [k column]. simpl in Hlabel. now subst k.
  - intros i column Hi Hin. rewrite Hcols in Hin.
    apply list_elem_of_In, in_flat_map in Hin as (key & _ & Hin).
    apply list_elem_of_In, labelled_in in Hin as [_ Hin].
    apply setitem_value in Hin; [| reflexivity]. simpl in Hin. subst column.
    rewrite Hcount. apply apply_count_present_lookup. lia.
Qed.

End Frames.

(** ** Running the methods *)

Ltac state_simpl :=
  unfold destroy_window;
  unfold set_heap, set_classes_data, set_attendance_records, set_student_buttons,
    set_class_tiles, set_disk, set_dialogs, set_toplevels, set_destroyed;
  cbn [heap classes_data attendance_records student_buttons class_tiles disk locked
       dialogs toplevels destroyed].

Section Runs.
Context `{Rendering}.

Lemma bind_run {A B} (m : Py A) (f : A -> Py B) s :
  (m ≫= f) s = match m s with
               | (Return a, s') => f a s'
               | (Raise e, s') => (Raise e, s')
               end.
Proof. reflexivity. Qed.

Lemma heap_lookup_fresh (h : list DataFrame) d : (h ++ [d]) !! length h = Some d.
Proof. now apply list_lookup_middle. Qed.

Lemma heap_insert_fresh (h : list DataFrame) d d' :
  <[length h := d']> (h ++ [d]) = h ++ [d'].
Proof. rewrite insert_app_r_alt by lia. now rewrite Nat.sub_diag. Qed.

Lemma run_dict_get {V B} (m : gmap string V) key v (f : V -> Py B) s :
  m !! key = Some v -> (dict_get m key ≫= f) s = f v s.
Proof. intros Hk. rewrite bind_run. unfold dict_get. now rewrite Hk. Qed.

Lemma run_load {B} r d (f : DataFrame -> Py B) s :
  heap s !! r = Some d -> (load r ≫= f) s = f d s.
Proof. intros Hr. rewrite bind_run. unfold load. now rewrite Hr. Qed.

Lemma run_update {B} r d g (f : unit -> Py B) s :
  heap s !! r = Some d ->
  (update r g ≫= f) s = f tt (set_heap (fun h => <[r := g d]> h) s).
Proof.
  intros Hr. rewrite bind_run. unfold update, modify, set_heap. now rewrite Hr.
Qed.

Lemma run_lift {A B} (o : outcome A) (f : A -> Py B) s :
  (lift o ≫= f) s = match o with
                    | Return a => f a s
                    | Raise e => (Raise e, s)
                    end.
Proof. rewrite bind_run. unfold lift. now destruct o. Qed.

Lemma run_to_excel {B} df d path (f : unit -> Py B) s :
  heap s !! df = Some d ->
  (to_excel df path ≫= f) s
  = if bool_decide (path ∈ locked s) then (Raise PermissionError, s)
    else f tt (set_disk (insert path d) s).
Proof.
  intros Hdf. rewrite bind_run. unfold to_excel.
  rewrite run_load with (d := d) by exact Hdf.
  rewrite bind_run. cbn [get_state].
  now destruct (bool_decide (path ∈ locked s)).
Qed.

Lemma attendance_status_run class_name roll_col r s :
  attendance_status class_name roll_col r s
  = (status_of (attendance_records s) class_name roll_col r, s).
Proof.
  unfold attendance_status, status_of. rewrite bind_run. unfold lift.
  destruct (student_id_of r roll_col) as [sid|e]; [| reflexivity].
  rewrite bind_run. unfold get_state. rewrite bind_run. unfold dict_get.
  destruct (attendance_records s !! class_name) as [ledger|]; reflexivity.
Qed.

(** The loop that builds [attendance_list] reads the state and leaves it
    as it is. *)
Lemma mapM_status class_name roll_col rows s :
  mapM (attendance_status class_name roll_col) rows s
  = (mapM (status_of (attendance_records s) class_name roll_col) rows, s).
Proof.
  induction rows as [|r rows IH]; [reflexivity |].
  change (mapM (attendance_status class_name roll_col) (r :: rows))
    with (y ← attendance_status class_name roll_col r;
          k ← mapM (attendance_status class_name roll_col) rows; mret (y :: k)).
  change (mapM (status_of (attendance_records s) class_name roll_col) (r :: rows))
    with (y ← status_of (attendance_records s) class_name roll_col r;
          k ← mapM (status_of (attendance_records s) class_name roll_col) rows;
          mret (y :: k)).
  rewrite bind_run, attendance_status_run.
  destruct (status_of (attendance_records s) class_name roll_col r) as [y|e];
    [| reflexivity].
  rewrite bind_run, IH.
  destruct (mapM (status_of (attendance_records s) class_name roll_col) rows);
    reflexivity.
Qed.

Lemma run_mapM_status {B} class_name roll_col rows (f : list cell -> Py B) s :
  (mapM (attendance_status class_name roll_col) rows ≫= f) s
  = match mapM (status_of (attendance_records s) class_name roll_col) rows with
    | Return l => f l s
    | Raise e => (Raise e, s)
    end.
Proof. rewrite bind_run, mapM_status. reflexivity. Qed.

(** [save_attendance] always returns [None]; it writes the planned table,
    reports success and destroys its window, or reports the exception of the
    plan. Either way the object store only grows by the working copies. *)
Lemma save_attendance_run class_name attendance_window now s :
  exists extra,
    save_attendance class_name attendance_window now s
    = (Return PNone,
       match save_plan class_name now s with
       | Return (path, table) =>
           destroy_window attendance_window
             (set_dialogs (fun l => l ++ [showinfo "Success" "Attendance saved!"])
                (set_disk (insert path table) (set_heap (fun h => h ++ extra) s)))
       | Raise e =>
           set_dialogs (fun l => l ++ [showerror "Error" "Failed to save attendance: " e])
             (set_heap (fun h => h ++ extra) s)
       end).
Proof.
  unfold save_plan, save_attendance, try_except.
  destruct s as [h cd ar sb ct dk lk dl tl ds].
  cbn [heap classes_data attendance_records locked].
  rewrite bind_run. cbn [get_state]. state_simpl.
  destruct (cd !! class_name) as [entry|] eqn:Hentry; cbn [found mbind outcome_bind].
  2:{ exists []. rewrite bind_run. unfold dict_get. rewrite Hentry.
      state_simpl. now rewrite app_nil_r. }
  rewrite (run_dict_get _ _ _ _ _ Hentry).
  destruct (h !! dataframe entry) as [stored|] eqn:Hstored; cbn [found mbind outcome_bind].
  2:{ exists []. rewrite bind_run. unfold load. cbn [heap]. rewrite Hstored.
      state_simpl. now rewrite app_nil_r. }
  rewrite run_load with (d := stored) by exact Hstored.
  rewrite bind_run. cbn [new_frame]. state_simpl.
  rewrite run_load with (d := stored) by apply heap_lookup_fresh.
  rewrite run_mapM_status. state_simpl.
  destruct (mapM _ (Pd.iterrows stored)) as [statuses|] eqn:Hstatuses;
    cbn [mbind outcome_bind].
  2:{ exists [stored]. reflexivity. }
  rewrite run_update with (d := stored) by apply heap_lookup_fresh.
  state_simpl. rewrite heap_insert_fresh.
  unfold totalled, saved_table, merged.
  rewrite run_load with (d := Pd.setitem (strftime_dmy now) statuses stored)
    by apply heap_lookup_fresh.
  rewrite run_lift.
  destruct (Pd.getitem _ (Pd.setitem _ statuses stored)) as [sub|] eqn:Hsub;
    cbn [mbind outcome_bind].
  2:{ eexists. reflexivity. }
  rewrite run_update with (d := Pd.setitem (strftime_dmy now) statuses stored)
    by apply heap_lookup_fresh.
  state_simpl. rewrite heap_insert_fresh.
  rewrite run_load with (d := Pd.setitem "Total" (Pd.apply_count_present sub)
                                 (Pd.setitem (strftime_dmy now) statuses stored))
    by apply heap_lookup_fresh.
  rewrite run_lift.
  destruct (Pd.getitem _ (Pd.setitem "Total" _ _)) as [table|] eqn:Htable;
    cbn [mbind outcome_bind].
  2:{ eexists. reflexivity. }
  rewrite bind_run. cbn [new_frame]. state_simpl.
  rewrite run_to_excel with (d := table) by apply heap_lookup_fresh.
  state_simpl. rewrite <- app_assoc.
  destruct (bool_decide (file_path entry ∈ lk)).
  - eexists. reflexivity.
  - eexists. reflexivity.
Qed.

(** [add_new_class] always returns [None]; it stores the planned record
    under the class name, or reports the exception and stores nothing. *)
Lemma add_new_class_run path s :
  path <> "" ->
  add_new_class path s
  = (Return PNone,
     match disk s !! path with
     | None =>
         set_dialogs
           (fun l => l ++ [showerror "Error" "Failed to load class: " FileNotFoundError]) s
     | Some table =>
         match load_plan table with
         | Return (roll_col, name_col, d') =>
             set_class_tiles (fun l => l ++ [class_name_of path])
               (set_classes_data
                  (insert (class_name_of path)
                     {| dataframe := S (length (heap s)); file_path := path;
                        roll_column := roll_col; name_column := name_col |})
                  (set_heap (fun h => h ++ [ensure_total table; d']) s))
         | Raise e =>
             set_dialogs (fun l => l ++ [showerror "Error" "Failed to load class: " e])
               (set_heap (fun h => h ++ [ensure_total table]) s)
         end
     end).
Proof.
  intros Hpath. unfold add_new_class, try_except, load_plan.
  apply String.eqb_neq in Hpath. rewrite Hpath.
  destruct s as [h cd ar sb ct dk lk dl tl ds]. state_simpl.
  unfold read_excel. rewrite !bind_run. cbn [get_state]. state_simpl.
  destruct (dk !! path) as [table|]; [| reflexivity].
  cbn [new_frame]. state_simpl.
  rewrite run_load with (d := table) by apply heap_lookup_fresh.
  assert (Htotal :
    forall B (f : unit -> Py B),
      ((if negb (Pd.has_column "Total" table)
        then update (length h) (Pd.setitem_scalar "Total" (CInt 0))
        else mret tt) ≫= f)
        {| heap := h ++ [table]; classes_data := cd; attendance_records := ar;
           student_buttons := sb; class_tiles := ct; disk := dk; locked := lk;
           dialogs := dl; toplevels := tl; destroyed := ds |}
      = f tt {| heap := h ++ [ensure_total table]; classes_data := cd;
                attendance_records := ar; student_buttons := sb; class_tiles := ct;
                disk := dk; locked := lk; dialogs := dl; toplevels := tl; destroyed := ds |}).
  { intros B f. unfold ensure_total.
    destruct (negb (Pd.has_column "Total" table)); [| reflexivity].
    rewrite run_update with (d := table) by apply heap_lookup_fresh.
    state_simpl. now rewrite heap_insert_fresh. }
  rewrite Htotal.
  rewrite run_load with (d := ensure_total table) by apply heap_lookup_fresh.
  rewrite run_lift.
  destruct (detect_data_columns (ensure_total table)) as [[roll_col name_col]|e];
    cbn [mbind outcome_bind fst snd]; [| reflexivity].
  rewrite run_lift.
  destruct (Pd.getitem _ (ensure_total table)) as [d'|e];
    cbn [mbind outcome_bind]; [| reflexivity].
  rewrite bind_run. cbn [new_frame]. state_simpl.
  rewrite <- app_assoc, length_app, Nat.add_1_r. reflexivity.
Qed.

End Runs.

(** ** Saving *)

Section Saving.
Context `{Rendering}.

Lemma save_plan_Return class_name now s path table :
  save_plan class_name now s = Return (path, table) ->
  exists entry stored statuses d,
    classes_data s !! class_name = Some entry
    /\ heap s !! dataframe entry = Some stored
    /\ mapM (status_of (attendance_records s) class_name (roll_column entry))
            (Pd.iterrows stored) = Return statuses
    /\ totalled (roll_column entry) (name_column entry)
         (merged (strftime_dmy now) statuses stored) = Return d
    /\ saved_table (roll_column entry) (name_column entry) d = Return table
    /\ path = file_path entry
    /\ file_path entry ∉ locked s.
Proof.
  unfold save_plan.
  destruct (classes_data s !! class_name) as [entry|] eqn:Hentry; [| discriminate].
  cbn [found mbind outcome_bind].
  destruct (heap s !! dataframe entry) as [stored|] eqn:Hstored; [| discriminate].
  cbn [found mbind outcome_bind].
  destruct (mapM _ (Pd.iterrows stored)) as [statuses|] eqn:Hstatuses; [| discriminate].
  cbn [mbind outcome_bind].
  destruct (totalled _ _ _) as [d|] eqn:Htotal; [| discriminate].
  cbn [mbind outcome_bind].
  destruct (saved_table _ _ d) as [table'|] eqn:Htable; [| discriminate].
  cbn [mbind outcome_bind].
  case_bool_decide as Hlocked; [discriminate |].
  intros [= <- <-]. exists entry, stored, statuses, d.
  split; [reflexivity |]. split; [exact Hstored |]. split; [exact Hstatuses |].
  split; [exact Htotal |]. split; [exact Htable |]. split; [reflexivity | exact Hlocked].
Qed.

(** The success box is shown exactly when the plan goes through. *)
Lemma save_success_plan class_name attendance_window now s :
  dialogs (snd (save_attendance class_name attendance_window now s))
  = dialogs s ++ [showinfo "Success" "Attendance saved!"] ->
  exists path table,
    save_plan class_name now s = Return (path, table)
    /\ disk (snd (save_attendance class_name attendance_window now s)) = <[path := table]> (disk s).
Proof.
  destruct (save_attendance_run class_name attendance_window now s) as [extra ->]. cbn [snd].
  destruct (save_plan class_name now s) as [[path table]|e]; state_simpl.
  - intros _. now exists path, table.
  - intros Hdialogs. apply app_inj_tail in Hdialogs as [_ Hd]. discriminate.
Qed.

Lemma columns_setitem_keeps key key' v d :
  key' ∈ Pd.columns d -> key' ∈ Pd.columns (Pd.setitem key v d).
Proof.
  intros Hin. rewrite columns_setitem. destruct (Pd.has_column key d); [exact Hin |].
  apply elem_of_app. now left.
Qed.

Lemma mapM_outcome_cons {A B} (f : A -> outcome B) x l :
  mapM f (x :: l) = y ← f x; k ← mapM f l; mret (y :: k).
Proof. reflexivity. Qed.

Lemma mapM_status_ok records class_name roll_col ledger d :
  records !! class_name = Some ledger -> Pd.has_column roll_col d = true ->
  exists statuses,
    mapM (status_of records class_name roll_col) (Pd.iterrows d) = Return statuses.
Proof.
  intros Hledger Hroll. unfold Pd.iterrows.
  induction (seq 0 (nrows d)) as [|i rows IH]; [now exists [] |].
  destruct IH as [statuses IH]. eexists.
  cbn [map]. rewrite mapM_outcome_cons, IH.
  unfold status_of, student_id_of. rewrite series_has_row_eq, Hroll, Hledger.
  reflexivity.
Qed.

(** A save goes through for a class whose session is open, whose two
    detected columns are in the stored table and whose file can be written. *)
Lemma save_goes_through class_name attendance_window now s entry stored ledger :
  classes_data s !! class_name = Some entry ->
  heap s !! dataframe entry = Some stored ->
  Pd.has_column (roll_column entry) stored = true ->
  Pd.has_column (name_column entry) stored = true ->
  attendance_records s !! class_name = Some ledger ->
  file_path entry ∉ locked s ->
  dialogs (snd (save_attendance class_name attendance_window now s))
  = dialogs s ++ [showinfo "Success" "Attendance saved!"].
Proof.
  intros Hentry Hstored Hroll Hname Hledger Hfree.
  apply bool_decide_eq_true in Hroll, Hname.
  destruct (mapM_status_ok (attendance_records s) class_name (roll_column entry)
              ledger stored Hledger) as [statuses Hstatuses];
    [now apply bool_decide_eq_true |].
  destruct (save_attendance_run class_name attendance_window now s) as [extra ->]. cbn [snd].
  unfold save_plan. rewrite Hentry. cbn [found mbind outcome_bind].
  rewrite Hstored. cbn [found mbind outcome_bind]. rewrite Hstatuses.
  cbn [mbind outcome_bind]. unfold totalled, merged.
  rewrite getitem_ok by apply other_columns_all_in. cbn [mbind outcome_bind].
  unfold saved_table. rewrite getitem_ok.
  - cbn [mbind outcome_bind]. rewrite bool_decide_eq_false_2 by exact Hfree.
    reflexivity.
  - apply Forall_app. split; [| apply other_columns_all_in].
    repeat constructor.
    + now do 2 apply columns_setitem_keeps.
    + now do 2 apply columns_setitem_keeps.
    + apply setitem_has.
Qed.

(** C1: after a save that went through, every ["Total"] cell of the written
    table is the number of attendance columns of that table (all columns but
    the identifier, the name and ["Total"]) whose cell on the same row is
    exactly the text ["Present"]; the comparison is case sensitive. *)
Theorem save_total_is_present_count class_name attendance_window now s :
  dialogs (snd (save_attendance class_name attendance_window now s))
  = dialogs s ++ [showinfo "Success" "Attendance saved!"] ->
  (exists entry table,
     classes_data s !! class_name = Some entry
     /\ disk (snd (save_attendance class_name attendance_window now s))
          !! file_path entry = Some table
     /\ (exists column, ("Total", column) ∈ cols table)
     /\ (forall i column, i < nrows table -> ("Total", column) ∈ cols table ->
          column !! i
          = Some (CInt (Z.of_nat
                          (present_in (roll_column entry) (name_column entry) table i)))))
  /\ Pd.is_present (CStr "present") = false
  /\ Pd.is_present (CStr "PRESENT") = false.
Proof.
  intros Hok. split; [| split; reflexivity].
  destruct (save_success_plan class_name attendance_window now s Hok)
    as (path & table & Hplan & Hdisk).
  apply save_plan_Return in Hplan
    as (entry & stored & statuses & d & Hentry & _ & _ & Htotal & Htable & -> & _).
  exists entry, table. split; [exact Hentry |].
  split; [rewrite Hdisk; apply lookup_insert_eq |].
  destruct (saved_total_counts _ _ _ _ _ Htotal Htable) as (_ & Hex & Hall).
  split; assumption.
Qed.

(** C9: a save, whether it goes through or not, leaves the roster store, the
    ledgers and the buttons as they were, and every table object that
    existed before the call (so the stored table of every class) keeps its
    content: the new date column and the recomputed total are written to the
    working copy and the file only. *)
Theorem save_leaves_memory_unchanged class_name attendance_window now s :
  classes_data (snd (save_attendance class_name attendance_window now s)) = classes_data s
  /\ attendance_records (snd (save_attendance class_name attendance_window now s))
       = attendance_records s
  /\ student_buttons (snd (save_attendance class_name attendance_window now s)) = student_buttons s
  /\ (forall r d, heap s !! r = Some d ->
       heap (snd (save_attendance class_name attendance_window now s)) !! r = Some d)
  /\ (forall c entry d, classes_data s !! c = Some entry ->
       heap s !! dataframe entry = Some d ->
       classes_data (snd (save_attendance class_name attendance_window now s)) !! c = Some entry
       /\ heap (snd (save_attendance class_name attendance_window now s))
            !! dataframe entry = Some d).
Proof.
  destruct (save_attendance_run class_name attendance_window now s) as [extra ->]. cbn [snd].
  assert (Hheap : forall r d, heap s !! r = Some d -> (heap s ++ extra) !! r = Some d).
  { intros r d Hr. now apply lookup_app_l_Some. }
  destruct (save_plan class_name now s) as [[path table]|e]; state_simpl;
    repeat split; auto.
Qed.

End Saving.

(** ** Date labels *)

Section Dates.



Lemma all_chars_app P s1 s2 :
  all_chars P (s1 +:+ s2) = all_chars P s1 && all_chars P s2.
Proof.
  induction s1 as [|c s1 IH]; simpl; [reflexivity |].
  now rewrite IH, andb_assoc.
Qed.

(** A pattern whose first character is not in the text does not occur. *)
Lemma contains_first_char P c pat s :
  all_chars P s = true -> P c = false -> PyStr.contains (String c pat) s = false.
Proof.
  intros Hs Hc. induction s as [|a s IH]; [reflexivity |].
  simpl in Hs. apply andb_true_iff in Hs as [Ha Hs].
  simpl. destruct (ascii_dec c a) as [-> | _]; [congruence |].
  now apply IH.
Qed.

Lemma digit_cases n :
  In (PyStr.digit n) ["0"; "1"; "2"; "3"; "4"; "5"; "6"; "7"; "8"; "9"]%char.
Proof.
  unfold PyStr.digit. pose proof (Nat.mod_upper_bound n 10) as Hlt.
  destruct (n mod 10) as [|[|[|[|[|[|[|[|[|[|k]]]]]]]]]]; [.. | lia].
  all: cbv; tauto.
Qed.

Lemma digit_date_char n :
  date_char (PyStr.digit n) = true /\ PyStr.lower_ascii (PyStr.digit n) = PyStr.digit n.
Proof.
  pose proof (digit_cases n) as Hd. simpl in Hd.
  repeat (destruct Hd as [<- | Hd]; [split; reflexivity |]). contradiction.
Qed.

Lemma two_digits_date n :
  all_chars date_char (PyStr.lower (PyStr.two_digits n)) = true.
Proof.
  unfold PyStr.two_digits. cbn [PyStr.lower all_chars].
  destruct (digit_date_char ((n / 10) mod 10)) as [H1 ->].
  destruct (digit_date_char n) as [H2 ->].
  now rewrite H1, H2.
Qed.

Lemma lower_app s1 s2 : PyStr.lower (s1 +:+ s2) = PyStr.lower s1 +:+ PyStr.lower s2.
Proof. induction s1 as [|c s1 IH]; simpl; [reflexivity | now rewrite IH]. Qed.

Lemma strftime_date_chars now :
  all_chars date_char (PyStr.lower (strftime_dmy now)) = true.
Proof.
  unfold strftime_dmy. rewrite !lower_app, !all_chars_app, !two_digits_date.
  reflexivity.
Qed.

(** Today's label holds no identifier pattern and no name pattern, and is
    not ["Total"]. *)
Lemma date_label_plain now :
  matches_roll (strftime_dmy now) = false
  /\ matches_name (strftime_dmy now) = false
  /\ strftime_dmy now <> "Total".
Proof.
  pose proof (strftime_date_chars now) as Hchars.
  unfold matches_roll, matches_name, PyStr.any_in, roll_patterns, name_patterns.
  cbn [existsb].
  rewrite !(contains_first_char date_char _ _ _ Hchars) by reflexivity.
  split; [reflexivity | split; [reflexivity |]].
  intros Heq. rewrite Heq in Hchars. discriminate.
Qed.

End Dates.

(** ** Loading *)

Section Loading.


Lemma slots_match_step st col : slots_match st -> slots_match (detect_step st col).
Proof.
  intros [Hr Hn]. unfold detect_step.
  destruct (negb (PyStr.truthy (fst st)) && matches_roll col) eqn:Hroll.
  - apply andb_true_iff in Hroll as [_ Hroll].
    split; simpl; [intros r [= <-]; exact Hroll | exact Hn].
  - destruct (negb (PyStr.truthy (snd st)) && matches_name col) eqn:Hname.
    + apply andb_true_iff in Hname as [_ Hname].
      split; simpl; [exact Hr | intros n [= <-]; exact Hname].
    + now split.
Qed.

Lemma slots_match_scan columns : slots_match (detect_scan columns).
Proof.
  unfold detect_scan.
  assert (Hgen : forall st, slots_match st -> slots_match (fold_left detect_step columns st)).
  { induction columns as [|c columns IH]; intros st Hst; [exact Hst |].
    simpl. apply IH. now apply slots_match_step. }
  apply Hgen. split; intros ? [=].
Qed.

Lemma py_or_cases x default v :
  py_or x default = Return v ->
  (x = Some v /\ PyStr.truthy x = true) \/ (PyStr.truthy x = false /\ default = Return v).
Proof.
  unfold py_or. destruct x as [s|]; [| now right].
  destruct (PyStr.truthy (Some s)) eqn:Ht.
  - intros [= ->]. now left.
  - now right.
Qed.

Lemma column_at_lookup d i c : Pd.column_at d i = Return c <-> Pd.columns d !! i = Some c.
Proof.
  unfold Pd.column_at. destruct (Pd.columns d !! i); split; congruence.
Qed.

(** Where the two results of [detect_data_columns] come from: the scan, or
    the first (second) column when the scan left the slot empty. *)
Lemma detect_origin d r n :
  detect_data_columns d = Return (r, n) ->
  ((fst (detect_scan (Pd.columns d)) = Some r /\ matches_roll r = true)
   \/ (PyStr.truthy (fst (detect_scan (Pd.columns d))) = false
       /\ Pd.columns d !! 0 = Some r))
  /\ ((snd (detect_scan (Pd.columns d)) = Some n /\ matches_name n = true)
      \/ (PyStr.truthy (snd (detect_scan (Pd.columns d))) = false
          /\ Pd.columns d !! 1 = Some n)).
Proof.
  unfold detect_data_columns.
  destruct (slots_match_scan (Pd.columns d)) as [Hr Hn].
  destruct (py_or (fst _) _) as [r'|] eqn:Hroll; cbn [mbind outcome_bind]; [| discriminate].
  destruct (py_or (snd _) _) as [n'|] eqn:Hname; cbn [mbind outcome_bind]; [| discriminate].
  intros [= -> ->].
  apply py_or_cases in Hroll, Hname. split.
  - destruct Hroll as [[Hs _] | [Hf Hc]]; [left; auto | right].
    split; [exact Hf | now apply column_at_lookup].
  - destruct Hname as [[Hs _] | [Hf Hc]]; [left; auto | right].
    split; [exact Hf | now apply column_at_lookup].
Qed.

Lemma detect_in_columns d r n :
  detect_data_columns d = Return (r, n) -> r ∈ Pd.columns d /\ n ∈ Pd.columns d.
Proof.
  intros Hd. pose proof (slots_in_scan (Pd.columns d) [] (None, None)) as Hin.
  simpl app in Hin. fold (detect_scan (Pd.columns d)) in Hin.
  destruct Hin as (Hr & Hn & _); [repeat split; intros; simpl in *; discriminate |].
  apply detect_origin in Hd as [[[Hs _] | [_ Hc]] [[Hs' _] | [_ Hc']]]; split;
    try (destruct (Hr _ Hs) as [i Hi]; now apply list_elem_of_lookup_2 in Hi);
    try (destruct (Hn _ Hs') as [i Hi]; now apply list_elem_of_lookup_2 in Hi);
    try (now apply list_elem_of_lookup_2 in Hc);
    try (now apply list_elem_of_lookup_2 in Hc').
Qed.

(** With two columns or more the detection never raises. *)
Lemma detect_total d :
  2 <= length (Pd.columns d) -> exists r n, detect_data_columns d = Return (r, n).
Proof.
  intros Hlen. unfold detect_data_columns, py_or, Pd.column_at.
  destruct (lookup_lt_is_Some_2 (Pd.columns d) 0) as [c0 ->]; [lia |].
  destruct (lookup_lt_is_Some_2 (Pd.columns d) 1) as [c1 ->]; [lia |].
  destruct (fst (detect_scan (Pd.columns d))) as [r|];
    destruct (snd (detect_scan (Pd.columns d))) as [n|];
    repeat match goal with |- context [PyStr.truthy ?x] => destruct (PyStr.truthy x) end;
    cbn [mbind outcome_bind]; eauto.
Qed.

(** With a single column that holds no name pattern the second-column
    default is out of range. *)
Lemma detect_single d c :
  Pd.columns d = [c] -> matches_name c = false ->
  detect_data_columns d = Raise IndexError.
Proof.
  intros Hc Hname. unfold detect_data_columns, Pd.column_at, detect_scan. rewrite Hc.
  simpl fold_left. unfold detect_step. cbn [fst snd PyStr.truthy negb andb].
  rewrite Hname. destruct (matches_roll c) eqn:Hroll; cbn [fst snd py_or].
  - rewrite (matches_roll_truthy c Hroll). reflexivity.
  - reflexivity.
Qed.

Lemma columns_ensure_total table :
  Pd.columns (ensure_total table)
  = if Pd.has_column "Total" table then Pd.columns table else Pd.columns table ++ ["Total"].
Proof.
  unfold ensure_total, Pd.setitem_scalar.
  destruct (Pd.has_column "Total" table) eqn:Hhas; simpl; [reflexivity |].
  now rewrite columns_setitem, Hhas.
Qed.

Lemma total_in_ensure_total table : "Total" ∈ Pd.columns (ensure_total table).
Proof.
  rewrite columns_ensure_total. unfold Pd.has_column.
  case_bool_decide as Hin; [exact Hin |]. apply elem_of_app. right. now left.
Qed.

Lemma NoDup_ensure_total table :
  NoDup (Pd.columns table) -> NoDup (Pd.columns (ensure_total table)).
Proof.
  intros Hnodup. rewrite columns_ensure_total. unfold Pd.has_column.
  case_bool_decide as Hin; [exact Hnodup |].
  apply NoDup_app. split; [exact Hnodup | split].
  - intros x Hx Hx'. apply list_elem_of_singleton in Hx'. now subst x.
  - apply NoDup_singleton.
Qed.

Lemma other_columns_ensure_total r n table :
  other_columns r n (ensure_total table)
  = filter (fun col => col ∉ [r; n; "Total"]) (Pd.columns table).
Proof.
  unfold other_columns. rewrite columns_ensure_total.
  destruct (Pd.has_column "Total" table); [reflexivity |].
  rewrite filter_app, filter_cons_False, filter_nil; [now rewrite app_nil_r |].
  intros Hnot. apply Hnot. set_solver.
Qed.

(** Every header but the empty one and the lone ["Total"] has two columns
    once ["Total"] is there. *)
Lemma ensure_total_two_columns table :
  Pd.columns table <> [] -> Pd.columns table <> ["Total"] ->
  2 <= length (Pd.columns (ensure_total table)).
Proof.
  intros Hne Hnt. rewrite columns_ensure_total. unfold Pd.has_column.
  case_bool_decide as Hin.
  - destruct (Pd.columns table) as [|c [|c' l]]; simpl; try lia; [congruence |].
    apply list_elem_of_singleton in Hin. congruence.
  - rewrite length_app. simpl. destruct (Pd.columns table); [congruence | simpl; lia].
Qed.

Lemma load_plan_Return table r n d :
  load_plan table = Return (r, n, d) ->
  detect_data_columns (ensure_total table) = Return (r, n)
  /\ Pd.getitem ([r; n; "Total"] ++ other_columns r n (ensure_total table))
       (ensure_total table) = Return d.
Proof.
  unfold load_plan.
  destruct (detect_data_columns (ensure_total table)) as [[r' n']|] eqn:Hdetect;
    cbn [mbind outcome_bind fst snd]; [| discriminate].
  destruct (Pd.getitem _ (ensure_total table)) as [d'|] eqn:Hget;
    cbn [mbind outcome_bind]; [| discriminate].
  intros [= -> -> ->]. now split.
Qed.

(** A load goes through on every other header, and the stored table has its
    columns in the order identifier, name, ["Total"], then the others as in
    the file. *)
Lemma load_plan_ok table :
  NoDup (Pd.columns table) ->
  Pd.columns table <> [] -> Pd.columns table <> ["Total"] ->
  exists r n d,
    load_plan table = Return (r, n, d)
    /\ nrows d = nrows table
    /\ Pd.columns d
       = [r; n; "Total"] ++ filter (fun col => col ∉ [r; n; "Total"]) (Pd.columns table).
Proof.
  intros Hnodup Hne Hnt.
  destruct (detect_total (ensure_total table)) as (r & n & Hdetect);
    [now apply ensure_total_two_columns |].
  destruct (detect_in_columns _ _ _ Hdetect) as [Hr Hn].
  assert (Hkeys : Forall (fun key => key ∈ Pd.columns (ensure_total table))
                    ([r; n; "Total"] ++ other_columns r n (ensure_total table))).
  { apply Forall_app. split; [| apply other_columns_all_in].
    repeat constructor; auto using total_in_ensure_total. }
  exists r, n. eexists. unfold load_plan. rewrite Hdetect. cbn [mbind outcome_bind fst snd].
  rewrite (getitem_ok _ _ Hkeys). cbn [mbind outcome_bind].
  split; [reflexivity |]. split.
  - cbn [nrows]. unfold ensure_total, Pd.setitem_scalar.
    destruct (negb (Pd.has_column "Total" table)); [apply nrows_setitem | reflexivity].
  - unfold Pd.columns at 1. cbn [cols].
    rewrite (columns_picked _ _ (NoDup_ensure_total _ Hnodup) Hkeys).
    now rewrite other_columns_ensure_total.
Qed.

(** The record a load stores, and where. *)
Lemma add_new_class_loaded path s table r n d :
  path <> "" -> disk s !! path = Some table -> load_plan table = Return (r, n, d) ->
  let entry := {| dataframe := S (length (heap s)); file_path := path;
                  roll_column := r; name_column := n |} in
  classes_data (snd (add_new_class path s))
  = <[class_name_of path := entry]> (classes_data s)
  /\ heap (snd (add_new_class path s)) !! dataframe entry = Some d
  /\ dialogs (snd (add_new_class path s)) = dialogs s
  /\ attendance_records (snd (add_new_class path s)) = attendance_records s.
Proof.
  intros Hpath Hdisk Hplan entry.
  rewrite (add_new_class_run path s Hpath), Hdisk, Hplan. cbn [snd]. state_simpl.
  repeat split. cbn [dataframe entry].
  rewrite lookup_app_r by lia.
  replace (S (length (heap s)) - length (heap s)) with 1 by lia. reflexivity.
Qed.

(** When a load raises, nothing is stored. *)
Lemma add_new_class_failed path s table e :
  path <> "" -> disk s !! path = Some table -> load_plan table = Raise e ->
  classes_data (snd (add_new_class path s)) = classes_data s
  /\ class_tiles (snd (add_new_class path s)) = class_tiles s
  /\ dialogs (snd (add_new_class path s))
     = dialogs s ++ [showerror "Error" "Failed to load class: " e].
Proof.
  intros Hpath Hdisk Hplan.
  rewrite (add_new_class_run path s Hpath), Hdisk, Hplan. cbn [snd]. state_simpl.
  repeat split.
Qed.

Lemma scan_positions columns r n :
  detect_scan columns = (Some r, Some n) ->
  exists i j, i <> j /\ columns !! i = Some r /\ columns !! j = Some n.
Proof.
  intros Hscan.
  assert (Hinit : slots_in [] (None, None)).
  { repeat split; intros; simpl in *; discriminate. }
  apply (slots_in_scan columns) in Hinit. simpl app in Hinit.
  fold (detect_scan columns) in Hinit. rewrite Hscan in Hinit.
  destruct Hinit as (_ & _ & Hboth). now apply Hboth.
Qed.

(** The two detected labels differ when the scan filled both slots, and when
    it filled neither. *)
Lemma detect_distinct d r n :
  NoDup (Pd.columns d) -> detect_data_columns d = Return (r, n) ->
  PyStr.truthy (fst (detect_scan (Pd.columns d)))
  = PyStr.truthy (snd (detect_scan (Pd.columns d))) ->
  r <> n.
Proof.
  intros Hnodup Hdetect Hsame.
  apply detect_origin in Hdetect as [[[Hr Hmr] | [Hr Hc0]] [[Hn Hmn] | [Hn Hc1]]].
  - destruct (scan_positions (Pd.columns d) r n) as (i & j & Hij & Hi & Hj).
    { destruct (detect_scan (Pd.columns d)) as [a b]. simpl in Hr, Hn. congruence. }
    intros ->. apply Hij. exact (NoDup_lookup _ _ _ _ Hnodup Hi Hj).
  - rewrite Hr, Hn, (matches_roll_truthy r Hmr) in Hsame. discriminate.
  - rewrite Hr, Hn, (matches_name_truthy n Hmn) in Hsame. discriminate.
  - intros ->. pose proof (NoDup_lookup _ _ _ _ Hnodup Hc0 Hc1). discriminate.
Qed.

(** What a slot the scan filled holds is truthy. *)
Lemma scan_slots_truthy columns :
  (forall r, fst (detect_scan columns) = Some r ->
     PyStr.truthy (fst (detect_scan columns)) = true)
  /\ (forall n, snd (detect_scan columns) = Some n ->
       PyStr.truthy (snd (detect_scan columns)) = true).
Proof.
  destruct (slots_match_scan columns) as [Hroll Hname]. split.
  - intros r Hr. rewrite Hr. apply matches_roll_truthy, Hroll, Hr.
  - intros n Hn. rewrite Hn. apply matches_name_truthy, Hname, Hn.
Qed.

(** When the two detected labels are one: exactly when one slot is left to
    its default and the column the scan put in the other slot stands at the
    default position of the first. *)
Lemma detect_coincide d r n :
  NoDup (Pd.columns d) -> detect_data_columns d = Return (r, n) ->
  r = n
  <-> (PyStr.truthy (fst (detect_scan (Pd.columns d))) = false
       /\ exists c, snd (detect_scan (Pd.columns d)) = Some c
                    /\ Pd.columns d !! 0 = Some c)
      \/ (PyStr.truthy (snd (detect_scan (Pd.columns d))) = false
          /\ exists c, fst (detect_scan (Pd.columns d)) = Some c
                       /\ Pd.columns d !! 1 = Some c).
Proof.
  intros Hnodup Hdetect.
  destruct (scan_slots_truthy (Pd.columns d)) as [Htr Htn].
  apply detect_origin in Hdetect as [[[Hr Hmr] | [Hr Hc0]] [[Hn Hmn] | [Hn Hc1]]].
  - (* both from the scan *)
    split.
    + intros ->. destruct (scan_positions (Pd.columns d) n n) as (i & j & Hij & Hi & Hj).
      { destruct (detect_scan (Pd.columns d)) as [a b]. simpl in Hr, Hn. congruence. }
      contradiction Hij. exact (NoDup_lookup _ _ _ _ Hnodup Hi Hj).
    + intros [[Hf _] | [Hf _]].
      * rewrite (Htr r Hr) in Hf. discriminate.
      * rewrite (Htn n Hn) in Hf. discriminate.
  - (* the identifier from the scan, the name by default *)
    split.
    + intros ->. right. split; [exact Hn |]. exists n. now split.
    + intros [[Hf _] | [_ (c & Hc & Hc1')]].
      * rewrite (Htr r Hr) in Hf. discriminate.
      * congruence.
  - (* the identifier by default, the name from the scan *)
    split.
    + intros ->. left. split; [exact Hr |]. exists n. now split.
    + intros [[_ (c & Hc & Hc0')] | [Hf _]].
      * congruence.
      * rewrite (Htn n Hn) in Hf. discriminate.
  - (* both by default *)
    split.
    + intros ->. pose proof (NoDup_lookup _ _ _ _ Hnodup Hc0 Hc1). discriminate.
    + intros [[_ (c & Hc & _)] | [_ (c & Hc & _)]].
      * rewrite (Htn c Hc) in Hn. discriminate.
      * rewrite (Htr c Hc) in Hr. discriminate.
Qed.

Lemma detect_pair_total d c :
  Pd.columns d = [c; "Total"] ->
  PyStr.truthy (snd (detect_scan (Pd.columns d))) = false ->
  detect_data_columns d = Return (c, "Total").
Proof.
  intros Hc. unfold detect_data_columns, Pd.column_at, detect_scan. rewrite Hc.
  simpl fold_left. destruct (matches_roll c) eqn:Hroll.
  - intros _. rewrite (detect_step_roll None c Hroll).
    rewrite detect_step_skip;
      [| left; now apply matches_roll_truthy | right; reflexivity].
    unfold py_or, fst, snd. rewrite (matches_roll_truthy c Hroll). reflexivity.
  - destruct (matches_name c) eqn:Hname.
    + rewrite (detect_step_name None c) by auto.
      rewrite detect_step_skip;
        [| right; reflexivity | left; now apply matches_name_truthy].
      cbn [snd]. rewrite (matches_name_truthy c Hname). discriminate.
    + intros _. rewrite (detect_step_skip (None, None) c) by (right; assumption).
      rewrite detect_step_skip by (right; reflexivity).
      reflexivity.
Qed.

(** C4 (amended): for every record a load stores (from a header without
    repeated labels), the identifier column and the name column are columns
    of the stored table and the table has a column ["Total"]. The two labels
    are one and the same in exactly two cases: no column holds an identifier
    pattern and the column the scan takes as name column is the first column
    (the identifier default); or the scan finds no name column and the column
    it takes as identifier column is the second column (the name default).
    In every other load they differ: when the scan resolves both, when it
    resolves neither, and when the one it resolves does not stand at the
    default position of the other. *)
Theorem loaded_record_columns path s table :
  path <> "" -> disk s !! path = Some table ->
  NoDup (Pd.columns table) -> Pd.columns table <> [] -> Pd.columns table <> ["Total"] ->
  exists entry d,
    classes_data (snd (add_new_class path s)) !! class_name_of path = Some entry
    /\ heap (snd (add_new_class path s)) !! dataframe entry = Some d
    /\ roll_column entry ∈ Pd.columns d
    /\ name_column entry ∈ Pd.columns d
    /\ "Total" ∈ Pd.columns d
    /\ (PyStr.truthy (fst (detect_scan (Pd.columns (ensure_total table))))
        = PyStr.truthy (snd (detect_scan (Pd.columns (ensure_total table)))) ->
        roll_column entry <> name_column entry)
    /\ (roll_column entry = name_column entry
        <-> (PyStr.truthy (fst (detect_scan (Pd.columns (ensure_total table)))) = false
             /\ exists c,
                  snd (detect_scan (Pd.columns (ensure_total table))) = Some c
                  /\ Pd.columns (ensure_total table) !! 0 = Some c)
            \/ (PyStr.truthy (snd (detect_scan (Pd.columns (ensure_total table))))
                = false
                /\ exists c,
                     fst (detect_scan (Pd.columns (ensure_total table))) = Some c
                     /\ Pd.columns (ensure_total table) !! 1 = Some c)).
Proof.
  intros Hpath Hdisk Hnodup Hne Hnt.
  destruct (load_plan_ok table Hnodup Hne Hnt) as (r & n & d & Hplan & _ & Hcols).
  destruct (add_new_class_loaded path s table r n d Hpath Hdisk Hplan)
    as (Hcd & Hheap & _).
  eexists. exists d. rewrite Hcd, lookup_insert_eq.
  split; [reflexivity |]. split; [exact Hheap |]. cbn [roll_column name_column].
  rewrite Hcols. split; [set_solver |]. split; [set_solver |]. split; [set_solver |].
  apply load_plan_Return in Hplan as [Hdetect _].
  pose proof (NoDup_ensure_total _ Hnodup) as Hnodup'.
  split.
  - intros Hsame.
    now apply (detect_distinct (ensure_total table)).
  - now apply (detect_coincide (ensure_total table)).
Qed.

(** C8 (amended): among the tables with fewer than two columns whose name
    column the scan leaves unresolved, the empty header and the lone
    ["Total"] make the load fail with [IndexError]: the error is reported and
    no record is stored. A single column with another label loads, because
    ["Total"] has been appended before the detection: the second-column
    default is then ["Total"]. *)
Theorem load_with_fewer_than_two_columns path s table :
  path <> "" -> disk s !! path = Some table ->
  length (Pd.columns table) < 2 ->
  PyStr.truthy (snd (detect_scan (Pd.columns (ensure_total table)))) = false ->
  ((Pd.columns table = [] \/ Pd.columns table = ["Total"]) ->
   classes_data (snd (add_new_class path s)) = classes_data s
   /\ class_tiles (snd (add_new_class path s)) = class_tiles s
   /\ dialogs (snd (add_new_class path s))
      = dialogs s ++ [showerror "Error" "Failed to load class: " IndexError])
  /\ (forall c, Pd.columns table = [c] -> c <> "Total" ->
      exists entry,
        classes_data (snd (add_new_class path s)) !! class_name_of path = Some entry
        /\ roll_column entry = c /\ name_column entry = "Total"
        /\ dialogs (snd (add_new_class path s)) = dialogs s).
Proof.
  intros Hpath Hdisk Hlen Hname. split.
  - intros Hshape. apply (add_new_class_failed path s table); [assumption .. |].
    unfold load_plan.
    assert (Hcols : Pd.columns (ensure_total table) = ["Total"]).
    { rewrite columns_ensure_total. unfold Pd.has_column.
      destruct Hshape as [-> | ->]; reflexivity. }
    now rewrite (detect_single _ "Total" Hcols eq_refl).
  - intros c Hc Hct.
    assert (Hcols : Pd.columns (ensure_total table) = [c; "Total"]).
    { rewrite columns_ensure_total. unfold Pd.has_column. rewrite Hc.
      case_bool_decide as Hin; [| reflexivity].
      apply list_elem_of_singleton in Hin. congruence. }
    pose proof (detect_pair_total _ c Hcols Hname) as Hdetect.
    assert (Hkeys : Forall (fun key => key ∈ Pd.columns (ensure_total table))
                      ([c; "Total"; "Total"] ++ other_columns c "Total" (ensure_total table))).
    { apply Forall_app. split; [| apply other_columns_all_in].
      rewrite Hcols. repeat constructor; set_solver. }
    assert (Hplan : exists d, load_plan table = Return (c, "Total", d)).
    { unfold load_plan. rewrite Hdetect. cbn [mbind outcome_bind fst snd].
      rewrite (getitem_ok _ _ Hkeys). cbn [mbind outcome_bind]. eauto. }
    destruct Hplan as [d Hplan].
    destruct (add_new_class_loaded path s table c "Total" d Hpath Hdisk Hplan)
      as (Hcd & _ & Hdialogs & _).
    eexists. rewrite Hcd, lookup_insert_eq. split; [reflexivity |].
    cbn [roll_column name_column]. auto.
Qed.

End Loading.

(** ** Column order and same-day saves *)

Section Order.
Context `{Rendering}.

Lemma NoDup_columns_setitem key v d :
  NoDup (Pd.columns d) -> NoDup (Pd.columns (Pd.setitem key v d)).
Proof.
  intros Hnodup. rewrite columns_setitem. unfold Pd.has_column.
  case_bool_decide as Hin; [exact Hnodup |].
  apply NoDup_app. split; [exact Hnodup | split].
  - intros x Hx Hx'. apply list_elem_of_singleton in Hx'. now subst x.
  - apply NoDup_singleton.
Qed.

(** Lines 279-289 on a table without repeated labels: the written table has
    the identifier, the name and ["Total"] first and then the other columns
    in the order of the stored table, a new date column last. *)
Lemma saved_column_order r n date statuses stored d table :
  NoDup (Pd.columns stored) ->
  totalled r n (merged date statuses stored) = Return d ->
  saved_table r n d = Return table ->
  Pd.columns table
  = [r; n; "Total"]
    ++ filter (fun col => col ∉ [r; n; "Total"])
         (Pd.columns stored ++ if Pd.has_column date stored then [] else [date]).
Proof.
  intros Hnodup. unfold totalled, saved_table, merged.
  destruct (Pd.getitem _ (Pd.setitem date statuses stored)) as [sub|]; [| discriminate].
  cbn [mbind outcome_bind]. intros [= <-] Htable.
  apply getitem_Return in Htable as (_ & Hcols & Hkeys).
  unfold Pd.columns at 1. rewrite Hcols, columns_picked; [| | exact Hkeys].
  - rewrite other_columns_setitem_total. unfold other_columns.
    rewrite columns_setitem. destruct (Pd.has_column date stored).
    + now rewrite app_nil_r.
    + reflexivity.
  - now do 2 apply NoDup_columns_setitem.
Qed.

(** The labels of the stored table of a load are pairwise different when
    the identifier, the name and ["Total"] are. *)
Lemma NoDup_loaded_columns r n (columns : list label) :
  NoDup columns -> NoDup [r; n; "Total"] ->
  NoDup ([r; n; "Total"] ++ filter (fun col => col ∉ [r; n; "Total"]) columns).
Proof.
  intros Hcols Hfirst. apply NoDup_app. split; [exact Hfirst | split].
  - intros x Hx Hx'. apply list_elem_of_filter in Hx' as [Hnot _]. contradiction.
  - now apply NoDup_filter.
Qed.

(** C2 (amended): for every input table (header without repeated label,
    any column order) that loads, the stored table has its columns in the
    order identifier, name, ["Total"], then the other columns in the order of
    the file. A later save that goes through writes a table in that same
    order, a new date column last, provided the identifier, the name and
    ["Total"] are three different labels. *)
Theorem canonical_column_order path s table :
  path <> "" -> disk s !! path = Some table ->
  NoDup (Pd.columns table) -> Pd.columns table <> [] -> Pd.columns table <> ["Total"] ->
  exists entry d,
    classes_data (snd (add_new_class path s)) !! class_name_of path = Some entry
    /\ heap (snd (add_new_class path s)) !! dataframe entry = Some d
    /\ Pd.columns d
       = [roll_column entry; name_column entry; "Total"]
         ++ filter (fun col => col ∉ [roll_column entry; name_column entry; "Total"])
              (Pd.columns table)
    /\ (forall s2 attendance_window now,
          classes_data s2 !! class_name_of path = Some entry ->
          heap s2 !! dataframe entry = Some d ->
          NoDup [roll_column entry; name_column entry; "Total"] ->
          dialogs (snd (save_attendance (class_name_of path) attendance_window now s2))
          = dialogs s2 ++ [showinfo "Success" "Attendance saved!"] ->
          exists written,
            disk (snd (save_attendance (class_name_of path) attendance_window now s2)) !! path
            = Some written
            /\ Pd.columns written
               = [roll_column entry; name_column entry; "Total"]
                 ++ filter
                      (fun col => col ∉ [roll_column entry; name_column entry; "Total"])
                      (Pd.columns d
                       ++ if Pd.has_column (strftime_dmy now) d then []
                          else [strftime_dmy now])).
Proof.
  intros Hpath Hdisk Hnodup Hne Hnt.
  destruct (load_plan_ok table Hnodup Hne Hnt) as (r & n & d & Hplan & _ & Hcols).
  destruct (add_new_class_loaded path s table r n d Hpath Hdisk Hplan)
    as (Hcd & Hheap & _).
  eexists. exists d. rewrite Hcd, lookup_insert_eq.
  split; [reflexivity |]. split; [exact Hheap |]. cbn [roll_column name_column file_path].
  split; [exact Hcols |].
  intros s2 attendance_window now Hentry Hstored Hfirst Hok.
  destruct (save_success_plan _ _ now s2 Hok) as (path' & written & Hsave & Hwritten).
  apply save_plan_Return in Hsave
    as (entry' & stored & statuses & d2 & Hentry' & Hstored' & _ & Htotal & Htable & -> & _).
  rewrite Hentry in Hentry'. injection Hentry' as <-.
  cbn [dataframe roll_column name_column file_path] in *.
  rewrite Hstored in Hstored'. injection Hstored' as <-.
  exists written. rewrite Hwritten, lookup_insert_eq. split; [reflexivity |].
  apply (saved_column_order _ _ _ statuses d d2); [| exact Htotal | exact Htable].
  rewrite Hcols. now apply NoDup_loaded_columns.
Qed.

Lemma count_occ_filter (P : label -> Prop) `{forall x, Decision (P x)} l x :
  count_occ string_dec (filter P l) x
  = if decide (P x) then count_occ string_dec l x else 0.
Proof.
  induction l as [|y l IH]; simpl; [now destruct (decide (P x)) |].
  rewrite filter_cons. destruct (string_dec y x) as [-> | Hne].
  - destruct (decide (P x)); simpl; [| exact IH].
    destruct (string_dec x x); [| congruence]. now rewrite IH.
  - destruct (decide (P y)); simpl; [| exact IH].
    destruct (string_dec y x); [congruence | exact IH].
Qed.

Lemma count_first_three r n x (rest : list label) :
  x <> "Total" ->
  count_occ string_dec ([r; n; "Total"] ++ rest) x
  = (if decide (r = x) then 1 else 0) + (if decide (n = x) then 1 else 0)
    + count_occ string_dec rest x.
Proof.
  intros Hx. cbn [app count_occ].
  destruct (string_dec r x), (decide (r = x)); try congruence;
    destruct (string_dec n x), (decide (n = x)); try congruence;
    destruct (string_dec "Total" x); try congruence; lia.
Qed.

Lemma count_others r n d x :
  x <> "Total" ->
  count_occ string_dec (other_columns r n d) x
  = if decide (r = x) then 0
    else if decide (n = x) then 0 else count_occ string_dec (Pd.columns d) x.
Proof.
  intros Hx. unfold other_columns. rewrite count_occ_filter.
  destruct (decide (x ∉ [r; n; "Total"])) as [Hnot | Hin].
  - rewrite !not_elem_of_cons in Hnot. destruct Hnot as (Hr & Hn & _).
    destruct (decide (r = x)); [congruence |].
    destruct (decide (n = x)); [congruence | reflexivity].
  - destruct (decide (r = x)) as [_ | Hr]; [reflexivity |].
    destruct (decide (n = x)) as [_ | Hn]; [reflexivity |].
    exfalso. apply Hin. rewrite !not_elem_of_cons.
    repeat split; try congruence. apply not_elem_of_nil.
Qed.

Lemma count_columns_setitem key v d x :
  count_occ string_dec (Pd.columns (Pd.setitem key v d)) x
  = if decide (key = x)
    then Nat.max 1 (count_occ string_dec (Pd.columns d) x)
    else count_occ string_dec (Pd.columns d) x.
Proof.
  rewrite columns_setitem. unfold Pd.has_column. case_bool_decide as Hin.
  - destruct (decide (key = x)) as [Heq | _]; [| reflexivity].
    rewrite Heq in Hin.
    apply list_elem_of_In, (count_occ_In string_dec) in Hin. lia.
  - rewrite count_occ_app. cbn [count_occ].
    destruct (string_dec key x) as [Heq | Hne], (decide (key = x)); try congruence;
      [| lia].
    rewrite Heq in Hin.
    rewrite list_elem_of_In, (count_occ_not_In string_dec) in Hin. lia.
Qed.

(** Lines 279-289: today's label names exactly one column of the written
    table when it names at most one column of the stored table and is not
    the label of both the identifier and the name column. *)
Lemma saved_date_once r n date statuses stored d table :
  date <> "Total" -> ~ (r = date /\ n = date) ->
  count_occ string_dec (Pd.columns stored) date <= 1 ->
  totalled r n (merged date statuses stored) = Return d ->
  saved_table r n d = Return table ->
  count_occ string_dec (Pd.columns table) date = 1.
Proof.
  intros Hdate Hboth Hstored. unfold totalled, saved_table, merged.
  destruct (Pd.getitem _ (Pd.setitem date statuses stored)) as [sub|]; [| discriminate].
  cbn [mbind outcome_bind]. intros [= <-] Htable.
  apply getitem_Return in Htable as (_ & Hcols & _).
  unfold Pd.columns at 1. rewrite Hcols, count_picked.
  assert (Hone : count_occ string_dec
                   (Pd.columns (Pd.setitem "Total" (Pd.apply_count_present sub)
                                  (Pd.setitem date statuses stored))) date = 1).
  { rewrite !count_columns_setitem.
    destruct (decide ("Total" = date)); [congruence |].
    destruct (decide (date = date)); [lia | congruence]. }
  rewrite Hone, count_first_three, count_others, Hone by exact Hdate.
  destruct (decide (r = date)), (decide (n = date)); try lia. tauto.
Qed.

(** The stored table of a load carries today's label at most once, and not
    as the label of both detected columns. *)
Lemma loaded_date_once table r n d now :
  NoDup (Pd.columns table) -> load_plan table = Return (r, n, d) ->
  ~ (r = strftime_dmy now /\ n = strftime_dmy now)
  /\ count_occ string_dec (Pd.columns d) (strftime_dmy now) <= 1.
Proof.
  intros Hnodup Hplan. apply load_plan_Return in Hplan as [Hdetect Hget].
  destruct (date_label_plain now) as (Hroll & Hname & Htotal).
  apply NoDup_ensure_total in Hnodup.
  assert (Hboth : ~ (r = strftime_dmy now /\ n = strftime_dmy now)).
  { intros [-> ->].
    apply detect_origin in Hdetect as [[[_ Hr] | [_ Hc0]] [[_ Hn] | [_ Hc1]]];
      try congruence.
    pose proof (NoDup_lookup _ _ _ _ Hnodup Hc0 Hc1). discriminate. }
  split; [exact Hboth |].
  apply getitem_Return in Hget as (_ & Hcols & Hkeys).
  unfold Pd.columns at 1. rewrite Hcols, columns_picked by assumption.
  rewrite count_first_three, count_others by exact Htotal.
  apply NoDup_ListNoDup in Hnodup.
  pose proof (proj1 (NoDup_count_occ string_dec _) Hnodup (strftime_dmy now)) as Hle.
  destruct (decide (r = strftime_dmy now)), (decide (n = strftime_dmy now));
    try lia. tauto.
Qed.

(** What a save reads is left as it was, so a second save plans the same. *)
Lemma save_attendance_frame class_name attendance_window now s :
  classes_data (snd (save_attendance class_name attendance_window now s)) = classes_data s
  /\ attendance_records (snd (save_attendance class_name attendance_window now s))
       = attendance_records s
  /\ locked (snd (save_attendance class_name attendance_window now s)) = locked s
  /\ (forall r d, heap s !! r = Some d ->
       heap (snd (save_attendance class_name attendance_window now s)) !! r = Some d).
Proof.
  destruct (save_attendance_run class_name attendance_window now s) as [extra ->]. cbn [snd].
  assert (Hheap : forall r d, heap s !! r = Some d -> (heap s ++ extra) !! r = Some d).
  { intros r d Hr. now apply lookup_app_l_Some. }
  destruct (save_plan class_name now s) as [[path table]|e]; state_simpl;
    repeat split; auto.
Qed.

Lemma save_plan_stable class_name now s s' result :
  classes_data s' = classes_data s -> attendance_records s' = attendance_records s ->
  locked s' = locked s ->
  (forall r d, heap s !! r = Some d -> heap s' !! r = Some d) ->
  save_plan class_name now s = Return result ->
  save_plan class_name now s' = Return result.
Proof.
  intros Hcd Har Hlk Hheap. unfold save_plan. rewrite Hcd, Har, Hlk.
  destruct (classes_data s !! class_name) as [entry|]; [| discriminate].
  cbn [found mbind outcome_bind].
  destruct (heap s !! dataframe entry) as [stored|] eqn:Hstored; [| discriminate].
  now rewrite (Hheap _ _ Hstored).
Qed.

(** C5: two saves in a row on the same date (from any two session
    windows), nothing toggled in between.
    When the first goes through so does the second, it writes the very same
    table to the same file (so the same ["Total"] column), and that table
    has exactly one column named with the date. The record is any record a
    load stores. *)
Theorem save_twice_same_day class_name attendance_window window2 now s entry stored table :
  classes_data s !! class_name = Some entry ->
  heap s !! dataframe entry = Some stored ->
  NoDup (Pd.columns table) ->
  load_plan table = Return (roll_column entry, name_column entry, stored) ->
  dialogs (snd (save_attendance class_name attendance_window now s))
  = dialogs s ++ [showinfo "Success" "Attendance saved!"] ->
  exists written,
    disk (snd (save_attendance class_name attendance_window now s))
         !! file_path entry = Some written
    /\ disk (snd (save_attendance class_name window2 now
            (snd (save_attendance class_name attendance_window now s))))
          !! file_path entry = Some written
    /\ disk (snd (save_attendance class_name window2 now
            (snd (save_attendance class_name attendance_window now s))))
       = disk (snd (save_attendance class_name attendance_window now s))
    /\ dialogs (snd (save_attendance class_name window2 now
            (snd (save_attendance class_name attendance_window now s))))
       = dialogs (snd (save_attendance class_name attendance_window now s))
         ++ [showinfo "Success" "Attendance saved!"]
    /\ count_occ string_dec (Pd.columns written) (strftime_dmy now) = 1.
Proof.
  intros Hentry Hstored Hnodup Hload Hok.
  destruct (save_success_plan class_name attendance_window now s Hok)
    as (path & written & Hplan & Hdisk).
  destruct (save_attendance_frame class_name attendance_window now s) as (Hcd & Har & Hlk & Hheap).
  pose proof (save_plan_stable class_name now s _ _ Hcd Har Hlk Hheap Hplan) as Hplan2.
  apply save_plan_Return in Hplan
    as (entry' & stored' & statuses & d & Hentry' & Hstored' & _ & Htotal & Htable & -> & _).
  rewrite Hentry in Hentry'. injection Hentry' as <-.
  rewrite Hstored in Hstored'. injection Hstored' as <-.
  set (s1 := snd (save_attendance class_name attendance_window now s)) in *.
  destruct (save_attendance_run class_name window2 now s1) as [extra Hrun].
  rewrite Hrun, Hplan2. cbn [snd]. state_simpl.
  exists written. rewrite Hdisk.
  split; [apply lookup_insert_eq |].
  split; [apply lookup_insert_eq |].
  split; [apply insert_insert_eq |].
  split; [reflexivity |].
  destruct (loaded_date_once table _ _ stored now Hnodup Hload) as [Hboth Hle].
  destruct (date_label_plain now) as (_ & _ & Hdate).
  exact (saved_date_once _ _ _ statuses stored d written Hdate Hboth Hle Htotal Htable).
Qed.

End Order.

(** ** The ledger *)

Section Ledger.
Context `{Rendering}.

Lemma absent_all_lookup ids ledger student_id :
  absent_all ids ledger !! student_id
  = if decide (student_id ∈ ids) then Some false else ledger !! student_id.
Proof.
  unfold absent_all. revert ledger.
  induction ids as [|x ids IH]; intros ledger; simpl.
  - destruct (decide (student_id ∈ [])) as [Hin | _]; [| reflexivity].
    now apply not_elem_of_nil in Hin.
  - rewrite IH. destruct (decide (student_id ∈ ids)) as [Hin | Hnot].
    + rewrite decide_True by (now right). reflexivity.
    + destruct (decide (student_id = x)) as [-> | Hne].
      * rewrite decide_True by (now left). apply lookup_insert_eq.
      * rewrite decide_False by (rewrite elem_of_cons; tauto).
        now apply lookup_insert_ne.
Qed.

(** One tile of the grid. *)
Lemma create_student_tile_run container class_name roll_col name_col r s buttons ledger :
  Pd.series_has roll_col r = true -> Pd.series_has name_col r = true ->
  student_buttons s !! class_name = Some buttons ->
  attendance_records s !! class_name = Some ledger ->
  create_student_tile container class_name roll_col name_col r s
  = (Return tt,
     set_attendance_records
       (insert class_name (<[str_item r roll_col := false]> ledger))
       (set_student_buttons
          (insert class_name
             (<[str_item r roll_col := {| master := container; bg := COLOR_absent |}]>
                buttons)) s)).
Proof.
  intros Hroll Hname Hbuttons Hledger.
  unfold create_student_tile, student_id_of. rewrite Hroll, Hname.
  destruct s as [h cd ar sb ct dk lk dl tl ds].
  cbn [student_buttons attendance_records] in *.
  rewrite run_lift, !bind_run. cbn [mret Py_ret get_state]. state_simpl.
  rewrite bind_run. cbn [get_state]. state_simpl.
  rewrite (run_dict_get _ _ _ _ _ Hbuttons).
  rewrite bind_run. cbn [modify]. state_simpl.
  rewrite bind_run. cbn [get_state]. state_simpl.
  rewrite bind_run. unfold dict_get. rewrite Hledger. reflexivity.
Qed.

(** The loop over the rows. *)
Lemma for_each_tiles container class_name roll_col name_col rows :
  Forall (fun r => Pd.series_has roll_col r = true /\ Pd.series_has name_col r = true)
    rows ->
  forall h cd ar sb ct dk lk dl tl ds buttons ledger,
    sb !! class_name = Some buttons -> ar !! class_name = Some ledger ->
    for_each rows (create_student_tile container class_name roll_col name_col)
      {| heap := h; classes_data := cd; attendance_records := ar; student_buttons := sb;
         class_tiles := ct; disk := dk; locked := lk; dialogs := dl;
         toplevels := tl; destroyed := ds |}
    = (Return tt,
       {| heap := h; classes_data := cd;
          attendance_records :=
            <[class_name :=
                absent_all (map (fun r => str_item r roll_col) rows) ledger]> ar;
          student_buttons :=
            <[class_name :=
                tiles_for container (map (fun r => str_item r roll_col) rows) buttons]> sb;
          class_tiles := ct; disk := dk; locked := lk; dialogs := dl;
          toplevels := tl; destroyed := ds |}).
Proof.
  induction 1 as [|r rows [Hroll Hname] Hrows IH];
    intros h cd ar sb ct dk lk dl tl ds buttons ledger Hbuttons Hledger.
  - cbn [for_each map absent_all tiles_for fold_left mret Py_ret].
    now rewrite !insert_id by assumption.
  - cbn [for_each]. rewrite bind_run.
    rewrite (create_student_tile_run _ _ _ _ _ _ buttons ledger) by assumption.
    state_simpl.
    rewrite (IH _ _ _ _ _ _ _ _ _ _
               (<[str_item r roll_col := {| master := container; bg := COLOR_absent |}]>
                  buttons)
               (<[str_item r roll_col := false]> ledger))
      by apply lookup_insert_eq.
    now rewrite !insert_insert_eq.
Qed.

Lemma iterrows_have key d :
  Pd.has_column key d = true ->
  Forall (fun r => Pd.series_has key r = true) (Pd.iterrows d).
Proof.
  intros Hkey. unfold Pd.iterrows. apply Forall_forall. intros r Hr.
  apply list_elem_of_fmap in Hr as (i & -> & _). now rewrite series_has_row_eq.
Qed.

(** Opening the session of a loaded class: a window is created, every
    identifier of the roster is set to absent in the ledger the class
    already has (an empty one when it has none), the button map is rebuilt
    with buttons of the new window, nothing else changes. *)
Lemma open_attendance_screen_run class_name s entry stored :
  classes_data s !! class_name = Some entry ->
  heap s !! dataframe entry = Some stored ->
  Pd.has_column (roll_column entry) stored = true ->
  Pd.has_column (name_column entry) stored = true ->
  open_attendance_screen class_name s
  = (Return PNone,
     set_attendance_records
       (insert class_name
          (absent_all (roster_ids (roll_column entry) stored)
             (default ∅ (attendance_records s !! class_name))))
       (set_student_buttons
          (insert class_name
             (tiles_for (toplevels s) (roster_ids (roll_column entry) stored) ∅))
          (set_toplevels S s))).
Proof.
  intros Hentry Hstored Hroll Hname.
  assert (Hrows : Forall (fun r => Pd.series_has (roll_column entry) r = true
                                   /\ Pd.series_has (name_column entry) r = true)
                    (Pd.iterrows stored)).
  { apply Forall_and. split; now apply iterrows_have. }
  unfold open_attendance_screen, create_student_grid, roster_ids.
  destruct s as [h cd ar sb ct dk lk dl tl ds]. state_simpl. cbn [classes_data heap] in *.
  rewrite bind_run. cbn [new_toplevel]. state_simpl.
  rewrite bind_run. cbn [get_state]. state_simpl.
  assert (Hledger :
    forall B (f : unit -> Py B),
      ((if bool_decide (class_name ∉ dom ar)
        then modify (set_attendance_records (insert class_name ∅))
        else mret tt) ≫= f)
        {| heap := h; classes_data := cd; attendance_records := ar;
           student_buttons := sb; class_tiles := ct; disk := dk; locked := lk;
           dialogs := dl; toplevels := S tl; destroyed := ds |}
      = f tt {| heap := h; classes_data := cd;
                attendance_records :=
                  <[class_name := default ∅ (ar !! class_name)]> ar;
                student_buttons := sb; class_tiles := ct; disk := dk; locked := lk;
                dialogs := dl; toplevels := S tl; destroyed := ds |}).
  { intros B f. rewrite bind_run. case_bool_decide as Hdom.
    - apply not_elem_of_dom in Hdom. rewrite Hdom. reflexivity.
    - apply elem_of_dom in Hdom as [ledger Hl].
      rewrite Hl. cbn [default mret Py_ret]. now rewrite insert_id. }
  rewrite Hledger, !bind_run. cbn [get_state]. state_simpl.
  rewrite (run_dict_get _ _ _ _ _ Hentry).
  rewrite run_load with (d := stored) by exact Hstored.
  rewrite bind_run. cbn [modify]. state_simpl.
  rewrite (for_each_tiles _ _ _ _ _ Hrows _ _ _ _ _ _ _ _ _ _ ∅
             (default ∅ (ar !! class_name)))
    by apply lookup_insert_eq.
  cbn [mret Py_ret]. now rewrite !insert_insert_eq.
Qed.

(** C6 (amended): opening the session view of a loaded class sets every
    student identifier of the roster to absent. The ledger of the class is
    created when the class has none and is otherwise kept: an identifier
    outside the roster keeps the flag it had, and the ledgers of the other
    classes are left alone. *)
Theorem open_session_marks_roster_absent class_name s entry stored :
  classes_data s !! class_name = Some entry ->
  heap s !! dataframe entry = Some stored ->
  Pd.has_column (roll_column entry) stored = true ->
  Pd.has_column (name_column entry) stored = true ->
  exists ledger,
    attendance_records (snd (open_attendance_screen class_name s)) !! class_name
    = Some ledger
    /\ (forall student_id, student_id ∈ roster_ids (roll_column entry) stored ->
         ledger !! student_id = Some false)
    /\ (forall student_id, student_id ∉ roster_ids (roll_column entry) stored ->
         ledger !! student_id
         = default ∅ (attendance_records s !! class_name) !! student_id)
    /\ (forall c, c <> class_name ->
         attendance_records (snd (open_attendance_screen class_name s)) !! c
         = attendance_records s !! c).
Proof.
  intros Hentry Hstored Hroll Hname.
  rewrite (open_attendance_screen_run class_name s entry stored) by assumption.
  cbn [snd]. state_simpl. eexists. rewrite lookup_insert_eq.
  split; [reflexivity |]. split; [| split].
  - intros student_id Hin. rewrite absent_all_lookup. now rewrite decide_True.
  - intros student_id Hnot. rewrite absent_all_lookup. now rewrite decide_False.
  - intros c Hc. now rewrite lookup_insert_ne.
Qed.

(** [toggle_attendance] on a key of the ledger: the flag is flipped first,
    then the button is looked up and recoloured. *)
Lemma toggle_attendance_run class_name student_id s ledger b :
  attendance_records s !! class_name = Some ledger ->
  ledger !! student_id = Some b ->
  toggle_attendance class_name student_id s
  = match student_buttons s !! class_name ≫= fun buttons =>
            buttons !! student_id ≫= fun button => Some (buttons, button) with
    | Some (buttons, button) =>
        if bool_decide (master button ∈ destroyed s)
        then (Raise TclError,
              set_attendance_records
                (insert class_name (<[student_id := negb b]> ledger)) s)
        else (Return PNone,
              set_student_buttons
                (insert class_name
                   (<[student_id :=
                        {| master := master button;
                           bg := if negb b then COLOR_present else COLOR_absent |}]>
                      buttons))
                (set_attendance_records
                   (insert class_name (<[student_id := negb b]> ledger)) s))
    | None =>
        (Raise KeyError,
         set_attendance_records (insert class_name (<[student_id := negb b]> ledger)) s)
    end.
Proof.
  intros Hledger Hb. unfold toggle_attendance.
  destruct s as [h cd ar sb ct dk lk dl tl ds].
  cbn [attendance_records student_buttons destroyed] in *.
  rewrite bind_run. cbn [get_state]. state_simpl.
  rewrite (run_dict_get _ _ _ _ _ Hledger), (run_dict_get _ _ _ _ _ Hb).
  rewrite bind_run. cbn [modify]. state_simpl.
  rewrite bind_run. cbn [get_state]. state_simpl.
  rewrite bind_run. unfold dict_get at 1.
  destruct (sb !! class_name) as [buttons|]; cbn [mret Py_ret raise mbind option_bind];
    [| reflexivity].
  rewrite bind_run. unfold dict_get.
  destruct (buttons !! student_id) as [button|];
    cbn [mret Py_ret raise mbind option_bind]; [| reflexivity].
  rewrite bind_run. unfold configure. state_simpl.
  destruct (bool_decide (master button ∈ ds)); reflexivity.
Qed.

(** C7 (amended): for a student identifier that is a key of the ledger of
    the class, [toggle_attendance] flips the flag of that student and of no
    other, before anything else. It never hands back a boolean. When the
    class has a button for the student and the window of the button exists,
    it returns [None] and shows the new state as the colour of that button;
    when the window has been destroyed it raises [TclError], and when the
    class has no button for the student it raises [KeyError], in both cases
    with the flag flipped and the buttons as they were. *)
Theorem toggle_flips_and_returns_none class_name student_id s ledger b :
  attendance_records s !! class_name = Some ledger ->
  ledger !! student_id = Some b ->
  attendance_records (snd (toggle_attendance class_name student_id s))
  = <[class_name := <[student_id := negb b]> ledger]> (attendance_records s)
  /\ (forall buttons button,
       student_buttons s !! class_name = Some buttons ->
       buttons !! student_id = Some button ->
       (master button ∉ destroyed s) ->
       fst (toggle_attendance class_name student_id s) = Return PNone
       /\ student_buttons (snd (toggle_attendance class_name student_id s))
          = <[class_name :=
                <[student_id :=
                    {| master := master button;
                       bg := if negb b then COLOR_present else COLOR_absent |}]>
                  buttons]>
              (student_buttons s))
  /\ (forall buttons button,
       student_buttons s !! class_name = Some buttons ->
       buttons !! student_id = Some button ->
       master button ∈ destroyed s ->
       fst (toggle_attendance class_name student_id s) = Raise TclError
       /\ student_buttons (snd (toggle_attendance class_name student_id s))
          = student_buttons s)
  /\ ((student_buttons s !! class_name ≫= fun buttons => buttons !! student_id) = None ->
      fst (toggle_attendance class_name student_id s) = Raise KeyError
      /\ student_buttons (snd (toggle_attendance class_name student_id s))
         = student_buttons s)
  /\ (forall v, fst (toggle_attendance class_name student_id s) <> Return (PBool v)).
Proof.
  intros Hledger Hb.
  rewrite (toggle_attendance_run class_name student_id s ledger b Hledger Hb).
  split; [| split; [| split; [| split]]].
  - destruct (_ ≫= _) as [[buttons button]|]; [| reflexivity].
    destruct (bool_decide _); reflexivity.
  - intros buttons button Hbuttons Hbutton Hlive. rewrite Hbuttons.
    cbn [mbind option_bind]. rewrite Hbutton. cbn [mbind option_bind].
    rewrite bool_decide_eq_false_2 by exact Hlive. split; reflexivity.
  - intros buttons button Hbuttons Hbutton Hdead. rewrite Hbuttons.
    cbn [mbind option_bind]. rewrite Hbutton. cbn [mbind option_bind].
    rewrite bool_decide_eq_true_2 by exact Hdead. split; reflexivity.
  - intros Hnone.
    destruct (student_buttons s !! class_name) as [buttons|]; cbn [mbind option_bind] in *;
      [| split; reflexivity].
    rewrite Hnone. cbn [mbind option_bind]. split; reflexivity.
  - intros v. destruct (_ ≫= _) as [[buttons button]|]; [| discriminate].
    destruct (bool_decide _); discriminate.
Qed.

End Ledger.

(** ** The program on concrete tables *)

(** Closes a decidable closed goal by evaluation. *)
Ltac by_decide :=
  match goal with
  | |- ?P => apply (bool_decide_unpack P); vm_compute; exact I
  end.

Section Runs_on_tables.

(** The roster of three students: loaded, 101 marked present, saved on
    5 June 2024. *)
Example roster_saved :
  classes_data demo_loaded !! "cs" = Some demo_entry
  /\ heap demo_loaded !! 1 = Some demo_stored
  /\ disk (snd (@save_attendance text_rendering "cs" 0 demo_now demo_marked))
       !! "/data/cs.xlsx"
     = Some {| nrows := 3;
               cols := [("Roll No", [CStr "101"; CStr "102"; CStr "103"]);
                        ("Student Name", [CStr "Asha"; CStr "Bilal"; CStr "Chen"]);
                        ("Total", [CInt 1; CInt 0; CInt 0]);
                        ("05-06-24", [CStr "Present"; CStr "Absent"; CStr "Absent"])] |}.
Proof. repeat split; vm_compute; reflexivity. Qed.

(** Three of five attendance columns hold ["Present"] for student 7, one
    of five for student 8. *)
Example total_three_of_five :
  Pd.labelled "Total"
    <$> disk (snd (@save_attendance text_rendering "log" 0 demo_now history_marked))
          !! "/data/log.xlsx"
  = Some [("Total", [CInt 3; CInt 1])].
Proof. vm_compute. reflexivity. Qed.

(** C1, on the class of three students with 101 marked present. *)
Lemma save_total_is_present_count_witness :
  dialogs (snd (@save_attendance text_rendering "cs" 0 demo_now demo_marked))
  = dialogs demo_marked ++ [showinfo "Success" "Attendance saved!"]
  /\ exists entry table,
       classes_data demo_marked !! "cs" = Some entry
       /\ disk (snd (@save_attendance text_rendering "cs" 0 demo_now demo_marked))
            !! file_path entry = Some table
       /\ (exists column, ("Total", column) ∈ cols table)
       /\ (forall i column, i < nrows table -> ("Total", column) ∈ cols table ->
            column !! i
            = Some (CInt (Z.of_nat
                            (present_in (roll_column entry) (name_column entry) table i)))).
Proof.
  assert (Hok : dialogs (snd (@save_attendance text_rendering "cs" 0 demo_now demo_marked))
                = dialogs demo_marked ++ [showinfo "Success" "Attendance saved!"])
    by (vm_compute; reflexivity).
  split; [exact Hok |].
  exact (proj1 (@save_total_is_present_count text_rendering "cs" 0 demo_now demo_marked Hok)).
Defined.

(** C10, on the header of the roster. *)
Lemma scan_never_assigns_one_column_twice_witness :
  detect_scan (Pd.columns roster_table) = (Some "Roll No", Some "Student Name")
  /\ "Roll No" <> "Student Name".
Proof.
  assert (Hscan : detect_scan (Pd.columns roster_table)
                  = (Some "Roll No", Some "Student Name")) by reflexivity.
  split; [exact Hscan |].
  apply (proj2 (proj2 (scan_never_assigns_one_column_twice roster_table _ _ Hscan))).
  by_decide.
Defined.

(** C3 does not hold on a header whose first column holds both kinds of
    pattern. ["Roll No"] holds an identifier pattern and ["Student ID"], a
    different column, holds a name pattern; the identifier test takes
    ["Student ID"] first, no column is left for the name slot and the
    second-column default makes ["Roll No"] the name column. *)
Lemma detect_takes_name_column_as_identifier :
  let df := {| nrows := 0; cols := [("Student ID", []); ("Roll No", [])] |} in
  Pd.columns df !! 1 = Some "Roll No" /\ matches_roll "Roll No" = true
  /\ Pd.columns df !! 0 = Some "Student ID" /\ matches_name "Student ID" = true
  /\ detect_data_columns df = Return ("Student ID", "Roll No")
  /\ detect_data_columns df <> Return ("Roll No", "Student ID")
  /\ matches_name "Roll No" = false.
Proof. cbv zeta. repeat split; try reflexivity. discriminate. Qed.

(** C3 (amended), on a header with the name column first. *)
Lemma detect_first_matches_witness :
  detect_data_columns {| nrows := 0; cols := [("Name", []); ("Roll No", [])] |}
  = Return ("Roll No", "Name").
Proof.
  apply (detect_first_matches _ 1 0); try reflexivity.
  - intros k c Hk. destruct k as [|k]; [intros [= <-]; reflexivity | lia].
  - lia.
  - intros k c Hk. lia.
Defined.

(** C2 does not hold after a save when a label is repeated. The sheet
    has a name column and no identifier column: the scan takes ["Name"] as
    the name column and the first-column default makes it the identifier
    too. The stored table then carries ["Name"] twice, and the reordering of
    the save, which picks every column that carries a requested label, writes
    it four times: the third column of the file is not ["Total"]. *)
Lemma save_repeats_shared_column :
  classes_data marks_open !! "marks"
  = Some {| dataframe := 1; file_path := "/data/marks.xlsx";
            roll_column := "Name"; name_column := "Name" |}
  /\ Pd.columns <$> heap marks_open !! 1 = Some ["Name"; "Name"; "Total"; "Marks"]
  /\ dialogs (snd (@save_attendance text_rendering "marks" 0 demo_now marks_open))
     = [showinfo "Success" "Attendance saved!"]
  /\ Pd.columns
       <$> disk (snd (@save_attendance text_rendering "marks" 0 demo_now marks_open))
             !! "/data/marks.xlsx"
     = Some ["Name"; "Name"; "Name"; "Name"; "Total"; "Marks"; "05-06-24"]
  /\ Pd.columns
       <$> disk (snd (@save_attendance text_rendering "marks" 0 demo_now marks_open))
             !! "/data/marks.xlsx"
     <> Some (["Name"; "Name"; "Total"] ++ ["Marks"; "05-06-24"]).
Proof.
  split; [vm_compute; reflexivity |]. split; [vm_compute; reflexivity |].
  split; [vm_compute; reflexivity |]. split; [vm_compute; reflexivity |].
  vm_compute. discriminate.
Qed.

(** C2 (amended), on the roster workbook: load, then mark and save. *)
Lemma canonical_column_order_witness :
  exists entry d,
    classes_data demo_loaded !! "cs" = Some entry
    /\ heap demo_loaded !! dataframe entry = Some d
    /\ Pd.columns d = ["Roll No"; "Student Name"; "Total"]
    /\ exists written,
         disk (snd (@save_attendance text_rendering "cs" 0 demo_now demo_marked))
           !! "/data/cs.xlsx" = Some written
         /\ Pd.columns written = ["Roll No"; "Student Name"; "Total"; "05-06-24"].
Proof.
  destruct (@canonical_column_order text_rendering "/data/cs.xlsx"
              (initial_state {[ "/data/cs.xlsx" := roster_table ]} []) roster_table)
    as (entry & d & Hentry & Hd & Hcols & Hsave);
    [discriminate | vm_compute; reflexivity | by_decide | discriminate | discriminate |].
  exists entry, d. split; [exact Hentry |]. split; [exact Hd |].
  assert (Heq : entry = demo_entry).
  { change (classes_data demo_loaded !! "cs" = Some entry) in Hentry.
    vm_compute in Hentry. now injection Hentry as <-. }
  assert (Hd' : d = demo_stored).
  { change (heap demo_loaded !! dataframe entry = Some d) in Hd. rewrite Heq in Hd.
    vm_compute in Hd. now injection Hd as <-. }
  rewrite Heq, Hd' in Hcols. split; [rewrite Hd'; reflexivity |].
  destruct (Hsave demo_marked 0 demo_now) as (written & Hwritten & Horder).
  - rewrite Heq. vm_compute. reflexivity.
  - rewrite Heq, Hd'. vm_compute. reflexivity.
  - rewrite Heq. by_decide.
  - vm_compute. reflexivity.
  - exists written. split; [exact Hwritten |].
    rewrite Horder, Heq, Hd'. reflexivity.
Defined.

(** C4 does not hold on the sheet of names and marks: it loads, and the
    record names the same column as identifier and as name. *)
Lemma loaded_record_with_one_column_twice :
  NoDup (Pd.columns marks_table)
  /\ dialogs marks_loaded = []
  /\ roll_column <$> classes_data marks_loaded !! "marks" = Some "Name"
  /\ name_column <$> classes_data marks_loaded !! "marks" = Some "Name".
Proof.
  split; [by_decide |]. repeat split; vm_compute; reflexivity.
Qed.

(** The same with the name column resolved by the second-column default:
    the sheet loads and the record names ["Roll No"], found by the scan in
    second position, as identifier and as name. *)
Example fallback_names_the_identifier_column :
  NoDup (Pd.columns fallback_table)
  /\ detect_scan (Pd.columns (ensure_total fallback_table)) = (Some "Roll No", None)
  /\ dialogs fallback_loaded = []
  /\ roll_column <$> classes_data fallback_loaded !! "fallback" = Some "Roll No"
  /\ name_column <$> classes_data fallback_loaded !! "fallback" = Some "Roll No".
Proof.
  split; [by_decide |]. split; [reflexivity |].
  split; [vm_compute; reflexivity |]. split; vm_compute; reflexivity.
Qed.

(** C4 (amended), on the roster workbook, where the scan resolves both
    columns; on a sheet where it resolves the identifier only and the name
    is the second column; and on the sheet of names and marks, where the two
    labels are one because the name column the scan takes is the first
    column. *)
Lemma loaded_record_columns_witness :
  (exists entry d,
     classes_data demo_loaded !! "cs" = Some entry
     /\ heap demo_loaded !! dataframe entry = Some d
     /\ roll_column entry ∈ Pd.columns d
     /\ name_column entry ∈ Pd.columns d
     /\ "Total" ∈ Pd.columns d
     /\ roll_column entry <> name_column entry)
  /\ (exists entry,
        classes_data mixed_loaded !! "mixed" = Some entry
        /\ roll_column entry <> name_column entry)
  /\ (exists entry,
        classes_data marks_loaded !! "marks" = Some entry
        /\ roll_column entry = name_column entry).
Proof.
  split; [| split].
  - destruct (loaded_record_columns "/data/cs.xlsx"
                (initial_state {[ "/data/cs.xlsx" := roster_table ]} []) roster_table)
      as (entry & d & Hentry & Hd & Hroll & Hname & Htotal & Hdistinct & _);
      [discriminate | vm_compute; reflexivity | by_decide | discriminate | discriminate |].
    exists entry, d. split; [exact Hentry |]. split; [exact Hd |].
    split; [exact Hroll |]. split; [exact Hname |]. split; [exact Htotal |].
    apply Hdistinct. reflexivity.
  - destruct (loaded_record_columns "/data/mixed.xlsx"
                (initial_state {[ "/data/mixed.xlsx" := mixed_table ]} []) mixed_table)
      as (entry & d & Hentry & _ & _ & _ & _ & _ & Hsame);
      [discriminate | vm_compute; reflexivity | by_decide | discriminate | discriminate |].
    exists entry. split; [exact Hentry |].
    intros Heq. apply Hsame in Heq as [[Hf _] | [_ (c & Hc & Hc1)]].
    + vm_compute in Hf. discriminate.
    + vm_compute in Hc. injection Hc as <-. vm_compute in Hc1. discriminate.
  - destruct (loaded_record_columns "/data/marks.xlsx"
                (initial_state {[ "/data/marks.xlsx" := marks_table ]} []) marks_table)
      as (entry & d & Hentry & _ & _ & _ & _ & _ & Hsame);
      [discriminate | vm_compute; reflexivity | by_decide | discriminate | discriminate |].
    exists entry. split; [exact Hentry |].
    apply Hsame. left. split; [reflexivity |]. exists "Name". split; reflexivity.
Defined.

(** C5, on the class of three students with 101 marked present. *)
Lemma save_twice_same_day_witness :
  exists written,
    disk (snd (@save_attendance text_rendering "cs" 0 demo_now demo_marked))
      !! "/data/cs.xlsx" = Some written
    /\ disk (snd (@save_attendance text_rendering "cs" 0 demo_now
                    (snd (@save_attendance text_rendering "cs" 0 demo_now demo_marked))))
       = disk (snd (@save_attendance text_rendering "cs" 0 demo_now demo_marked))
    /\ count_occ string_dec (Pd.columns written) "05-06-24" = 1.
Proof.
  destruct (@save_twice_same_day text_rendering "cs" 0 0 demo_now demo_marked
              demo_entry demo_stored roster_table)
    as (written & Hfirst & _ & Hsame & _ & Honce);
    [vm_compute; reflexivity | vm_compute; reflexivity | by_decide
    | vm_compute; reflexivity | vm_compute; reflexivity |].
  exists written. repeat split; assumption.
Defined.

(** C6 does not hold when a class is loaded again from another workbook
    of the same base name: the ledger is kept, and student 101 of the first
    roster, marked present in the first session, is still present after the
    session of the second roster (201, 202) is opened. *)
Lemma reopened_ledger_keeps_present_flag :
  class_name_of "/data/cs.xlsx" = class_name_of "/archive/cs.xlsx"
  /\ (roll_column <$> classes_data reload_reopened !! "cs") = Some "Roll No"
  /\ (heap reload_reopened !! 3) = Some
       {| nrows := 2;
          cols := [("Roll No", [CStr "201"; CStr "202"]);
                   ("Student Name", [CStr "Dana"; CStr "Emil"]);
                   ("Total", [CInt 0; CInt 0])] |}
  /\ (attendance_records reload_reopened !! "cs" ≫= fun ledger => ledger !! "101")
     = Some true.
Proof. repeat split; vm_compute; reflexivity. Qed.

(** C6 (amended), on the freshly loaded roster. *)
Lemma open_session_marks_roster_absent_witness :
  exists ledger,
    attendance_records (snd (@open_attendance_screen text_rendering "cs" demo_loaded))
      !! "cs" = Some ledger
    /\ ledger !! "101" = Some false
    /\ ledger !! "102" = Some false
    /\ ledger !! "103" = Some false.
Proof.
  destruct (@open_session_marks_roster_absent text_rendering "cs" demo_loaded
              demo_entry demo_stored)
    as (ledger & Hledger & Hroster & _);
    [vm_compute; reflexivity | vm_compute; reflexivity | reflexivity | reflexivity |].
  exists ledger. split; [exact Hledger |].
  repeat split; apply Hroster; by_decide.
Defined.

(** C7 does not hold for the return value: the flag of student 101 goes
    from absent to present and the call returns [None], not [True]. *)
Lemma toggle_returns_none_not_the_flag :
  (attendance_records demo_open !! "cs" ≫= fun ledger => ledger !! "101") = Some false
  /\ (attendance_records (snd (toggle_attendance "cs" "101" demo_open)) !! "cs"
      ≫= fun ledger => ledger !! "101") = Some true
  /\ fst (toggle_attendance "cs" "101" demo_open) = Return PNone
  /\ fst (toggle_attendance "cs" "101" demo_open) <> Return (PBool true).
Proof.
  split; [vm_compute; reflexivity |]. split; [vm_compute; reflexivity |].
  split; [vm_compute; reflexivity |]. vm_compute. discriminate.
Qed.

(** C7 (amended), on student 101: in the open session, and after the
    window of the class's buttons has been destroyed by a save. *)
Lemma toggle_flips_and_returns_none_witness :
  attendance_records (snd (toggle_attendance "cs" "101" demo_open))
  = <["cs" := <["101" := true]> demo_ledger]> (attendance_records demo_open)
  /\ fst (toggle_attendance "cs" "101" demo_open) = Return PNone
  /\ student_buttons (snd (toggle_attendance "cs" "101" demo_open))
     = <["cs" := <["101" := {| master := 0; bg := COLOR_present |}]> demo_buttons]>
         (student_buttons demo_open)
  /\ (forall v, fst (toggle_attendance "cs" "101" demo_open) <> Return (PBool v))
  /\ attendance_records (snd (toggle_attendance "cs" "101" demo_saved))
     = <["cs" := <["101" := true]> demo_ledger]> (attendance_records demo_saved)
  /\ fst (toggle_attendance "cs" "101" demo_saved) = Raise TclError.
Proof.
  destruct (toggle_flips_and_returns_none "cs" "101" demo_open demo_ledger false)
    as (Hflip & Hlive & _ & _ & Hnone);
    [vm_compute; reflexivity | vm_compute; reflexivity |].
  destruct (Hlive demo_buttons {| master := 0; bg := COLOR_absent |})
    as [Hreturn Hcolour];
    [vm_compute; reflexivity | vm_compute; reflexivity | by_decide |].
  destruct (toggle_flips_and_returns_none "cs" "101" demo_saved demo_ledger false)
    as (Hflip' & _ & Hdead & _);
    [vm_compute; reflexivity | vm_compute; reflexivity |].
  destruct (Hdead (<["103" := {| master := 1; bg := COLOR_absent |}]>
                     (<["102" := {| master := 1; bg := COLOR_absent |}]>
                        (<["101" := {| master := 1; bg := COLOR_absent |}]> ∅)))
              {| master := 1; bg := COLOR_absent |})
    as [Hraise _];
    [vm_compute; reflexivity | vm_compute; reflexivity | by_decide |].
  exact (conj Hflip (conj Hreturn (conj Hcolour (conj Hnone (conj Hflip' Hraise))))).
Defined.

(** C8 does not hold on a sheet with the single column ["Roll"]: it
    has fewer than two columns and the scan resolves no name column, yet the
    load goes through, with ["Total"] as name column. *)
Lemma single_column_sheet_loads :
  length (Pd.columns single_table) < 2
  /\ snd (detect_scan (Pd.columns single_table)) = None
  /\ snd (detect_scan (Pd.columns (ensure_total single_table))) = None
  /\ dialogs single_loaded = []
  /\ classes_data single_loaded !! "single"
     = Some {| dataframe := 1; file_path := "/data/single.xlsx";
               roll_column := "Roll"; name_column := "Total" |}.
Proof.
  split; [simpl; lia |]. repeat split; vm_compute; reflexivity.
Qed.

(** C8 (amended), on the workbook with an empty sheet. *)
Lemma load_with_fewer_than_two_columns_witness :
  classes_data (snd (add_new_class "/data/blank.xlsx"
                       (initial_state {[ "/data/blank.xlsx" := blank_table ]} [])))
  = ∅
  /\ dialogs (snd (add_new_class "/data/blank.xlsx"
                     (initial_state {[ "/data/blank.xlsx" := blank_table ]} [])))
     = [showerror "Error" "Failed to load class: " IndexError].
Proof.
  destruct (load_with_fewer_than_two_columns "/data/blank.xlsx"
              (initial_state {[ "/data/blank.xlsx" := blank_table ]} []) blank_table)
    as [Hfail _];
    [discriminate | vm_compute; reflexivity | simpl; lia | reflexivity |].
  destruct Hfail as (Hcd & _ & Hdialogs); [now left |].
  split; [exact Hcd | exact Hdialogs].
Defined.

End Runs_on_tables.

(** * Further properties of the code *)

(** ** What the detection returns *)

Section Detection_result.

Lemma scan_after_roll columns r :
  PyStr.truthy (Some r) = true ->
  fold_left detect_step columns (Some r, None) = (Some r, List.find matches_name columns).
Proof.
  intros Hr. induction columns as [|c columns IH]; [reflexivity |].
  simpl fold_left. cbn [List.find]. destruct (matches_name c) eqn:Hname.
  - rewrite detect_step_name by auto.
    apply scan_full; [exact Hr | now apply matches_name_truthy].
  - rewrite detect_step_skip by auto. exact IH.
Qed.

Lemma scan_after_name columns n :
  PyStr.truthy (Some n) = true ->
  fold_left detect_step columns (None, Some n) = (List.find matches_roll columns, Some n).
Proof.
  intros Hn. induction columns as [|c columns IH]; [reflexivity |].
  simpl fold_left. cbn [List.find]. destruct (matches_roll c) eqn:Hroll.
  - rewrite detect_step_roll by exact Hroll.
    apply scan_full; [now apply matches_roll_truthy | exact Hn].
  - rewrite detect_step_skip by auto. exact IH.
Qed.

(** The loop of [detect_data_columns] in closed form. *)
Lemma detect_scan_find columns :
  detect_scan columns
  = (List.find matches_roll columns,
     List.find matches_name (remove_first matches_roll columns)).
Proof.
  unfold detect_scan. induction columns as [|c columns IH]; [reflexivity |].
  simpl fold_left. cbn [List.find remove_first]. destruct (matches_roll c) eqn:Hroll.
  - rewrite detect_step_roll by exact Hroll.
    apply scan_after_roll. now apply matches_roll_truthy.
  - cbn [List.find]. destruct (matches_name c) eqn:Hname.
    + rewrite detect_step_name by auto.
      apply scan_after_name. now apply matches_name_truthy.
    + rewrite detect_step_skip by auto. exact IH.
Qed.

Lemma py_or_find (P : label -> bool) columns default :
  (forall c, P c = true -> PyStr.truthy (Some c) = true) ->
  py_or (List.find P columns) default
  = match List.find P columns with
    | Some c => Return c
    | None => default
    end.
Proof.
  intros Htruthy. destruct (List.find P columns) as [c|] eqn:Hfind; [| reflexivity].
  apply find_some in Hfind as [_ Hc]. unfold py_or. now rewrite (Htruthy c Hc).
Qed.

(** X1: [detect_data_columns] in closed form. The identifier column is the
    first column that holds an identifier pattern, the first column of the
    table when there is none. The name column is the first column holding a
    name pattern among the columns other than that first identifier match,
    the second column of the table when there is none. *)
Theorem detect_data_columns_closed_form (df : DataFrame) :
  detect_data_columns df
  = (roll_col ← match List.find matches_roll (Pd.columns df) with
               | Some c => Return c
               | None => Pd.column_at df 0
               end;
     name_col ← match List.find matches_name
                        (remove_first matches_roll (Pd.columns df)) with
               | Some c => Return c
               | None => Pd.column_at df 1
               end;
     Return (roll_col, name_col)).
Proof.
  unfold detect_data_columns. rewrite detect_scan_find. cbn [fst snd].
  now rewrite !py_or_find by auto using matches_roll_truthy, matches_name_truthy.
Qed.

Lemma find_none_all (P : label -> bool) columns :
  (forall c, c ∈ columns -> P c = false) -> List.find P columns = None.
Proof.
  intros Hall. induction columns as [|c columns IH]; [reflexivity |].
  cbn [List.find]. rewrite (Hall c) by (now left).
  apply IH. intros c' Hc'. apply Hall. now right.
Qed.

Lemma remove_first_none (P : label -> bool) columns :
  (forall c, c ∈ columns -> P c = false) -> remove_first P columns = columns.
Proof.
  intros Hall. induction columns as [|c columns IH]; [reflexivity |].
  cbn [remove_first]. rewrite (Hall c) by (now left).
  f_equal. apply IH. intros c' Hc'. apply Hall. now right.
Qed.

(** X2: when no column holds any pattern, the first two columns are
    returned, in that order. *)
Theorem detect_defaults_to_first_two (df : DataFrame) (a b : label) :
  (forall c, c ∈ Pd.columns df -> matches_roll c = false /\ matches_name c = false) ->
  Pd.columns df !! 0 = Some a -> Pd.columns df !! 1 = Some b ->
  detect_data_columns df = Return (a, b).
Proof.
  intros Hnone Ha Hb. unfold detect_data_columns.
  rewrite detect_scan_find, remove_first_none by (intros c Hc; now apply Hnone).
  rewrite !find_none_all by (intros c Hc; now apply Hnone).
  cbn [fst snd py_or]. unfold Pd.column_at. now rewrite Ha, Hb.
Qed.

(** X3: the only exception of [detect_data_columns] is [IndexError], and it
    is raised only on a table with fewer than two columns; with two columns or
    more a pair is always returned. *)
Theorem detect_raises_only_index_error (df : DataFrame) (e : exn) :
  detect_data_columns df = Raise e ->
  e = IndexError /\ length (Pd.columns df) < 2.
Proof.
  intros Hraise. split.
  - unfold detect_data_columns, py_or, Pd.column_at in Hraise.
    destruct (fst (detect_scan (Pd.columns df))) as [r|];
      destruct (snd (detect_scan (Pd.columns df))) as [n|];
      repeat match type of Hraise with
             | context [PyStr.truthy ?x] => destruct (PyStr.truthy x)
             end;
      destruct (Pd.columns df !! 0); destruct (Pd.columns df !! 1);
      cbn [mbind outcome_bind] in Hraise; congruence.
  - destruct (le_lt_dec 2 (length (Pd.columns df))) as [Hlen | Hlen]; [| exact Hlen].
    destruct (detect_total df Hlen) as (r & n & Hok). congruence.
Qed.

End Detection_result.

(** ** Class names and date labels *)

Section Names.

Lemma contains_slash_cons c s :
  PyStr.contains "/" (String c s) = false ->
  c <> "/"%char /\ PyStr.contains "/" s = false.
Proof.
  cbn [PyStr.contains String.prefix]. destruct (ascii_dec "/" c) as [<- | Hne].
  - destruct s; discriminate.
  - cbn [orb]. intros Hs. split; [congruence | exact Hs].
Qed.

Lemma contains_char_cons (a c : ascii) s :
  PyStr.contains (String a EmptyString) (String c s)
  = Ascii.eqb a c || PyStr.contains (String a EmptyString) s.
Proof.
  cbn [PyStr.contains String.prefix]. destruct (ascii_dec a c) as [-> | Hne].
  - rewrite Ascii.eqb_refl. now destruct s.
  - apply Ascii.eqb_neq in Hne. now rewrite Hne.
Qed.

Lemma append_nil s : "" +:+ s = s.
Proof. reflexivity. Qed.

Lemma append_cons c s t : String c s +:+ t = String c (s +:+ t).
Proof. reflexivity. Qed.

Lemma contains_char_app (a : ascii) s t :
  PyStr.contains (String a EmptyString) (s +:+ String a t) = true.
Proof.
  induction s as [|c s IH].
  - rewrite append_nil, contains_char_cons, Ascii.eqb_refl. reflexivity.
  - rewrite append_cons, contains_char_cons, IH. apply orb_true_r.
Qed.

Lemma basename_plain s : PyStr.contains "/" s = false -> PyStr.basename s = s.
Proof. intros Hs. destruct s; [reflexivity |]. cbn [PyStr.basename]. now rewrite Hs. Qed.

Lemma basename_after_slash dir s :
  PyStr.contains "/" s = false -> PyStr.basename (dir +:+ String "/" s) = s.
Proof.
  intros Hs. induction dir as [|c dir IH].
  - rewrite append_nil. cbn [PyStr.basename].
    rewrite contains_char_cons, Ascii.eqb_refl. cbn [orb]. now apply basename_plain.
  - rewrite append_cons. cbn [PyStr.basename].
    rewrite <- append_cons, contains_char_app. exact IH.
Qed.

Lemma split_head_dot base rest :
  PyStr.contains "." base = false ->
  PyStr.split_head "." (base +:+ String "." rest) = base.
Proof.
  induction base as [|c base IH].
  - intros _. rewrite append_nil. cbn [PyStr.split_head]. now rewrite Ascii.eqb_refl.
  - rewrite contains_char_cons, append_cons. cbn [PyStr.split_head].
    intros Hc. apply orb_false_iff in Hc as [Hc Hbase].
    rewrite Ascii.eqb_sym, Hc. now rewrite IH.
Qed.

Lemma contains_char_app_false (a : ascii) s t :
  PyStr.contains (String a EmptyString) s = false ->
  PyStr.contains (String a EmptyString) t = false ->
  PyStr.contains (String a EmptyString) (s +:+ t) = false.
Proof.
  intros Hs Ht. induction s as [|c s IH]; [now rewrite append_nil |].
  rewrite append_cons, contains_char_cons. rewrite contains_char_cons in Hs.
  apply orb_false_iff in Hs as [-> Hs]. now apply IH.
Qed.

(** X4: the class name is the part of the file name before its first dot:
    for a base name without slash and dot, whatever the folder and whatever
    follows the first dot, [class_name_of] gives the base name. Two workbooks
    that differ only in the folder or after the first dot share a class
    name. *)
Theorem class_name_is_base_before_first_dot (dir base rest : string) :
  PyStr.contains "/" base = false -> PyStr.contains "." base = false ->
  PyStr.contains "/" rest = false ->
  class_name_of (dir +:+ "/" +:+ base +:+ "." +:+ rest) = base
  /\ class_name_of (base +:+ "." +:+ rest) = base.
Proof.
  intros Hslash Hdot Hrest.
  assert (Hname : PyStr.contains "/" (base +:+ "." +:+ rest) = false).
  { apply contains_char_app_false; [exact Hslash |].
    rewrite append_cons, append_nil, contains_char_cons. now rewrite Hrest. }
  unfold class_name_of. rewrite (append_cons "." "" rest), append_nil in *. split.
  - rewrite (append_cons "/" ""), append_nil.
    rewrite basename_after_slash by exact Hname.
    now apply split_head_dot.
  - rewrite basename_plain by exact Hname. now apply split_head_dot.
Qed.

Lemma string_cons_inj c s c' s' : String c s = String c' s' -> c = c' /\ s = s'.
Proof. intros Heq. split; congruence. Qed.

Lemma digit_mod a b : PyStr.digit a = PyStr.digit b -> a mod 10 = b mod 10.
Proof.
  unfold PyStr.digit. intros Heq. apply (f_equal nat_of_ascii) in Heq.
  pose proof (Nat.mod_upper_bound a 10). pose proof (Nat.mod_upper_bound b 10).
  rewrite !nat_ascii_embedding in Heq by lia. lia.
Qed.

Lemma mod_100_digits n : n mod 100 = n mod 10 + 10 * ((n / 10) mod 10).
Proof. change 100 with (10 * 10). apply Nat.Div0.mod_mul_r. Qed.

(** Two numbers print the same two digits exactly when they agree modulo
    one hundred. *)
Lemma two_digits_eq a b : PyStr.two_digits a = PyStr.two_digits b <-> a mod 100 = b mod 100.
Proof.
  unfold PyStr.two_digits. split.
  - intros Heq. apply string_cons_inj in Heq as [Htens Heq].
    apply string_cons_inj in Heq as [Hunits _]. apply digit_mod in Htens, Hunits.
    rewrite !Nat.Div0.mod_mod in Htens. rewrite !mod_100_digits. lia.
  - intros Heq. rewrite !mod_100_digits in Heq.
    pose proof (Nat.mod_upper_bound a 10). pose proof (Nat.mod_upper_bound b 10).
    pose proof (Nat.mod_upper_bound (a / 10) 10).
    pose proof (Nat.mod_upper_bound (b / 10) 10).
    assert (Hu : a mod 10 = b mod 10) by lia.
    assert (Ht : (a / 10) mod 10 = (b / 10) mod 10) by lia.
    unfold PyStr.digit. now rewrite !Nat.Div0.mod_mod, Hu, Ht.
Qed.

Lemma strftime_chars now :
  strftime_dmy now
  = String (PyStr.digit ((day now / 10) mod 10))
      (String (PyStr.digit (day now))
         (String "-"
            (String (PyStr.digit ((month now / 10) mod 10))
               (String (PyStr.digit (month now))
                  (String "-"
                     (String (PyStr.digit ((year now / 10) mod 10))
                        (String (PyStr.digit (year now)) EmptyString))))))).
Proof. reflexivity. Qed.

(** X5: two clock readings give the same column label exactly when their
    day, month and year agree modulo one hundred: within a century a label
    names one calendar day, and years a century apart share their labels. *)
Theorem date_label_eq (a b : datetime) :
  strftime_dmy a = strftime_dmy b
  <-> day a mod 100 = day b mod 100
      /\ month a mod 100 = month b mod 100
      /\ year a mod 100 = year b mod 100.
Proof.
  rewrite <- !two_digits_eq, !strftime_chars. unfold PyStr.two_digits. split.
  - intros Heq.
    repeat (let Hc := fresh "Hc" in apply string_cons_inj in Heq as [Hc Heq]).
    repeat split; congruence.
  - intros (Hd & Hm & Hy).
    apply string_cons_inj in Hd as [Hd1 Hd]. apply string_cons_inj in Hd as [Hd2 _].
    apply string_cons_inj in Hm as [Hm1 Hm]. apply string_cons_inj in Hm as [Hm2 _].
    apply string_cons_inj in Hy as [Hy1 Hy]. apply string_cons_inj in Hy as [Hy2 _].
    congruence.
Qed.

End Names.

(** ** What a load keeps and what it leaves alone *)

Section Load_effects.

Lemma list_not_snoc {A} (l : list A) x : l <> l ++ [x].
Proof.
  intros Heq. apply (f_equal length) in Heq. rewrite length_app in Heq. simpl in Heq. lia.
Qed.

(** A load that shows no error box is a plan that went through. *)
Lemma load_success_plan path s table :
  path <> "" -> disk s !! path = Some table ->
  dialogs (snd (add_new_class path s)) = dialogs s ->
  exists r n d, load_plan table = Return (r, n, d).
Proof.
  intros Hpath Hdisk. rewrite (add_new_class_run path s Hpath), Hdisk. cbn [snd].
  destruct (load_plan table) as [[[r n] d]|e]; [eauto |].
  state_simpl. intros Hd. symmetry in Hd. now apply list_not_snoc in Hd.
Qed.

(** X6: [add_new_class] reads the workbook and writes nothing: the files,
    the ledgers and the buttons are as before, every table object keeps its
    content and the records of the other classes are untouched. Either the
    dialog was cancelled and nothing changes, or a record is stored under the
    class name and one tile is added, or exactly one error box is shown and
    the roster store and the tiles are as before. *)
Theorem add_new_class_effects path s :
  disk (snd (add_new_class path s)) = disk s
  /\ attendance_records (snd (add_new_class path s)) = attendance_records s
  /\ student_buttons (snd (add_new_class path s)) = student_buttons s
  /\ (forall r d, heap s !! r = Some d -> heap (snd (add_new_class path s)) !! r = Some d)
  /\ (forall c, c <> class_name_of path ->
       classes_data (snd (add_new_class path s)) !! c = classes_data s !! c)
  /\ (snd (add_new_class path s) = s
      \/ (is_Some (classes_data (snd (add_new_class path s)) !! class_name_of path)
          /\ class_tiles (snd (add_new_class path s))
             = class_tiles s ++ [class_name_of path]
          /\ dialogs (snd (add_new_class path s)) = dialogs s)
      \/ (exists e,
            dialogs (snd (add_new_class path s))
            = dialogs s ++ [showerror "Error" "Failed to load class: " e]
            /\ classes_data (snd (add_new_class path s)) = classes_data s
            /\ class_tiles (snd (add_new_class path s)) = class_tiles s)).
Proof.
  destruct (String.eqb_spec path "") as [-> | Hpath].
  { cbn. repeat split; auto. }
  rewrite (add_new_class_run path s Hpath). cbn [snd].
  assert (Hheap : forall extra r d, heap s !! r = Some d -> (heap s ++ extra) !! r = Some d).
  { intros extra r d Hr. now apply lookup_app_l_Some. }
  destruct (disk s !! path) as [table|].
  - destruct (load_plan table) as [[[r n] d]|e]; state_simpl.
    + repeat split; auto.
      * intros c Hc. now rewrite lookup_insert_ne.
      * right. left. rewrite lookup_insert_eq. repeat split; eauto.
    + repeat split; eauto 10.
  - state_simpl. repeat split; eauto 10.
Qed.

Lemma filter_none {A} (P : A -> Prop) `{forall x, Decision (P x)} (l : list A) :
  (forall x, x ∈ l -> ~ P x) -> filter P l = [].
Proof.
  induction l as [|x l IH]; intros Hall; [reflexivity |].
  rewrite filter_cons_False by (apply Hall; now left).
  apply IH. intros y Hy. apply Hall. now right.
Qed.

(** [df[df.columns]] on unique labels is the table itself. *)
Lemma own_columns_picked (l : list (label * list cell)) :
  NoDup (map fst l) ->
  flat_map (fun key => filter (fun kc => fst kc = key) l) (map fst l) = l.
Proof.
  induction l as [|kc l IH]; [reflexivity |].
  cbn [map]. intros Hnodup. apply NoDup_cons in Hnodup as [Hfresh Hnodup].
  cbn [flat_map]. rewrite filter_cons_True by reflexivity.
  rewrite filter_none.
  2:{ intros kc' Hin Heq. apply Hfresh. rewrite <- Heq.
      apply list_elem_of_fmap. eauto. }
  cbn [app]. f_equal. rewrite <- (IH Hnodup) at 2.
  assert (Hkeys : Forall (fun key => key <> fst kc) (map fst l)).
  { apply Forall_forall. intros key Hkey ->. contradiction. }
  clear IH Hnodup Hfresh. induction Hkeys as [|key keys Hkey Hkeys IHk]; [reflexivity |].
  cbn [flat_map]. rewrite IHk. f_equal.
  now rewrite filter_cons_False by congruence.
Qed.

Lemma getitem_own_columns d :
  NoDup (Pd.columns d) -> Pd.getitem (Pd.columns d) d = Return d.
Proof.
  intros Hnodup. rewrite getitem_ok by (apply Forall_forall; auto).
  destruct d as [rows l]. unfold Pd.labelled, Pd.columns in *. cbn [cols nrows] in *.
  now rewrite own_columns_picked.
Qed.

Lemma flat_map_Permutation {A B} (f : A -> list B) l1 l2 :
  l1 ≡ₚ l2 -> flat_map f l1 ≡ₚ flat_map f l2.
Proof.
  induction 1 as [|x l1 l2 _ IH|x y l|l1 l2 l3 _ IH1 _ IH2]; cbn [flat_map].
  - reflexivity.
  - now apply Permutation_app_head.
  - rewrite !app_assoc. apply Permutation_app_tail, Permutation_app_comm.
  - now transitivity (flat_map f l2).
Qed.

(** On unique labels, with three different leading labels, the reordering
    lists every label once. *)
Lemma reorder_keys_permutation r n d :
  NoDup (Pd.columns d) -> NoDup [r; n; "Total"] ->
  Forall (fun key => key ∈ Pd.columns d) [r; n; "Total"] ->
  [r; n; "Total"] ++ other_columns r n d ≡ₚ Pd.columns d.
Proof.
  intros Hnodup Hthree Hin. apply NoDup_Permutation; [| exact Hnodup |].
  - apply NoDup_app. split; [exact Hthree |]. split.
    + intros key Hkey Hother. apply other_columns_in in Hother as [Hnot _]. contradiction.
    + now apply NoDup_filter.
  - intros key. rewrite elem_of_app, other_columns_in. split.
    + intros [Hkey | [_ Hkey]]; [| exact Hkey].
      rewrite Forall_forall in Hin. now apply Hin.
    + intros Hkey. destruct (decide (key ∈ [r; n; "Total"])); [now left | now right].
Qed.

(** Then the reordered table has the columns of the table, each once. *)
Lemma reorder_permutation r n d d' :
  NoDup (Pd.columns d) -> NoDup [r; n; "Total"] ->
  Pd.getitem ([r; n; "Total"] ++ other_columns r n d) d = Return d' ->
  cols d' ≡ₚ cols d.
Proof.
  intros Hnodup Hthree Hget. apply getitem_Return in Hget as (_ & -> & Hkeys).
  apply Forall_app in Hkeys as [Hin _].
  rewrite (flat_map_Permutation _ _ _ (reorder_keys_permutation r n d Hnodup Hthree Hin)).
  destruct d as [rows l]. unfold Pd.labelled, Pd.columns in *. cbn [cols] in *.
  now rewrite own_columns_picked.
Qed.

Lemma cols_ensure_total table :
  cols (ensure_total table)
  = cols table ++ (if Pd.has_column "Total" table then []
                   else [("Total", replicate (nrows table) (CInt 0))]).
Proof.
  unfold ensure_total, Pd.setitem_scalar, Pd.setitem.
  destruct (Pd.has_column "Total" table); cbn [negb cols];
    [now rewrite app_nil_r | reflexivity].
Qed.

(** [df[key] = values] leaves the columns under other labels where they
    are. *)
Lemma filter_setitem_out key v d (labels : list label) :
  key ∈ labels ->
  filter (fun kc => fst kc ∉ labels) (cols (Pd.setitem key v d))
  = filter (fun kc => fst kc ∉ labels) (cols d).
Proof.
  intros Hkey. unfold Pd.setitem. destruct (Pd.has_column key d); cbn [cols].
  - induction (cols d) as [|kc l IH]; [reflexivity |].
    cbn [map]. destruct (String.eqb_spec (fst kc) key) as [Heq | Hne].
    + rewrite !filter_cons_False, IH; [reflexivity | |]; cbn [fst];
        intros Hnot; apply Hnot; congruence.
    + rewrite !(filter_cons _ kc), IH. reflexivity.
  - rewrite filter_app, filter_cons_False, filter_nil; [apply app_nil_r |].
    cbn [fst]. intros Hnot. contradiction.
Qed.

Lemma picked_columns keys d kc :
  kc ∈ flat_map (fun key => Pd.labelled key d) keys <-> fst kc ∈ keys /\ kc ∈ cols d.
Proof.
  rewrite list_elem_of_In, in_flat_map. split.
  - intros (key & Hkey & Hkc). apply list_elem_of_In, labelled_in in Hkc as [Hl Hc].
    apply list_elem_of_In in Hkey. now subst key.
  - intros [Hkey Hkc]. exists (fst kc). split; [now apply list_elem_of_In |].
    apply list_elem_of_In, labelled_in. now split.
Qed.

(** The reordering of a load lists every label of the table. *)
Lemma reorder_keys_cover r n d key :
  key ∈ Pd.columns d -> key ∈ [r; n; "Total"] ++ other_columns r n d.
Proof.
  intros Hkey. destruct (decide (key ∈ [r; n; "Total"])) as [Hin | Hnot].
  - apply elem_of_app. now left.
  - apply elem_of_app. right. now apply other_columns_in.
Qed.

Lemma reorder_same_columns r n d d' kc :
  Pd.getitem ([r; n; "Total"] ++ other_columns r n d) d = Return d' ->
  kc ∈ cols d' <-> kc ∈ cols d.
Proof.
  intros Hget. apply getitem_Return in Hget as (_ & -> & _).
  rewrite picked_columns. split; [tauto |]. intros Hkc. split; [| exact Hkc].
  apply reorder_keys_cover. unfold Pd.columns. apply list_elem_of_fmap. eauto.
Qed.

(** X7: a load that goes through neither loses nor invents data. The
    stored table has the rows of the table read from the file, and its
    columns are columns of that table, cells included (so a ["Total"] column
    read from the file is kept as it is), or the ["Total"] column of zeros
    added when the table has none; every such column is stored. When the
    labels read are unique and identifier, name and ["Total"] are three
    different labels, each column is stored exactly once: the stored columns
    are a rearrangement of those columns. *)
Theorem load_keeps_the_columns path s table :
  path <> "" -> disk s !! path = Some table ->
  dialogs (snd (add_new_class path s)) = dialogs s ->
  exists entry d,
    classes_data (snd (add_new_class path s)) !! class_name_of path = Some entry
    /\ file_path entry = path
    /\ heap (snd (add_new_class path s)) !! dataframe entry = Some d
    /\ nrows d = nrows table
    /\ (forall kc,
         kc ∈ cols d
         <-> kc ∈ cols table
             \/ (Pd.has_column "Total" table = false
                 /\ kc = ("Total", replicate (nrows table) (CInt 0))))
    /\ (NoDup (Pd.columns table) ->
        NoDup [roll_column entry; name_column entry; "Total"] ->
        cols d ≡ₚ cols table
                  ++ (if Pd.has_column "Total" table then []
                      else [("Total", replicate (nrows table) (CInt 0))])).
Proof.
  intros Hpath Hdisk Hok.
  destruct (load_success_plan path s table Hpath Hdisk Hok) as (r & n & d & Hplan).
  destruct (add_new_class_loaded path s table r n d Hpath Hdisk Hplan)
    as (Hcd & Hheap & _).
  eexists. exists d. rewrite Hcd, lookup_insert_eq.
  split; [reflexivity |]. split; [reflexivity |]. split; [exact Hheap |].
  apply load_plan_Return in Hplan as [_ Hget].
  pose proof (getitem_Return _ _ _ Hget) as (Hrows & _ & _).
  cbn [roll_column name_column].
  split; [| split].
  - rewrite Hrows. unfold ensure_total, Pd.setitem_scalar.
    destruct (negb (Pd.has_column "Total" table)); [apply nrows_setitem | reflexivity].
  - intros kc. rewrite (reorder_same_columns _ _ _ _ kc Hget).
    unfold ensure_total, Pd.setitem_scalar, Pd.setitem.
    destruct (Pd.has_column "Total" table); cbn [negb cols].
    + split; [now left | intros [Hkc | [Hf _]]; [exact Hkc | discriminate]].
    + rewrite elem_of_app, list_elem_of_singleton. split.
      * intros [Hkc | ->]; [now left | now right].
      * intros [Hkc | [_ ->]]; [now left | now right].
  - intros Hnodup Hthree. rewrite <- cols_ensure_total.
    apply (reorder_permutation r n); [now apply NoDup_ensure_total | exact Hthree | exact Hget].
Qed.

Lemma rectangular_setitem key v d :
  length v = nrows d -> rectangular d -> rectangular (Pd.setitem key v d).
Proof.
  intros Hv Hd. unfold rectangular, Pd.setitem in *.
  destruct (Pd.has_column key d); cbn [nrows cols].
  - apply Forall_forall. intros kc Hkc. apply list_elem_of_fmap in Hkc as (kc' & -> & Hkc').
    rewrite Forall_forall in Hd. destruct (String.eqb (fst kc') key); [exact Hv | auto].
  - apply Forall_app. split; [exact Hd | now repeat constructor].
Qed.

Lemma rectangular_getitem keys d d' :
  Pd.getitem keys d = Return d' -> rectangular d -> rectangular d'.
Proof.
  intros Hget Hd. apply getitem_Return in Hget as (Hrows & Hcols & _).
  unfold rectangular in *. rewrite Hrows, Hcols. rewrite Forall_forall in Hd.
  apply Forall_forall. intros kc Hkc. apply picked_columns in Hkc as [_ Hkc]. auto.
Qed.

Lemma rectangular_ensure_total table : rectangular table -> rectangular (ensure_total table).
Proof.
  intros Ht. unfold ensure_total, Pd.setitem_scalar.
  destruct (negb (Pd.has_column "Total" table)); [| exact Ht].
  apply rectangular_setitem; [apply length_replicate | exact Ht].
Qed.

(** X8: a load keeps tables rectangular: when every column of the file
    holds one cell per row, so does every column of the stored table. *)
Theorem load_keeps_rectangular path s table :
  path <> "" -> disk s !! path = Some table -> rectangular table ->
  dialogs (snd (add_new_class path s)) = dialogs s ->
  exists entry d,
    classes_data (snd (add_new_class path s)) !! class_name_of path = Some entry
    /\ heap (snd (add_new_class path s)) !! dataframe entry = Some d
    /\ rectangular d.
Proof.
  intros Hpath Hdisk Hrect Hok.
  destruct (load_success_plan path s table Hpath Hdisk Hok) as (r & n & d & Hplan).
  destruct (add_new_class_loaded path s table r n d Hpath Hdisk Hplan)
    as (Hcd & Hheap & _).
  eexists. exists d. rewrite Hcd, lookup_insert_eq.
  split; [reflexivity |]. split; [exact Hheap |].
  apply load_plan_Return in Hplan as [_ Hget].
  apply (rectangular_getitem _ _ _ Hget). now apply rectangular_ensure_total.
Qed.

End Load_effects.

(** ** What a save writes *)

Section Save_effects.
Context `{Rendering}.

Lemma setitem_other key v d kc :
  fst kc <> key -> kc ∈ cols (Pd.setitem key v d) <-> kc ∈ cols d.
Proof.
  intros Hne. unfold Pd.setitem. destruct (Pd.has_column key d); cbn [cols].
  - rewrite list_elem_of_fmap. split.
    + intros (kc' & -> & Hkc'). destruct (String.eqb_spec (fst kc') key) as [Heq | _].
      * cbn [fst] in Hne. contradiction.
      * exact Hkc'.
    + intros Hkc. exists kc. split; [| exact Hkc].
      destruct (String.eqb_spec (fst kc) key); [contradiction | reflexivity].
  - rewrite elem_of_app, list_elem_of_singleton. split; [| now left].
    intros [Hkc | ->]; [exact Hkc |]. cbn [fst] in Hne. contradiction.
Qed.

Lemma setitem_column key v d : exists kc, kc ∈ cols (Pd.setitem key v d) /\ fst kc = key.
Proof.
  pose proof (setitem_has key v d) as Hin. unfold Pd.columns in Hin.
  apply list_elem_of_fmap in Hin as (kc & -> & Hkc). eauto.
Qed.

Lemma mapM_outcome_lookup {A B} (f : A -> outcome B) l l' :
  mapM f l = Return l' ->
  length l' = length l
  /\ (forall i x, l !! i = Some x -> exists y, l' !! i = Some y /\ f x = Return y).
Proof.
  revert l'. induction l as [|x l IH]; intros l'.
  - intros [= <-]. split; [reflexivity |]. intros i x [=].
  - rewrite mapM_outcome_cons. destruct (f x) as [y|] eqn:Hfx; [| discriminate].
    cbn [mbind outcome_bind]. destruct (mapM f l) as [k|]; [| discriminate].
    cbn [mbind outcome_bind]. intros [= <-].
    destruct (IH k eq_refl) as [Hlen Hall]. split; [simpl; now rewrite Hlen |].
    intros [|i] x'; cbn [lookup list_lookup].
    + intros [= <-]. eauto.
    + apply Hall.
Qed.

Lemma length_apply_count_present d : length (Pd.apply_count_present d) = nrows d.
Proof.
  unfold Pd.apply_count_present, Pd.iterrows. now rewrite !length_map, length_seq.
Qed.

(** The table of a save that went through: the stored table with today's
    statuses under the date label and a fresh total, the columns reordered. *)
Lemma save_written class_name attendance_window now s :
  dialogs (snd (save_attendance class_name attendance_window now s))
  = dialogs s ++ [showinfo "Success" "Attendance saved!"] ->
  exists entry stored statuses counts written,
    classes_data s !! class_name = Some entry
    /\ heap s !! dataframe entry = Some stored
    /\ mapM (status_of (attendance_records s) class_name (roll_column entry))
            (Pd.iterrows stored) = Return statuses
    /\ length counts = nrows stored
    /\ (file_path entry ∉ locked s)
    /\ disk (snd (save_attendance class_name attendance_window now s))
       = <[file_path entry := written]> (disk s)
    /\ nrows written = nrows stored
    /\ (forall kc,
         kc ∈ cols written
         <-> kc ∈ cols (Pd.setitem "Total" counts
                          (Pd.setitem (strftime_dmy now) statuses stored))).
Proof.
  intros Hok.
  destruct (save_success_plan class_name attendance_window now s Hok)
    as (path & written & Hplan & Hdisk).
  apply save_plan_Return in Hplan
    as (entry & stored & statuses & d & Hentry & Hstored & Hst & Htotal & Htable & -> & Hfree).
  unfold totalled, merged in Htotal.
  destruct (Pd.getitem _ (Pd.setitem _ statuses stored)) as [sub|] eqn:Hsub;
    [| discriminate].
  cbn [mbind outcome_bind] in Htotal. injection Htotal as <-.
  apply getitem_Return in Hsub as (Hsubrows & _ & _).
  exists entry, stored, statuses, (Pd.apply_count_present sub), written.
  repeat (split; [assumption || reflexivity |]).
  split; [now rewrite length_apply_count_present, Hsubrows, nrows_setitem |].
  split; [exact Hfree |]. split; [exact Hdisk |].
  unfold saved_table in Htable. split.
  - apply getitem_Return in Htable as (-> & _ & _). now rewrite !nrows_setitem.
  - intros kc. exact (reorder_same_columns _ _ _ _ kc Htable).
Qed.

(** X9: in the table written by a save, the column of the day holds, on
    every row, ["Present"] when the student identifier of the row is marked
    present in the ledger and ["Absent"] otherwise (also when the identifier
    is not in the ledger). *)
Theorem save_writes_the_ledger class_name attendance_window now s :
  dialogs (snd (save_attendance class_name attendance_window now s))
  = dialogs s ++ [showinfo "Success" "Attendance saved!"] ->
  exists entry stored written,
    classes_data s !! class_name = Some entry
    /\ heap s !! dataframe entry = Some stored
    /\ disk (snd (save_attendance class_name attendance_window now s))
         !! file_path entry = Some written
    /\ nrows written = nrows stored
    /\ (exists column, (strftime_dmy now, column) ∈ cols written)
    /\ (forall i column,
         i < nrows written -> (strftime_dmy now, column) ∈ cols written ->
         column !! i
         = Some (if default false
                      (default ∅ (attendance_records s !! class_name)
                         !! str_item (Pd.row stored i) (roll_column entry))
                 then CStr "Present" else CStr "Absent")).
Proof.
  intros Hok.
  destruct (save_written class_name attendance_window now s Hok)
    as (entry & stored & statuses & counts & written
        & Hentry & Hstored & Hst & _ & _ & Hdisk & Hrows & Hcols).
  destruct (date_label_plain now) as (_ & _ & Hdate).
  exists entry, stored, written.
  split; [exact Hentry |]. split; [exact Hstored |].
  split; [rewrite Hdisk; apply lookup_insert_eq |]. split; [exact Hrows |]. split.
  - destruct (setitem_column (strftime_dmy now) statuses stored) as ([k column] & Hkc & Hk).
    cbn [fst] in Hk. subst k. exists column. apply Hcols.
    apply setitem_other; [exact Hdate | exact Hkc].
  - intros i column Hi Hkc. apply Hcols in Hkc.
    apply setitem_other in Hkc; [| exact Hdate].
    apply setitem_value in Hkc; [| reflexivity]. cbn [snd] in Hkc. subst column.
    apply mapM_outcome_lookup in Hst as [_ Hall].
    destruct (Hall i (Pd.row stored i)) as (y & -> & Hy).
    { unfold Pd.iterrows. rewrite list_lookup_fmap, lookup_seq_lt by lia. reflexivity. }
    f_equal. unfold status_of, student_id_of in Hy.
    destruct (Pd.series_has (roll_column entry) (Pd.row stored i)); [| discriminate].
    cbn [mbind outcome_bind] in Hy.
    destruct (attendance_records s !! class_name) as [ledger|]; [| discriminate].
    cbn [found mbind outcome_bind default] in Hy |- *. now injection Hy as <-.
Qed.

(** X10: a save leaves the earlier data alone. The written table has the
    rows of the stored table and, apart from the column of the day and
    ["Total"], its columns are columns of the stored table, with the same
    cells, and every such column of the stored table is written. When the
    stored labels are unique and identifier, name and ["Total"] are three
    different labels, each of them is written exactly once: apart from the
    day and ["Total"], the written columns are a rearrangement of the stored
    ones. *)
Theorem save_keeps_earlier_columns class_name attendance_window now s :
  dialogs (snd (save_attendance class_name attendance_window now s))
  = dialogs s ++ [showinfo "Success" "Attendance saved!"] ->
  exists entry stored written,
    classes_data s !! class_name = Some entry
    /\ heap s !! dataframe entry = Some stored
    /\ disk (snd (save_attendance class_name attendance_window now s))
         !! file_path entry = Some written
    /\ nrows written = nrows stored
    /\ (forall kc, fst kc <> strftime_dmy now -> fst kc <> "Total" ->
         kc ∈ cols written <-> kc ∈ cols stored)
    /\ (NoDup (Pd.columns stored) ->
        NoDup [roll_column entry; name_column entry; "Total"] ->
        filter (fun kc => fst kc ∉ [strftime_dmy now; "Total"]) (cols written)
        ≡ₚ filter (fun kc => fst kc ∉ [strftime_dmy now; "Total"]) (cols stored)).
Proof.
  intros Hok.
  destruct (save_written class_name attendance_window now s Hok)
    as (entry & stored & statuses & counts & written
        & Hentry & Hstored & _ & _ & _ & Hdisk & Hrows & Hcols).
  exists entry, stored, written.
  split; [exact Hentry |]. split; [exact Hstored |].
  split; [rewrite Hdisk; apply lookup_insert_eq |]. split; [exact Hrows |].
  split; [intros kc Hdate Htotal; now rewrite Hcols, !setitem_other |].
  intros Hnodup Hthree.
  destruct (save_success_plan class_name attendance_window now s Hok)
    as (path & written' & Hplan & Hdisk').
  apply save_plan_Return in Hplan
    as (entry' & stored' & statuses' & d & Hentry' & Hstored' & _ & Htotal & Htable & -> & _).
  rewrite Hentry in Hentry'. injection Hentry' as <-.
  rewrite Hstored in Hstored'. injection Hstored' as <-.
  assert (written' = written) as ->.
  { rewrite Hdisk in Hdisk'.
    pose proof (f_equal (fun dk => dk !! file_path entry) Hdisk') as Heq.
    cbn beta in Heq. rewrite !lookup_insert_eq in Heq. congruence. }
  unfold totalled, merged in Htotal.
  destruct (Pd.getitem _ (Pd.setitem _ statuses' stored)) as [sub|]; [| discriminate].
  cbn [mbind outcome_bind] in Htotal. injection Htotal as <-.
  unfold saved_table in Htable.
  rewrite (reorder_permutation _ _ _ _ (NoDup_columns_setitem _ _ _
             (NoDup_columns_setitem _ _ _ Hnodup)) Hthree Htable).
  rewrite filter_setitem_out by (right; now left).
  now rewrite filter_setitem_out by now left.
Qed.

(** X11: a save keeps tables rectangular: when every column of the stored
    table holds one cell per row, so does every column of the written table,
    the column of the day and ["Total"] included. *)
Theorem save_keeps_rectangular class_name attendance_window now s entry stored :
  classes_data s !! class_name = Some entry ->
  heap s !! dataframe entry = Some stored ->
  rectangular stored ->
  dialogs (snd (save_attendance class_name attendance_window now s))
  = dialogs s ++ [showinfo "Success" "Attendance saved!"] ->
  exists written,
    disk (snd (save_attendance class_name attendance_window now s))
         !! file_path entry = Some written
    /\ rectangular written.
Proof.
  intros Hentry Hstored Hrect Hok.
  destruct (save_written class_name attendance_window now s Hok)
    as (entry' & stored' & statuses & counts & written
        & Hentry' & Hstored' & Hst & Hcounts & _ & Hdisk & Hrows & Hcols).
  rewrite Hentry in Hentry'. injection Hentry' as <-.
  rewrite Hstored in Hstored'. injection Hstored' as <-.
  exists written. split; [rewrite Hdisk; apply lookup_insert_eq |].
  apply mapM_outcome_lookup in Hst as [Hlen _].
  assert (Hd : rectangular (Pd.setitem "Total" counts
                              (Pd.setitem (strftime_dmy now) statuses stored))).
  { apply rectangular_setitem; [now rewrite nrows_setitem |].
    apply rectangular_setitem; [| exact Hrect].
    rewrite Hlen. unfold Pd.iterrows. now rewrite length_map, length_seq. }
  unfold rectangular in *. rewrite Forall_forall in Hd. apply Forall_forall.
  intros kc Hkc. rewrite Hrows. apply Hcols in Hkc.
  rewrite <- (nrows_setitem (strftime_dmy now) statuses stored).
  rewrite <- (nrows_setitem "Total" counts). auto.
Qed.

(** X12: a save touches one file at most. Either it shows the success box
    and has written the file of the class, or it shows one error box and has
    written nothing; the other files are never changed. *)
Theorem save_writes_one_file_or_none class_name attendance_window now s :
  ((exists entry table,
      classes_data s !! class_name = Some entry
      /\ (file_path entry ∉ locked s)
      /\ disk (snd (save_attendance class_name attendance_window now s))
         = <[file_path entry := table]> (disk s)
      /\ dialogs (snd (save_attendance class_name attendance_window now s))
         = dialogs s ++ [showinfo "Success" "Attendance saved!"])
   \/ (exists e,
        disk (snd (save_attendance class_name attendance_window now s)) = disk s
        /\ dialogs (snd (save_attendance class_name attendance_window now s))
           = dialogs s ++ [showerror "Error" "Failed to save attendance: " e]))
  /\ (forall path,
       (forall entry, classes_data s !! class_name = Some entry -> path <> file_path entry) ->
       disk (snd (save_attendance class_name attendance_window now s)) !! path = disk s !! path).
Proof.
  destruct (save_attendance_run class_name attendance_window now s) as [extra Hrun].
  destruct (save_plan class_name now s) as [[path table]|e] eqn:Hplan.
  - apply save_plan_Return in Hplan
      as (entry & _ & _ & _ & Hentry & _ & _ & _ & _ & -> & Hfree).
    rewrite Hrun. cbn [snd]. state_simpl. split.
    + left. exists entry, table. auto.
    + intros path Hpath. apply lookup_insert_ne. intros Heq.
      now apply (Hpath entry Hentry).
  - rewrite Hrun. cbn [snd]. state_simpl. split; [right; eauto | reflexivity].
Qed.

(** The plan of a save whose file cannot be written. *)
Lemma save_plan_locked class_name now s entry stored ledger :
  classes_data s !! class_name = Some entry ->
  heap s !! dataframe entry = Some stored ->
  Pd.has_column (roll_column entry) stored = true ->
  Pd.has_column (name_column entry) stored = true ->
  attendance_records s !! class_name = Some ledger ->
  file_path entry ∈ locked s ->
  save_plan class_name now s = Raise PermissionError.
Proof.
  intros Hentry Hstored Hroll Hname Hledger Hlocked.
  apply bool_decide_eq_true in Hroll, Hname.
  destruct (mapM_status_ok (attendance_records s) class_name (roll_column entry)
              ledger stored Hledger) as [statuses Hstatuses];
    [now apply bool_decide_eq_true |].
  unfold save_plan. rewrite Hentry. cbn [found mbind outcome_bind].
  rewrite Hstored. cbn [found mbind outcome_bind]. rewrite Hstatuses.
  cbn [mbind outcome_bind]. unfold totalled, merged.
  rewrite getitem_ok by apply other_columns_all_in. cbn [mbind outcome_bind].
  unfold saved_table. rewrite getitem_ok.
  - cbn [mbind outcome_bind]. now rewrite bool_decide_eq_true_2 by exact Hlocked.
  - apply Forall_app. split; [| apply other_columns_all_in].
    repeat constructor.
    + now do 2 apply columns_setitem_keeps.
    + now do 2 apply columns_setitem_keeps.
    + apply setitem_has.
Qed.

(** X13: when the workbook cannot be written (it is open elsewhere, or
    read-only), a save that would otherwise go through reports
    [PermissionError] in one error box, writes nothing and keeps the ledger:
    the user can save again. *)
Theorem save_to_a_locked_file class_name attendance_window now s entry stored ledger :
  classes_data s !! class_name = Some entry ->
  heap s !! dataframe entry = Some stored ->
  Pd.has_column (roll_column entry) stored = true ->
  Pd.has_column (name_column entry) stored = true ->
  attendance_records s !! class_name = Some ledger ->
  file_path entry ∈ locked s ->
  dialogs (snd (save_attendance class_name attendance_window now s))
  = dialogs s ++ [showerror "Error" "Failed to save attendance: " PermissionError]
  /\ disk (snd (save_attendance class_name attendance_window now s)) = disk s
  /\ attendance_records (snd (save_attendance class_name attendance_window now s)) !! class_name
     = Some ledger.
Proof.
  intros Hentry Hstored Hroll Hname Hledger Hlocked.
  destruct (save_attendance_run class_name attendance_window now s) as [extra ->]. cbn [snd].
  rewrite (save_plan_locked class_name now s entry stored ledger) by assumption.
  state_simpl. auto.
Qed.

(** X14: the table in memory never learns of a save, so a save on a later
    day (from any window) starts again from the table as it was loaded: the
    file written the
    first day has that day's column, and the file written the second day,
    which replaces it, has not. *)
Theorem later_save_drops_earlier_day class_name attendance_window window2 day1 day2 s entry stored :
  classes_data s !! class_name = Some entry ->
  heap s !! dataframe entry = Some stored ->
  strftime_dmy day1 ∉ Pd.columns stored ->
  strftime_dmy day1 <> strftime_dmy day2 ->
  dialogs (snd (save_attendance class_name attendance_window day1 s))
  = dialogs s ++ [showinfo "Success" "Attendance saved!"] ->
  dialogs (snd (save_attendance class_name window2 day2
          (snd (save_attendance class_name attendance_window day1 s))))
  = dialogs (snd (save_attendance class_name attendance_window day1 s))
    ++ [showinfo "Success" "Attendance saved!"] ->
  exists first second,
    disk (snd (save_attendance class_name attendance_window day1 s)) !! file_path entry = Some first
    /\ strftime_dmy day1 ∈ Pd.columns first
    /\ disk (snd (save_attendance class_name window2 day2
            (snd (save_attendance class_name attendance_window day1 s))))
         !! file_path entry = Some second
    /\ (strftime_dmy day1 ∉ Pd.columns second)
    /\ strftime_dmy day2 ∈ Pd.columns second.
Proof.
  intros Hentry Hstored Hnew Hdays Hok1 Hok2.
  destruct (date_label_plain day1) as (_ & _ & Hd1).
  destruct (date_label_plain day2) as (_ & _ & Hd2).
  destruct (save_attendance_frame class_name attendance_window day1 s) as (Hcd & _ & _ & Hheap).
  destruct (save_written class_name attendance_window day1 s Hok1)
    as (entry1 & stored1 & statuses1 & counts1 & first
        & Hentry1 & Hstored1 & _ & _ & _ & Hdisk1 & _ & Hcols1).
  rewrite Hentry in Hentry1. injection Hentry1 as <-.
  rewrite Hstored in Hstored1. injection Hstored1 as <-.
  destruct (save_written class_name window2 day2 _ Hok2)
    as (entry2 & stored2 & statuses2 & counts2 & second
        & Hentry2 & Hstored2 & _ & _ & _ & Hdisk2 & _ & Hcols2).
  rewrite Hcd, Hentry in Hentry2. injection Hentry2 as <-.
  rewrite (Hheap _ _ Hstored) in Hstored2. injection Hstored2 as <-.
  assert (Hin : forall day statuses counts (written : DataFrame),
            strftime_dmy day <> "Total" ->
            (forall kc, kc ∈ cols written
                        <-> kc ∈ cols (Pd.setitem "Total" counts
                                         (Pd.setitem (strftime_dmy day) statuses stored))) ->
            strftime_dmy day ∈ Pd.columns written).
  { intros day statuses counts written Hday Hcols.
    destruct (setitem_column (strftime_dmy day) statuses stored) as (kc & Hkc & Hlabel).
    unfold Pd.columns. apply list_elem_of_fmap. exists kc. split; [now symmetry |].
    apply Hcols. apply setitem_other; [congruence | exact Hkc]. }
  exists first, second.
  split; [rewrite Hdisk1; apply lookup_insert_eq |].
  split; [exact (Hin day1 statuses1 counts1 first Hd1 Hcols1) |].
  split; [rewrite Hdisk2; apply lookup_insert_eq |].
  split; [| exact (Hin day2 statuses2 counts2 second Hd2 Hcols2)].
  intros Hsecond. unfold Pd.columns in Hsecond.
  apply list_elem_of_fmap in Hsecond as (kc & Hlabel & Hkc).
  apply Hcols2 in Hkc. apply setitem_other in Hkc; [| congruence].
  apply setitem_other in Hkc; [| congruence].
  apply Hnew. unfold Pd.columns. apply list_elem_of_fmap. eauto.
Qed.

End Save_effects.

(** ** Sessions *)

Section Sessions.
Context `{Rendering}.

Lemma tiles_for_lookup container ids buttons student_id :
  tiles_for container ids buttons !! student_id
  = if decide (student_id ∈ ids)
    then Some {| master := container; bg := COLOR_absent |}
    else buttons !! student_id.
Proof.
  unfold tiles_for. revert buttons.
  induction ids as [|x ids IH]; intros buttons; simpl.
  - destruct (decide (student_id ∈ [])) as [Hin | _]; [| reflexivity].
    now apply not_elem_of_nil in Hin.
  - rewrite IH. destruct (decide (student_id ∈ ids)) as [Hin | Hnot].
    + rewrite decide_True by (now right). reflexivity.
    + destruct (decide (student_id = x)) as [-> | Hne].
      * rewrite decide_True by (now left). apply lookup_insert_eq.
      * rewrite decide_False by (rewrite elem_of_cons; tauto).
        now apply lookup_insert_ne.
Qed.

(** [open_attendance_screen] on a name without a record: the window and
    the ledger are created all the same, then the grid raises. *)
Lemma open_attendance_screen_stuck class_name s :
  classes_data s !! class_name = None ->
  open_attendance_screen class_name s
  = (Raise KeyError,
     set_attendance_records
       (insert class_name (default ∅ (attendance_records s !! class_name)))
       (set_toplevels S s)).
Proof.
  intros Hentry. unfold open_attendance_screen, create_student_grid.
  destruct s as [h cd ar sb ct dk lk dl tl ds]. state_simpl. cbn [classes_data] in Hentry.
  rewrite bind_run. cbn [new_toplevel]. state_simpl.
  rewrite bind_run. cbn [get_state]. state_simpl.
  assert (Hledger :
    forall B (f : unit -> Py B),
      ((if bool_decide (class_name ∉ dom ar)
        then modify (set_attendance_records (insert class_name ∅))
        else mret tt) ≫= f)
        {| heap := h; classes_data := cd; attendance_records := ar;
           student_buttons := sb; class_tiles := ct; disk := dk; locked := lk;
           dialogs := dl; toplevels := S tl; destroyed := ds |}
      = f tt {| heap := h; classes_data := cd;
                attendance_records :=
                  <[class_name := default ∅ (ar !! class_name)]> ar;
                student_buttons := sb; class_tiles := ct; disk := dk; locked := lk;
                dialogs := dl; toplevels := S tl; destroyed := ds |}).
  { intros B f. rewrite bind_run. case_bool_decide as Hdom.
    - apply not_elem_of_dom in Hdom. rewrite Hdom. reflexivity.
    - apply elem_of_dom in Hdom as [ledger Hl].
      rewrite Hl. cbn [default mret Py_ret]. now rewrite insert_id. }
  rewrite Hledger, !bind_run. cbn [get_state]. state_simpl.
  unfold dict_get. rewrite Hentry. reflexivity.
Qed.

(** [toggle_attendance] on a key the ledgers do not have. *)
Lemma toggle_attendance_stuck class_name student_id s :
  (attendance_records s !! class_name ≫= fun ledger => ledger !! student_id) = None ->
  toggle_attendance class_name student_id s = (Raise KeyError, s).
Proof.
  intros Hnone. unfold toggle_attendance.
  destruct s as [h cd ar sb ct dk lk dl tl ds]. cbn [attendance_records] in Hnone.
  rewrite bind_run. cbn [get_state]. state_simpl.
  destruct (ar !! class_name) as [ledger|] eqn:Hledger.
  - rewrite (run_dict_get _ _ _ _ _ Hledger). cbn [mbind option_bind] in Hnone.
    rewrite bind_run. unfold dict_get. rewrite Hnone. reflexivity.
  - rewrite bind_run. unfold dict_get. rewrite Hledger. reflexivity.
Qed.

(** The button the class holds for a student, if any. *)
Lemma button_lookup_pair (sb : gmap string (gmap string Button)) class_name student_id :
  (sb !! class_name ≫= fun buttons =>
     buttons !! student_id ≫= fun button => Some (buttons, button))
  = match sb !! class_name with
    | Some buttons =>
        match buttons !! student_id with
        | Some button => Some (buttons, button)
        | None => None
        end
    | None => None
    end.
Proof. destruct (sb !! class_name) as [buttons|]; reflexivity. Qed.

(** X15: the three ways a press of a student tile ends. It returns (with
    [None]) exactly when the ledger of the class has the student and the
    class holds a button for the student whose window exists. It raises
    [KeyError] exactly when the ledger entry or the button is missing, and
    [TclError] exactly when both are there and the window of the button has
    been destroyed. Without the ledger entry nothing is changed; whenever it
    raises, the buttons are left as they were. *)
Theorem toggle_returns_iff_live_button class_name student_id s :
  (fst (toggle_attendance class_name student_id s) = Return PNone
   <-> is_Some (attendance_records s !! class_name ≫= fun ledger => ledger !! student_id)
       /\ exists button,
            (student_buttons s !! class_name ≫= fun buttons => buttons !! student_id)
            = Some button
            /\ (master button ∉ destroyed s))
  /\ (fst (toggle_attendance class_name student_id s) = Raise KeyError
      <-> (attendance_records s !! class_name ≫= fun ledger => ledger !! student_id) = None
          \/ (student_buttons s !! class_name ≫= fun buttons => buttons !! student_id)
             = None)
  /\ (fst (toggle_attendance class_name student_id s) = Raise TclError
      <-> is_Some (attendance_records s !! class_name
                   ≫= fun ledger => ledger !! student_id)
          /\ exists button,
               (student_buttons s !! class_name ≫= fun buttons => buttons !! student_id)
               = Some button
               /\ master button ∈ destroyed s)
  /\ ((attendance_records s !! class_name ≫= fun ledger => ledger !! student_id) = None ->
      snd (toggle_attendance class_name student_id s) = s)
  /\ (fst (toggle_attendance class_name student_id s) <> Return PNone ->
      student_buttons (snd (toggle_attendance class_name student_id s))
      = student_buttons s).
Proof.
  destruct (attendance_records s !! class_name ≫= fun ledger => ledger !! student_id)
    as [b|] eqn:Hflag.
  - destruct (attendance_records s !! class_name) as [ledger|] eqn:Hledger;
      [| discriminate].
    cbn [mbind option_bind] in Hflag.
    rewrite (toggle_attendance_run class_name student_id s ledger b Hledger Hflag).
    rewrite button_lookup_pair.
    destruct (student_buttons s !! class_name) as [buttons|]; cbn [mbind option_bind].
    + destruct (buttons !! student_id) as [button|].
      * case_bool_decide as Hdead; cbn [fst snd].
        -- split; [| split; [| split; [| split]]]; try discriminate; try reflexivity.
           ++ split; [discriminate |]. intros [_ (button' & [= <-] & Hlive)].
              contradiction.
           ++ split; [discriminate | intros [[=] | [=]]].
           ++ split; [| reflexivity]. intros _. split; [eauto |]. eauto.
        -- split; [| split; [| split; [| split]]]; try discriminate.
           ++ split; [| reflexivity]. intros _. split; [eauto |]. eauto.
           ++ split; [discriminate | intros [[=] | [=]]].
           ++ split; [discriminate |]. intros [_ (button' & [= <-] & Hin)].
              contradiction.
           ++ intros Hne. now contradiction Hne.
      * cbn [fst snd].
        split; [| split; [| split; [| split]]]; try discriminate; try reflexivity.
        -- split; [discriminate |]. intros [_ (button' & [=] & _)].
        -- split; [| reflexivity]. intros _. now right.
        -- split; [discriminate |]. intros [_ (button' & [=] & _)].
    + cbn [fst snd].
      split; [| split; [| split; [| split]]]; try discriminate; try reflexivity.
      * split; [discriminate |]. intros [_ (button' & [=] & _)].
      * split; [| reflexivity]. intros _. now right.
      * split; [discriminate |]. intros [_ (button' & [=] & _)].
  - rewrite (toggle_attendance_stuck class_name student_id s Hflag). cbn [fst snd].
    split; [| split; [| split; [| split]]]; try discriminate; try reflexivity.
    + split; [discriminate |]. intros [[? [=]] _].
    + split; [| reflexivity]. intros _. now left.
    + split; [discriminate |]. intros [[? [=]] _].
Qed.

(** X16: opening the session of a loaded class returns, creates one window
    and rebuilds the button map of the class from nothing: one
    absent-coloured button of the new window for each identifier of the
    roster and no other; the buttons of the other classes, the records, the
    tables, the files, the dialogs and the destroyed windows stay. *)
Theorem open_rebuilds_the_buttons class_name s entry stored :
  classes_data s !! class_name = Some entry ->
  heap s !! dataframe entry = Some stored ->
  Pd.has_column (roll_column entry) stored = true ->
  Pd.has_column (name_column entry) stored = true ->
  fst (open_attendance_screen class_name s) = Return PNone
  /\ (exists buttons,
        student_buttons (snd (open_attendance_screen class_name s)) !! class_name
        = Some buttons
        /\ forall student_id,
             buttons !! student_id
             = if decide (student_id ∈ roster_ids (roll_column entry) stored)
               then Some {| master := toplevels s; bg := COLOR_absent |} else None)
  /\ (forall c, c <> class_name ->
        student_buttons (snd (open_attendance_screen class_name s)) !! c
        = student_buttons s !! c)
  /\ classes_data (snd (open_attendance_screen class_name s)) = classes_data s
  /\ heap (snd (open_attendance_screen class_name s)) = heap s
  /\ disk (snd (open_attendance_screen class_name s)) = disk s
  /\ dialogs (snd (open_attendance_screen class_name s)) = dialogs s
  /\ toplevels (snd (open_attendance_screen class_name s)) = S (toplevels s)
  /\ destroyed (snd (open_attendance_screen class_name s)) = destroyed s.
Proof.
  intros Hentry Hstored Hroll Hname.
  rewrite (open_attendance_screen_run class_name s entry stored) by assumption.
  cbn [fst snd]. state_simpl. split; [reflexivity |]. split; [| split].
  - eexists. rewrite lookup_insert_eq. split; [reflexivity |].
    intros student_id. now rewrite tiles_for_lookup.
  - intros c Hc. now rewrite lookup_insert_ne.
  - repeat split.
Qed.

(** *** What the main loop keeps *)

Lemma getitem_has key keys d d' :
  Pd.getitem keys d = Return d' -> key ∈ keys -> key ∈ Pd.columns d ->
  Pd.has_column key d' = true.
Proof.
  intros Hget Hkey Hin. apply getitem_Return in Hget as (_ & Hcols & _).
  apply bool_decide_eq_true. unfold Pd.columns in *.
  apply list_elem_of_fmap in Hin as (kc & -> & Hkc).
  apply list_elem_of_fmap. exists kc. split; [reflexivity |].
  rewrite Hcols. apply picked_columns. now split.
Qed.

Lemma add_new_class_cancelled s : add_new_class "" s = (Return PNone, s).
Proof. reflexivity. Qed.

Lemma add_new_class_sound path s : sound s -> sound (snd (add_new_class path s)).
Proof.
  intros Hs.
  destruct (decide (path = "")) as [-> | Hpath];
    [rewrite add_new_class_cancelled; exact Hs |].
  destruct Hs as (Hrec & Hbut & Htiles & Hsess & Hwin).
  rewrite (add_new_class_run path s Hpath).
  assert (Hgrow : forall extra c entry,
            classes_data s !! c = Some entry ->
            exists d, (heap s ++ extra) !! dataframe entry = Some d
                      /\ Pd.has_column (roll_column entry) d = true
                      /\ Pd.has_column (name_column entry) d = true
                      /\ Pd.has_column "Total" d = true).
  { intros extra c entry Hc. destruct (Hrec c entry Hc) as (d & Hd & Hcols).
    exists d. split; [now apply lookup_app_l_Some | exact Hcols]. }
  destruct (disk s !! path) as [table|]; cbn [snd];
    [| split; [exact Hrec |]; split; [exact Hbut |]; split; [exact Htiles |];
       split; [exact Hsess | exact Hwin]].
  destruct (load_plan table) as [[[r n] d']|e] eqn:Hplan; cbn [snd].
  2:{ split; [| split; [exact Hbut |]; split; [exact Htiles |];
                 split; [exact Hsess | exact Hwin]].
      intros c entry Hc. state_simpl. now apply (Hgrow _ c). }
  apply load_plan_Return in Hplan as [Hdetect Hget].
  destruct (detect_in_columns _ _ _ Hdetect) as [Hr Hn].
  split; [| split; [exact Hbut |]; split; [| split; [| exact Hwin]]].
  - intros c entry. state_simpl.
    destruct (decide (c = class_name_of path)) as [-> | Hne].
    + rewrite lookup_insert_eq. intros [= <-]. cbn [dataframe roll_column name_column].
      exists d'. split.
      * rewrite lookup_app_r by lia.
        replace (S (length (heap s)) - length (heap s)) with 1 by lia. reflexivity.
      * repeat split; apply (getitem_has _ _ _ _ Hget);
          auto using total_in_ensure_total;
          apply elem_of_app; left; rewrite !elem_of_cons; tauto.
    + rewrite lookup_insert_ne by congruence. apply (Hgrow _ c).
  - intros c. state_simpl. rewrite elem_of_app, list_elem_of_singleton.
    intros [Hc | ->].
    + rewrite lookup_insert_is_Some. destruct (decide (class_name_of path = c)); auto.
    + rewrite lookup_insert_eq. eauto.
  - intros c Hc. state_simpl. apply Hsess in Hc.
    rewrite lookup_insert_is_Some. destruct (decide (class_name_of path = c)); auto.
Qed.

Lemma open_attendance_screen_sound class_name s :
  sound s -> sound (snd (open_attendance_screen class_name s)).
Proof.
  intros (Hrec & Hbut & Htiles & Hsess & Hdead & Hmasters).
  destruct (classes_data s !! class_name) as [entry|] eqn:Hentry.
  - destruct (Hrec _ _ Hentry) as (stored & Hstored & Hroll & Hname & _).
    rewrite (open_attendance_screen_run class_name s entry stored) by assumption.
    cbn [snd].
    split; [exact Hrec |]. split; [| split; [exact Htiles |]; split; [| split]].
    + intros c buttons. state_simpl.
      destruct (decide (c = class_name)) as [-> | Hne].
      * rewrite !lookup_insert_eq. intros [= <-]. eexists. split; [reflexivity |].
        intros student_id button. rewrite tiles_for_lookup, absent_all_lookup.
        destruct (decide (student_id ∈ roster_ids (roll_column entry) stored));
          [| now rewrite lookup_empty].
        intros [= <-]. now exists false.
      * rewrite !lookup_insert_ne by congruence. apply Hbut.
    + intros c. state_simpl.
      destruct (decide (c = class_name)) as [-> | Hne]; [now rewrite Hentry |].
      rewrite lookup_insert_ne by congruence. apply Hsess.
    + intros w Hw. state_simpl. apply Hdead in Hw. lia.
    + intros c buttons student_id button. state_simpl.
      destruct (decide (c = class_name)) as [-> | Hne].
      * rewrite lookup_insert_eq. intros [= <-]. rewrite tiles_for_lookup.
        destruct (decide _); [| now rewrite lookup_empty].
        intros [= <-]. cbn [master]. lia.
      * rewrite lookup_insert_ne by congruence. intros Hc Hb.
        pose proof (Hmasters _ _ _ _ Hc Hb). lia.
  - rewrite (open_attendance_screen_stuck class_name s Hentry).
    cbn [snd].
    split; [exact Hrec |]. split; [| split; [exact Htiles |]; split; [exact Hsess | split]].
    + intros c buttons. state_simpl. intros Hc.
      destruct (Hbut c buttons Hc) as (ledger & Hledger & Hall).
      exists ledger. split; [| exact Hall].
      destruct (decide (c = class_name)) as [-> | Hne].
      * rewrite Hledger. cbn [default]. apply lookup_insert_eq.
      * now rewrite lookup_insert_ne by congruence.
    + intros w Hw. state_simpl. apply Hdead in Hw. lia.
    + intros c buttons student_id button. state_simpl. intros Hc Hb.
      pose proof (Hmasters _ _ _ _ Hc Hb). lia.
Qed.

Lemma toggle_attendance_sound class_name student_id s :
  sound s -> sound (snd (toggle_attendance class_name student_id s)).
Proof.
  intros Hs.
  destruct (attendance_records s !! class_name ≫= fun ledger => ledger !! student_id)
    as [b|] eqn:Hflag.
  2:{ rewrite (toggle_attendance_stuck class_name student_id s Hflag). exact Hs. }
  destruct Hs as (Hrec & Hbut & Htiles & Hsess & Hdead & Hmasters).
  destruct (attendance_records s !! class_name) as [ledger|] eqn:Hledger;
    [| discriminate].
  cbn [mbind option_bind] in Hflag.
  rewrite (toggle_attendance_run class_name student_id s ledger b Hledger Hflag).
  rewrite button_lookup_pair.
  (* the ledger has changed at one student, the buttons not at all *)
  assert (Hflipped :
    forall dead : Prop,
      ((student_buttons s !! class_name ≫= fun buttons => buttons !! student_id) = None
       \/ (exists button,
             (student_buttons s !! class_name ≫= fun buttons => buttons !! student_id)
             = Some button /\ master button ∈ destroyed s)) ->
      sound (set_attendance_records
               (insert class_name (<[student_id := negb b]> ledger)) s)).
  { intros _ Hbutton.
    split; [exact Hrec |]. split; [| split; [exact Htiles |]; split; [exact Hsess |]].
    2:{ split; [exact Hdead | exact Hmasters]. }
    intros c buttons. state_simpl. intros Hc.
    destruct (Hbut c buttons Hc) as (ledger' & Hledger' & Hall).
    destruct (decide (c = class_name)) as [-> | Hne].
    - rewrite Hledger in Hledger'. injection Hledger' as <-.
      rewrite lookup_insert_eq. eexists. split; [reflexivity |].
      intros sid button Hsome.
      destruct (decide (sid = student_id)) as [-> | Hsid].
      + rewrite lookup_insert_eq. exists (negb b). split; [reflexivity |].
        intros Hlive. rewrite Hc in Hbutton. cbn [mbind option_bind] in Hbutton.
        rewrite Hsome in Hbutton.
        destruct Hbutton as [[=] | (button' & [= <-] & Hin)]. contradiction.
      + rewrite lookup_insert_ne by congruence. now apply Hall.
    - rewrite lookup_insert_ne by congruence. eauto. }
  destruct (student_buttons s !! class_name) as [buttons|] eqn:Hbuttons.
  2:{ cbn [snd]. apply (Hflipped True). left. reflexivity. }
  destruct (buttons !! student_id) as [button|] eqn:Hbutton.
  2:{ cbn [snd]. apply (Hflipped True). left. cbn [mbind option_bind]. exact Hbutton. }
  case_bool_decide as Hin; cbn [snd].
  { apply (Hflipped True). right. exists button. cbn [mbind option_bind]. now split. }
  split; [exact Hrec |]. split; [| split; [exact Htiles |]; split; [| split]].
  - intros c buttons'. state_simpl.
    destruct (decide (c = class_name)) as [-> | Hne].
    + rewrite !lookup_insert_eq. intros [= <-]. eexists. split; [reflexivity |].
      intros sid button'. destruct (decide (sid = student_id)) as [-> | Hsid].
      * rewrite !lookup_insert_eq. intros [= <-]. now exists (negb b).
      * rewrite !lookup_insert_ne by congruence. intros Hsome.
        destruct (Hbut _ _ Hbuttons) as (ledger' & Hledger' & Hall).
        rewrite Hledger in Hledger'. injection Hledger' as <-. now apply Hall.
    + rewrite !lookup_insert_ne by congruence. apply Hbut.
  - intros c. state_simpl.
    destruct (decide (c = class_name)) as [-> | Hne].
    + intros _. apply Hsess. rewrite Hbuttons. eauto.
    + rewrite lookup_insert_ne by congruence. apply Hsess.
  - exact Hdead.
  - intros c buttons' sid button'. state_simpl.
    destruct (decide (c = class_name)) as [-> | Hne].
    + rewrite lookup_insert_eq. intros [= <-].
      destruct (decide (sid = student_id)) as [-> | Hsid].
      * rewrite lookup_insert_eq. intros [= <-]. cbn [master].
        exact (Hmasters _ _ _ _ Hbuttons Hbutton).
      * rewrite lookup_insert_ne by congruence. apply (Hmasters _ _ _ _ Hbuttons).
    + rewrite lookup_insert_ne by congruence. apply Hmasters.
Qed.

Lemma destroy_window_sound w s : sound s -> sound (destroy_window w s).
Proof.
  intros (Hrec & Hbut & Htiles & Hsess & Hdead & Hmasters).
  split; [exact Hrec |]. split; [| split; [exact Htiles |]; split; [exact Hsess | split]].
  - intros c buttons Hc. destruct (Hbut c buttons Hc) as (ledger & Hledger & Hall).
    exists ledger. split; [exact Hledger |].
    intros sid button Hsome. destruct (Hall sid button Hsome) as (b & Hb & Hshown).
    exists b. split; [exact Hb |]. intros Hlive. apply Hshown.
    intros Hin. apply Hlive. state_simpl.
    case_bool_decide; [now right | exact Hin].
  - intros w'. state_simpl. case_bool_decide as Hw.
    + rewrite elem_of_cons. intros [-> | Hin]; [exact Hw | now apply Hdead].
    + apply Hdead.
  - exact Hmasters.
Qed.

Lemma save_attendance_sound class_name attendance_window now s :
  sound s -> sound (snd (save_attendance class_name attendance_window now s)).
Proof.
  intros (Hrec & Hbut & Htiles & Hsess & Hwin).
  destruct (save_attendance_run class_name attendance_window now s) as [extra ->].
  cbn [snd].
  assert (Hgrow : forall c entry,
            classes_data s !! c = Some entry ->
            exists d, (heap s ++ extra) !! dataframe entry = Some d
                      /\ Pd.has_column (roll_column entry) d = true
                      /\ Pd.has_column (name_column entry) d = true
                      /\ Pd.has_column "Total" d = true).
  { intros c entry Hc. destruct (Hrec c entry Hc) as (d & Hd & Hcols).
    exists d. split; [now apply lookup_app_l_Some | exact Hcols]. }
  destruct (save_plan class_name now s) as [[path table]|e].
  - apply destroy_window_sound.
    split; [exact Hgrow |]. split; [exact Hbut |]. split; [exact Htiles |].
    split; [exact Hsess | exact Hwin].
  - split; [exact Hgrow |]. split; [exact Hbut |]. split; [exact Htiles |].
    split; [exact Hsess | exact Hwin].
Qed.

(** The state the program starts from and every state the main loop
    reaches are sound. *)
Lemma mainloop_sound events s : sound s -> sound (mainloop events s).
Proof.
  revert s. induction events as [|cb events IH]; intros s Hs; [exact Hs |].
  cbn [mainloop fold_left]. apply IH.
  destruct cb; cbn [dispatch].
  - now apply add_new_class_sound.
  - now apply open_attendance_screen_sound.
  - now apply toggle_attendance_sound.
  - now apply save_attendance_sound.
  - now apply destroy_window_sound.
Qed.

Lemma initial_state_sound files lck : sound (initial_state files lck).
Proof.
  split; [| split; [| split; [| split; [| split]]]].
  - intros c entry. cbn. now rewrite lookup_empty.
  - intros c buttons. cbn. now rewrite lookup_empty.
  - intros c. cbn. intros Hc. now apply not_elem_of_nil in Hc.
  - intros c. cbn. rewrite lookup_empty. now intros [? [=]].
  - intros w. cbn. intros Hw. now apply not_elem_of_nil in Hw.
  - intros c buttons student_id button. cbn. now rewrite lookup_empty.
Qed.

(** X17: whatever the user does, in whatever order, and whichever callback
    raises on the way, the state stays sound: every record points at a
    stored table that has the identifier column, the name column and
    ["Total"]; every student button the class holds has a flag in the ledger
    of its class, and shows the colour of that flag as long as its window
    exists; every class tile and every set of student buttons belongs to a
    class that has a record; the destroyed windows and the windows of the
    buttons are windows that were created. *)
Theorem mainloop_keeps_the_state_sound events files lck :
  records_sound (mainloop events (initial_state files lck))
  /\ buttons_agree (mainloop events (initial_state files lck))
  /\ tiles_listed (mainloop events (initial_state files lck))
  /\ sessions_listed (mainloop events (initial_state files lck))
  /\ windows_created (mainloop events (initial_state files lck)).
Proof. apply mainloop_sound, initial_state_sound. Qed.

(** X18: in a state the main loop reaches, opening a session returns (with
    [None]) exactly for the classes that have a record, so a press of a
    class tile never raises; for a name without a record it raises
    [KeyError] after the ledger of that name has been created, and builds no
    button. *)
Theorem open_returns_iff_class_is_loaded events files lck class_name s :
  s = mainloop events (initial_state files lck) ->
  (fst (open_attendance_screen class_name s) = Return PNone
   <-> is_Some (classes_data s !! class_name))
  /\ (class_name ∈ class_tiles s ->
      fst (open_attendance_screen class_name s) = Return PNone)
  /\ (classes_data s !! class_name = None ->
      fst (open_attendance_screen class_name s) = Raise KeyError
      /\ attendance_records (snd (open_attendance_screen class_name s))
         = <[class_name := default ∅ (attendance_records s !! class_name)]>
             (attendance_records s)
      /\ student_buttons (snd (open_attendance_screen class_name s))
         = student_buttons s).
Proof.
  intros ->.
  destruct (mainloop_sound events _ (initial_state_sound files lck))
    as (Hrec & _ & Htiles & _).
  set (s := mainloop events (initial_state files lck)) in *.
  assert (Hopen : is_Some (classes_data s !! class_name) ->
                  fst (open_attendance_screen class_name s) = Return PNone).
  { intros [entry Hentry].
    destruct (Hrec _ _ Hentry) as (stored & Hstored & Hroll & Hname & _).
    now rewrite (open_attendance_screen_run class_name s entry stored). }
  split; [split; [| exact Hopen] | split].
  - destruct (classes_data s !! class_name) as [entry|] eqn:Hentry; [eauto |].
    rewrite (open_attendance_screen_stuck class_name s Hentry). discriminate.
  - intros Htile. apply Hopen, Htiles, Htile.
  - intros Hentry. rewrite (open_attendance_screen_stuck class_name s Hentry).
    repeat split.
Qed.

(** X19: in a state the main loop reaches, a press of a student button the
    class holds, while the window of the button exists, returns [None], and
    a second press brings back exactly the state before the first. *)
Theorem student_button_twice_restores events files lck class_name student_id s button :
  s = mainloop events (initial_state files lck) ->
  (student_buttons s !! class_name ≫= fun buttons => buttons !! student_id)
  = Some button ->
  (master button ∉ destroyed s) ->
  fst (toggle_attendance class_name student_id s) = Return PNone
  /\ toggle_attendance class_name student_id
       (snd (toggle_attendance class_name student_id s))
     = (Return PNone, s).
Proof.
  intros -> Hbutton Hlive.
  destruct (mainloop_sound events _ (initial_state_sound files lck))
    as (_ & Hbut & _ & _).
  set (s := mainloop events (initial_state files lck)) in *.
  destruct (student_buttons s !! class_name) as [buttons|] eqn:Hbuttons;
    [| discriminate].
  cbn [mbind option_bind] in Hbutton.
  destruct (Hbut _ _ Hbuttons) as (ledger & Hledger & Hall).
  destruct (Hall _ _ Hbutton) as (b & Hb & Hshown).
  specialize (Hshown Hlive).
  rewrite (toggle_attendance_run class_name student_id s ledger b Hledger Hb).
  rewrite button_lookup_pair, Hbuttons, Hbutton.
  rewrite bool_decide_eq_false_2 by exact Hlive.
  cbn [fst snd]. split; [reflexivity |].
  erewrite toggle_attendance_run.
  2:{ state_simpl. apply lookup_insert_eq. }
  2:{ apply lookup_insert_eq. }
  rewrite button_lookup_pair. state_simpl. rewrite !lookup_insert_eq. cbn [master].
  rewrite bool_decide_eq_false_2 by exact Hlive.
  rewrite !insert_insert_eq, negb_involutive.
  rewrite (insert_id ledger student_id b Hb).
  rewrite (insert_id (attendance_records s) class_name ledger Hledger).
  assert (Hsame : <[student_id :=
                      {| master := master button;
                         bg := if b then COLOR_present else COLOR_absent |}]> buttons
                  = buttons).
  { apply insert_id. rewrite Hbutton. f_equal. destruct button as [w colour].
    cbn [master bg] in *. now subst colour. }
  rewrite Hsame, (insert_id (student_buttons s) class_name buttons Hbuttons).
  now destruct s.
Qed.

(** X20: in a state the main loop reaches, a save from the window of a
    class whose student tiles exist can fail in one way only: when the file
    cannot be written, [PermissionError] is reported and nothing is written;
    otherwise the file of the class is written and the success box shown. *)
Theorem save_of_a_session_fails_only_on_the_file events files lck class_name
  attendance_window now s :
  s = mainloop events (initial_state files lck) ->
  is_Some (student_buttons s !! class_name) ->
  exists entry,
    classes_data s !! class_name = Some entry
    /\ (file_path entry ∈ locked s ->
        dialogs (snd (save_attendance class_name attendance_window now s))
        = dialogs s ++ [showerror "Error" "Failed to save attendance: " PermissionError]
        /\ disk (snd (save_attendance class_name attendance_window now s)) = disk s)
    /\ ((file_path entry ∉ locked s) ->
        dialogs (snd (save_attendance class_name attendance_window now s))
        = dialogs s ++ [showinfo "Success" "Attendance saved!"]
        /\ is_Some (disk (snd (save_attendance class_name attendance_window now s))
                      !! file_path entry)).
Proof.
  intros -> Hsession.
  destruct (mainloop_sound events _ (initial_state_sound files lck))
    as (Hrec & Hbut & _ & Hsess & _).
  set (s := mainloop events (initial_state files lck)) in *.
  destruct (Hsess _ Hsession) as [entry Hentry].
  destruct (Hrec _ _ Hentry) as (stored & Hstored & Hroll & Hname & _).
  destruct Hsession as [buttons Hbuttons].
  destruct (Hbut _ _ Hbuttons) as (ledger & Hledger & _).
  exists entry. split; [exact Hentry |]. split.
  - intros Hlocked.
    destruct (save_attendance_run class_name attendance_window now s) as [extra ->].
    cbn [snd].
    rewrite (save_plan_locked class_name now s entry stored ledger) by assumption.
    state_simpl. auto.
  - intros Hfree.
    pose proof (save_goes_through class_name attendance_window now s entry stored ledger
                  Hentry Hstored Hroll Hname Hledger Hfree) as Hok.
    split; [exact Hok |].
    destruct (save_success_plan class_name attendance_window now s Hok)
      as (path & table & Hplan & ->).
    apply save_plan_Return in Hplan
      as (entry' & _ & _ & _ & Hentry' & _ & _ & _ & _ & -> & _).
    rewrite Hentry in Hentry'. injection Hentry' as <-.
    rewrite lookup_insert_eq. eauto.
Qed.

(** X22: in a state the main loop reaches, a press of a class tile opens a
    session whose buttons all work: the class holds one button for every
    identifier of the roster, each in the window just created, and a first
    press of any of them returns [None] and shows the student present. *)
Theorem opened_session_buttons_work events files lck class_name s student_id button :
  s = mainloop events (initial_state files lck) ->
  class_name ∈ class_tiles s ->
  (student_buttons (snd (open_attendance_screen class_name s)) !! class_name
   ≫= fun buttons => buttons !! student_id) = Some button ->
  button = {| master := toplevels s; bg := COLOR_absent |}
  /\ (master button ∉ destroyed (snd (open_attendance_screen class_name s)))
  /\ fst (toggle_attendance class_name student_id
            (snd (open_attendance_screen class_name s))) = Return PNone
  /\ (student_buttons
        (snd (toggle_attendance class_name student_id
                (snd (open_attendance_screen class_name s)))) !! class_name
      ≫= fun buttons => buttons !! student_id)
     = Some {| master := toplevels s; bg := COLOR_present |}
  /\ (attendance_records
        (snd (toggle_attendance class_name student_id
                (snd (open_attendance_screen class_name s)))) !! class_name
      ≫= fun ledger => ledger !! student_id) = Some true.
Proof.
  intros -> Htile.
  destruct (mainloop_sound events _ (initial_state_sound files lck))
    as (Hrec & _ & Htiles & _ & Hdead & _).
  set (s := mainloop events (initial_state files lck)) in *.
  destruct (Htiles _ Htile) as [entry Hentry].
  destruct (Hrec _ _ Hentry) as (stored & Hstored & Hroll & Hname & _).
  rewrite (open_attendance_screen_run class_name s entry stored) by assumption.
  cbn [snd]. state_simpl. rewrite lookup_insert_eq. cbn [mbind option_bind].
  rewrite tiles_for_lookup.
  destruct (decide (student_id ∈ roster_ids (roll_column entry) stored)) as [Hin | Hnot];
    [| now rewrite lookup_empty].
  intros [= <-]. cbn [master].
  assert (Hlive : toplevels s ∉ destroyed s).
  { intros Hw. apply Hdead in Hw. lia. }
  split; [reflexivity |]. split; [exact Hlive |].
  erewrite toggle_attendance_run.
  2:{ state_simpl. apply lookup_insert_eq. }
  2:{ rewrite absent_all_lookup. now rewrite decide_True. }
  rewrite button_lookup_pair. state_simpl. rewrite lookup_insert_eq, tiles_for_lookup.
  rewrite decide_True by exact Hin. cbn [master].
  rewrite bool_decide_eq_false_2 by exact Hlive.
  cbn [fst snd]. state_simpl. rewrite !lookup_insert_eq. cbn [mbind option_bind].
  rewrite !lookup_insert_eq. repeat split.
Qed.

End Sessions.

(** ** A saved file read back *)

Section Round_trip.
Context `{Rendering}.

Lemma filter_twice {A} (P : A -> Prop) `{forall x, Decision (P x)} (l : list A) :
  filter P (filter P l) = filter P l.
Proof.
  induction l as [|x l IH]; [reflexivity |].
  rewrite (filter_cons P x l). destruct (decide (P x)) as [HP | HP]; [| exact IH].
  rewrite filter_cons_True by exact HP. now rewrite IH.
Qed.

(** The keys of the reordering, on a table that is in that order. *)
Lemma canonical_keys (head others : list label) :
  head ++ filter (fun col => col ∉ head) (head ++ filter (fun col => col ∉ head) others)
  = head ++ filter (fun col => col ∉ head) others.
Proof.
  rewrite filter_app, filter_twice, filter_none; [reflexivity |].
  intros x Hx Hnot. contradiction.
Qed.

Lemma remove_first_keeps (P : label -> bool) l r c :
  List.find P l = Some r -> c ∈ l -> c <> r -> c ∈ remove_first P l.
Proof.
  induction l as [|x l IH]; [discriminate |].
  cbn [List.find remove_first]. destruct (P x).
  - intros [= ->] Hc Hne. apply elem_of_cons in Hc as [-> | Hc]; [contradiction | exact Hc].
  - intros Hfind Hc Hne. apply elem_of_cons in Hc as [-> | Hc]; [now left |].
    right. now apply IH.
Qed.

Lemma find_none_elem (P : label -> bool) l c :
  List.find P l = None -> c ∈ l -> P c = false.
Proof. intros Hfind Hc. apply (find_none P l Hfind). now apply list_elem_of_In. Qed.

Lemma find_some_test (P : label -> bool) l c : List.find P l = Some c -> P c = true.
Proof. intros Hfind. now apply find_some in Hfind. Qed.

(** The scan finds the same two columns once they stand first: on a table
    whose header starts with the two columns detected on another, followed
    by columns of that other table or by columns no pattern matches. *)
Lemma detect_reordered d0 d r n others :
  detect_data_columns d0 = Return (r, n) -> r <> n ->
  Pd.columns d = r :: n :: others ->
  (forall c, c ∈ others ->
     c <> r /\ (c ∈ Pd.columns d0 \/ (matches_roll c = false /\ matches_name c = false))) ->
  detect_data_columns d = Return (r, n).
Proof.
  intros Hdetect Hne Hcols Hothers.
  destruct (detect_in_columns _ _ _ Hdetect) as [Hr Hn].
  unfold detect_data_columns in *. rewrite detect_scan_find in *. cbn [fst snd] in *.
  rewrite !py_or_find in * by auto using matches_roll_truthy, matches_name_truthy.
  unfold Pd.column_at in *. rewrite Hcols. cbn [List.find remove_first].
  destruct (List.find matches_roll (Pd.columns d0)) as [r0|] eqn:Hroll;
    cbn [mbind outcome_bind] in Hdetect.
  - (* the identifier column was matched *)
    destruct (List.find matches_name (remove_first matches_roll (Pd.columns d0)))
      as [n0|] eqn:Hname; cbn [mbind outcome_bind] in Hdetect.
    + injection Hdetect as -> ->.
      rewrite (find_some_test _ _ _ Hroll). cbn [mbind outcome_bind List.find].
      now rewrite (find_some_test _ _ _ Hname).
    + destruct (Pd.columns d0 !! 1) as [c1|] eqn:Hc1;
        cbn [mbind outcome_bind] in Hdetect; [| discriminate].
      injection Hdetect as -> ->.
      rewrite (find_some_test _ _ _ Hroll). cbn [mbind outcome_bind List.find].
      assert (Hrest : forall c, c ∈ n :: others -> matches_name c = false).
      { intros c Hc.
        assert (c <> r /\ (c ∈ Pd.columns d0
                           \/ (matches_roll c = false /\ matches_name c = false)))
          as [Hcr [Hc0 | [_ Hplain]]].
        { apply elem_of_cons in Hc as [-> | Hc]; [| now apply Hothers].
          split; [congruence | now left]. }
        - apply (find_none_elem _ _ _ Hname). now apply (remove_first_keeps _ _ r).
        - exact Hplain. }
      rewrite (Hrest n) by now left.
      rewrite (find_none_all matches_name others)
        by (intros c Hc; apply Hrest; now right).
      reflexivity.
  - (* no column matches an identifier pattern *)
    rewrite (remove_first_none matches_roll (Pd.columns d0)) in Hdetect
      by (intros c Hc; now apply (find_none_elem _ _ _ Hroll)).
    assert (Hplain : forall c, c ∈ r :: n :: others -> matches_roll c = false).
    { intros c Hc. rewrite !elem_of_cons in Hc.
      destruct Hc as [-> | [-> | Hc]]; try now apply (find_none_elem _ _ _ Hroll).
      destruct (Hothers c Hc) as [_ [Hc0 | [Hc0 _]]];
        [now apply (find_none_elem _ _ _ Hroll) | exact Hc0]. }
    rewrite (Hplain r) by now left. rewrite (Hplain n) by (right; now left).
    rewrite (find_none_all matches_roll others)
      by (intros c Hc; apply Hplain; right; now right).
    rewrite (remove_first_none matches_roll others)
      by (intros c Hc; apply Hplain; right; now right).
    cbn [lookup list_lookup mbind outcome_bind List.find].
    destruct (Pd.columns d0) as [|c0 columns0] eqn:Hcols0; [discriminate |].
    cbn [lookup list_lookup mbind outcome_bind] in Hdetect.
    destruct (List.find matches_name (c0 :: columns0)) as [n0|] eqn:Hname.
    + injection Hdetect as -> ->.
      assert (matches_name r = false) as ->.
      { cbn [List.find] in Hname. destruct (matches_name r); congruence. }
      now rewrite (find_some_test _ _ _ Hname).
    + destruct (columns0 !! 0) as [c1|] eqn:Hc1; [| discriminate].
      injection Hdetect as -> ->.
      assert (Hrest : forall c, c ∈ r :: n :: others -> matches_name c = false).
      { intros c Hc. rewrite !elem_of_cons in Hc.
        destruct Hc as [-> | [-> | Hc]].
        - apply (find_none_elem _ _ _ Hname). now left.
        - now apply (find_none_elem _ _ _ Hname).
        - destruct (Hothers c Hc) as [_ [Hc0 | [_ Hc0]]];
            [now apply (find_none_elem _ _ _ Hname) | exact Hc0]. }
      rewrite (Hrest r) by now left. rewrite (Hrest n) by (right; now left).
      rewrite (find_none_all matches_name others)
        by (intros c Hc; apply Hrest; right; now right).
      reflexivity.
Qed.

(** The plan of a load of the file a save has written. *)
Lemma load_plan_of_saved class_name attendance_window now s entry stored table :
  classes_data s !! class_name = Some entry ->
  heap s !! dataframe entry = Some stored ->
  NoDup (Pd.columns table) ->
  load_plan table = Return (roll_column entry, name_column entry, stored) ->
  NoDup [roll_column entry; name_column entry; "Total"] ->
  dialogs (snd (save_attendance class_name attendance_window now s))
  = dialogs s ++ [showinfo "Success" "Attendance saved!"] ->
  exists written,
    disk (snd (save_attendance class_name attendance_window now s))
         !! file_path entry = Some written
    /\ load_plan written = Return (roll_column entry, name_column entry, written).
Proof.
  intros Hentry Hstored Hnodup Hload Hthree Hok.
  destruct (save_success_plan class_name attendance_window now s Hok)
    as (path & written & Hplan & Hdisk).
  apply save_plan_Return in Hplan
    as (entry' & stored' & statuses & d & Hentry' & Hstored' & _ & Htotal & Htable & -> & _).
  rewrite Hentry in Hentry'. injection Hentry' as <-.
  rewrite Hstored in Hstored'. injection Hstored' as <-.
  set (r := roll_column entry) in *. set (n := name_column entry) in *.
  exists written. split; [rewrite Hdisk; apply lookup_insert_eq |].
  apply load_plan_Return in Hload as [Hdetect Hget].
  pose proof (NoDup_ensure_total _ Hnodup) as Hnodup'.
  (* the stored table is in the order of the reordering *)
  assert (Hstored_cols :
    Pd.columns stored
    = [r; n; "Total"] ++ filter (fun col => col ∉ [r; n; "Total"]) (Pd.columns table)).
  { apply getitem_Return in Hget as (_ & Hcols & Hkeys).
    unfold Pd.columns at 1. rewrite Hcols, columns_picked by assumption.
    now rewrite other_columns_ensure_total. }
  assert (Hcanon : forall l : list label,
            NoDup l -> NoDup ([r; n; "Total"] ++ filter (fun col => col ∉ [r; n; "Total"]) l)).
  { intros l Hl. apply NoDup_app. split; [exact Hthree |]. split.
    - intros x Hx Hfilter. apply list_elem_of_filter in Hfilter as [Hnot _]. contradiction.
    - now apply NoDup_filter. }
  assert (Hnodup_stored : NoDup (Pd.columns stored)).
  { rewrite Hstored_cols. now apply Hcanon. }
  pose proof (saved_column_order _ _ _ _ _ _ _ Hnodup_stored Htotal Htable) as Hwritten.
  assert (Hset : Pd.columns stored
                 ++ (if Pd.has_column (strftime_dmy now) stored then []
                     else [strftime_dmy now])
                 = Pd.columns (Pd.setitem (strftime_dmy now) statuses stored)).
  { rewrite columns_setitem.
    destruct (Pd.has_column (strftime_dmy now) stored); [apply app_nil_r | reflexivity]. }
  rewrite Hset in Hwritten.
  assert (Hnodup_written : NoDup (Pd.columns written)).
  { rewrite Hwritten. apply Hcanon. now apply NoDup_columns_setitem. }
  (* the written table has its total column *)
  assert (Htotal_in : Pd.has_column "Total" written = true).
  { apply bool_decide_eq_true. rewrite Hwritten. set_solver. }
  unfold load_plan, ensure_total. rewrite Htotal_in. cbn [negb].
  (* the scan finds the same columns *)
  pose proof (proj1 (NoDup_cons _ _) Hthree) as [Hr _].
  assert (Hne : r <> n).
  { intros Heq. apply Hr. rewrite Heq. now left. }
  rewrite (detect_reordered (ensure_total table) written r n
             ("Total" :: filter (fun col => col ∉ [r; n; "Total"])
                           (Pd.columns (Pd.setitem (strftime_dmy now) statuses stored)))
             Hdetect Hne Hwritten).
  2:{ intros c Hc. apply elem_of_cons in Hc as [-> | Hc].
      - split; [| left; apply total_in_ensure_total].
        intros Heq. apply Hr. rewrite <- Heq. right. now left.
      - apply list_elem_of_filter in Hc as [Hnot Hc].
        split; [intros ->; apply Hnot; now left |].
        rewrite columns_setitem in Hc.
        assert (c ∈ Pd.columns stored \/ c = strftime_dmy now) as [Hin | ->].
        { destruct (Pd.has_column (strftime_dmy now) stored); [now left |].
          apply elem_of_app in Hc as [Hc | Hc]; [now left |].
          right. now apply list_elem_of_singleton in Hc. }
        + left. rewrite Hstored_cols in Hin.
          apply elem_of_app in Hin as [Hin | Hin]; [contradiction |].
          apply list_elem_of_filter in Hin as [_ Hin].
          rewrite columns_ensure_total.
          destruct (Pd.has_column "Total" table); [exact Hin |].
          apply elem_of_app. now left.
        + right. destruct (date_label_plain now) as (Hroll & Hname & _). now split. }
  cbn [mbind outcome_bind fst snd].
  (* the reordering picks every column where it stands *)
  unfold other_columns. rewrite Hwritten at 1. rewrite canonical_keys, <- Hwritten.
  now rewrite getitem_own_columns.
Qed.

(** X21: a file the program has saved loads back as it is. When the three
    leading labels (identifier, name, ["Total"]) are distinct and the labels
    of the file the class came from are unique, loading the written file
    shows no error, detects the same identifier and name columns and stores
    the written table unchanged: same columns, same order, same cells. *)
Theorem saved_file_loads_back class_name attendance_window now s entry stored table :
  classes_data s !! class_name = Some entry ->
  heap s !! dataframe entry = Some stored ->
  NoDup (Pd.columns table) ->
  load_plan table = Return (roll_column entry, name_column entry, stored) ->
  NoDup [roll_column entry; name_column entry; "Total"] ->
  file_path entry <> "" ->
  dialogs (snd (save_attendance class_name attendance_window now s))
  = dialogs s ++ [showinfo "Success" "Attendance saved!"] ->
  exists written reloaded,
    disk (snd (save_attendance class_name attendance_window now s))
         !! file_path entry = Some written
    /\ classes_data (snd (add_new_class (file_path entry)
                            (snd (save_attendance class_name attendance_window now s))))
         !! class_name_of (file_path entry) = Some reloaded
    /\ file_path reloaded = file_path entry
    /\ roll_column reloaded = roll_column entry
    /\ name_column reloaded = name_column entry
    /\ heap (snd (add_new_class (file_path entry)
                    (snd (save_attendance class_name attendance_window now s))))
         !! dataframe reloaded = Some written
    /\ dialogs (snd (add_new_class (file_path entry)
                       (snd (save_attendance class_name attendance_window now s))))
       = dialogs (snd (save_attendance class_name attendance_window now s)).
Proof.
  intros Hentry Hstored Hnodup Hload Hthree Hpath Hok.
  destruct (load_plan_of_saved class_name attendance_window now s entry stored table
              Hentry Hstored Hnodup Hload Hthree Hok) as (written & Hwritten & Hplan).
  destruct (add_new_class_loaded _ _ _ _ _ _ Hpath Hwritten Hplan)
    as (Hcd & Hheap & Hdialogs & _).
  exists written. eexists. split; [exact Hwritten |].
  split; [rewrite Hcd; apply lookup_insert_eq |].
  repeat split; [exact Hheap | exact Hdialogs].
Qed.

End Round_trip.

(** ** The further properties on concrete tables *)

Section Further_runs.

(** X2 on a sheet with the labels ["Code"] and ["Pupil"]. *)
Lemma detect_defaults_to_first_two_witness :
  detect_data_columns plain_table = Return ("Code", "Pupil").
Proof.
  apply (detect_defaults_to_first_two plain_table "Code" "Pupil");
    [| reflexivity | reflexivity].
  intros c Hc. cbn in Hc. rewrite !elem_of_cons in Hc.
  destruct Hc as [-> | [-> | Hc]]; [vm_compute; auto | vm_compute; auto |].
  now apply not_elem_of_nil in Hc.
Defined.

(** X3 on the empty sheet once it has its total column. *)
Lemma detect_raises_only_index_error_witness :
  detect_data_columns (ensure_total blank_table) = Raise IndexError
  /\ length (Pd.columns (ensure_total blank_table)) < 2.
Proof.
  assert (Hraise : detect_data_columns (ensure_total blank_table) = Raise IndexError)
    by (vm_compute; reflexivity).
  split; [exact Hraise |].
  exact (proj2 (detect_raises_only_index_error (ensure_total blank_table) IndexError Hraise)).
Defined.

(** X4 on a path with two dots. *)
Lemma class_name_is_base_before_first_dot_witness :
  class_name_of "/home/u/cs-a.2024.xlsx" = "cs-a"
  /\ class_name_of "cs-a.2024.xlsx" = "cs-a".
Proof.
  exact (class_name_is_base_before_first_dot "/home/u" "cs-a" "2024.xlsx"
           eq_refl eq_refl eq_refl).
Defined.

(** X7 on the roster. *)
Lemma load_keeps_the_columns_witness :
  exists entry d,
    classes_data demo_loaded !! "cs" = Some entry
    /\ heap demo_loaded !! dataframe entry = Some d
    /\ nrows d = 3
    /\ ("Total", [CInt 0; CInt 0; CInt 0]) ∈ cols d
    /\ ("Roll No", [CStr "101"; CStr "102"; CStr "103"]) ∈ cols d
    /\ cols d ≡ₚ cols roster_table ++ [("Total", [CInt 0; CInt 0; CInt 0])].
Proof.
  destruct (load_keeps_the_columns "/data/cs.xlsx"
              (initial_state {[ "/data/cs.xlsx" := roster_table ]} []) roster_table)
    as (entry & d & Hentry & _ & Hd & Hrows & Hcols & Hperm);
    [discriminate | vm_compute; reflexivity | vm_compute; reflexivity |].
  exists entry, d. split; [exact Hentry |]. split; [exact Hd |].
  split; [exact Hrows |]. split; [| split].
  - apply Hcols. right. split; reflexivity.
  - apply Hcols. left. by_decide.
  - apply Hperm; [by_decide |].
    change (classes_data demo_loaded !! "cs" = Some entry) in Hentry.
    vm_compute in Hentry. injection Hentry as <-. by_decide.
Defined.

(** X8 on the roster. *)
Lemma load_keeps_rectangular_witness :
  exists entry d,
    classes_data demo_loaded !! "cs" = Some entry
    /\ heap demo_loaded !! dataframe entry = Some d
    /\ rectangular d.
Proof.
  apply (load_keeps_rectangular "/data/cs.xlsx"
           (initial_state {[ "/data/cs.xlsx" := roster_table ]} []) roster_table);
    [discriminate | vm_compute; reflexivity | repeat constructor | vm_compute; reflexivity].
Defined.

(** X9 on the marked roster. *)
Lemma save_writes_the_ledger_witness :
  exists entry stored written,
    classes_data demo_marked !! "cs" = Some entry
    /\ heap demo_marked !! dataframe entry = Some stored
    /\ disk (snd (@save_attendance text_rendering "cs" 0 demo_now demo_marked))
         !! file_path entry = Some written
    /\ (exists column, (strftime_dmy demo_now, column) ∈ cols written).
Proof.
  destruct (@save_writes_the_ledger text_rendering "cs" 0 demo_now demo_marked)
    as (entry & stored & written & Hentry & Hstored & Hwritten & _ & Hcolumn & _);
    [vm_compute; reflexivity |].
  exists entry, stored, written. repeat split; assumption.
Defined.

(** X10 on the marked roster. *)
Lemma save_keeps_earlier_columns_witness :
  exists entry stored written,
    classes_data demo_marked !! "cs" = Some entry
    /\ heap demo_marked !! dataframe entry = Some stored
    /\ disk (snd (@save_attendance text_rendering "cs" 0 demo_now demo_marked))
         !! file_path entry = Some written
    /\ (("Student Name", [CStr "Asha"; CStr "Bilal"; CStr "Chen"]) ∈ cols written
        <-> ("Student Name", [CStr "Asha"; CStr "Bilal"; CStr "Chen"]) ∈ cols stored)
    /\ filter (fun kc => fst kc ∉ [strftime_dmy demo_now; "Total"]) (cols written)
       ≡ₚ filter (fun kc => fst kc ∉ [strftime_dmy demo_now; "Total"]) (cols stored).
Proof.
  destruct (@save_keeps_earlier_columns text_rendering "cs" 0 demo_now demo_marked)
    as (entry & stored & written & Hentry & Hstored & Hwritten & _ & Hcols & Hperm);
    [vm_compute; reflexivity |].
  exists entry, stored, written.
  split; [exact Hentry |]. split; [exact Hstored |]. split; [exact Hwritten |].
  split; [apply Hcols; vm_compute; discriminate |].
  vm_compute in Hentry. injection Hentry as <-.
  cbn [dataframe] in Hstored. vm_compute in Hstored. injection Hstored as <-.
  apply Hperm; by_decide.
Defined.

(** X11 on the marked roster. *)
Lemma save_keeps_rectangular_witness :
  exists written,
    disk (snd (@save_attendance text_rendering "cs" 0 demo_now demo_marked))
      !! "/data/cs.xlsx" = Some written
    /\ rectangular written.
Proof.
  apply (@save_keeps_rectangular text_rendering "cs" 0 demo_now demo_marked
           demo_entry demo_stored);
    [vm_compute; reflexivity | vm_compute; reflexivity | repeat constructor
    | vm_compute; reflexivity].
Defined.

(** X13 on the roster while its workbook is open elsewhere. *)
Lemma save_to_a_locked_file_witness :
  dialogs (snd (@save_attendance text_rendering "cs" 0 demo_now locked_open))
  = dialogs locked_open
    ++ [showerror "Error" "Failed to save attendance: " PermissionError]
  /\ disk (snd (@save_attendance text_rendering "cs" 0 demo_now locked_open))
     = disk locked_open.
Proof.
  destruct (@save_to_a_locked_file text_rendering "cs" 0 demo_now locked_open
              demo_entry demo_stored demo_ledger)
    as (Hdialogs & Hdisk & _);
    [vm_compute; reflexivity | vm_compute; reflexivity | reflexivity | reflexivity
    | vm_compute; reflexivity | by_decide |].
  split; assumption.
Defined.

(** X14 on the marked roster, saved on the fifth and on the sixth of June. *)
Lemma later_save_drops_earlier_day_witness :
  exists first second,
    disk (snd (@save_attendance text_rendering "cs" 0 demo_now demo_marked))
      !! "/data/cs.xlsx" = Some first
    /\ "05-06-24" ∈ Pd.columns first
    /\ disk (snd (@save_attendance text_rendering "cs" 0 demo_next
                    (snd (@save_attendance text_rendering "cs" 0 demo_now demo_marked))))
         !! "/data/cs.xlsx" = Some second
    /\ ("05-06-24" ∉ Pd.columns second)
    /\ "06-06-24" ∈ Pd.columns second.
Proof.
  apply (@later_save_drops_earlier_day text_rendering "cs" 0 0 demo_now demo_next demo_marked
           demo_entry demo_stored);
    [vm_compute; reflexivity | vm_compute; reflexivity | by_decide | by_decide
    | vm_compute; reflexivity | vm_compute; reflexivity].
Defined.

(** X16 on the freshly loaded roster. *)
Lemma open_rebuilds_the_buttons_witness :
  fst (@open_attendance_screen text_rendering "cs" demo_loaded) = Return PNone
  /\ exists buttons,
       student_buttons (snd (@open_attendance_screen text_rendering "cs" demo_loaded))
         !! "cs" = Some buttons
       /\ buttons !! "102" = Some {| master := 0; bg := COLOR_absent |}
       /\ buttons !! "Bilal" = None.
Proof.
  destruct (@open_rebuilds_the_buttons text_rendering "cs" demo_loaded
              demo_entry demo_stored)
    as (Hreturn & (buttons & Hbuttons & Hall) & _);
    [vm_compute; reflexivity | vm_compute; reflexivity | reflexivity | reflexivity |].
  split; [exact Hreturn |]. exists buttons. split; [exact Hbuttons |].
  split; rewrite Hall; [rewrite decide_True by by_decide | rewrite decide_False by by_decide];
    reflexivity.
Defined.

(** X18 after the three events: the tile of the class opens, a name
    without a record raises. *)
Lemma open_returns_iff_class_is_loaded_witness :
  fst (@open_attendance_screen text_rendering "cs"
         (@mainloop text_rendering demo_events (initial_state demo_files [])))
  = Return PNone
  /\ fst (@open_attendance_screen text_rendering "maths"
            (@mainloop text_rendering demo_events (initial_state demo_files [])))
     = Raise KeyError.
Proof.
  split.
  - apply (@open_returns_iff_class_is_loaded text_rendering demo_events demo_files []
             "cs" _ eq_refl).
    by_decide.
  - apply (@open_returns_iff_class_is_loaded text_rendering demo_events demo_files []
             "maths" _ eq_refl).
    vm_compute. reflexivity.
Defined.

(** X19 after the three events, on the tile of student 102. *)
Lemma student_button_twice_restores_witness :
  toggle_attendance "cs" "102"
    (snd (toggle_attendance "cs" "102"
            (@mainloop text_rendering demo_events (initial_state demo_files []))))
  = (Return PNone, @mainloop text_rendering demo_events (initial_state demo_files [])).
Proof.
  apply (@student_button_twice_restores text_rendering demo_events demo_files []
           "cs" "102" _ {| master := 0; bg := COLOR_absent |} eq_refl);
    [vm_compute; reflexivity | by_decide].
Defined.

(** X20 after the three events. *)
Lemma save_of_a_session_fails_only_on_the_file_witness :
  dialogs (snd (@save_attendance text_rendering "cs" 0 demo_now
                  (@mainloop text_rendering demo_events (initial_state demo_files []))))
  = dialogs (@mainloop text_rendering demo_events (initial_state demo_files []))
    ++ [showinfo "Success" "Attendance saved!"].
Proof.
  destruct (@save_of_a_session_fails_only_on_the_file text_rendering demo_events
              demo_files [] "cs" 0 demo_now _ eq_refl)
    as (entry & Hentry & _ & Hfree); [by_decide |].
  apply Hfree. vm_compute in Hentry. injection Hentry as <-.
  cbn [file_path]. by_decide.
Defined.

(** X21 on the marked roster. *)
Lemma saved_file_loads_back_witness :
  exists written reloaded,
    disk (snd (@save_attendance text_rendering "cs" 0 demo_now demo_marked))
      !! "/data/cs.xlsx" = Some written
    /\ classes_data (snd (add_new_class "/data/cs.xlsx"
                            (snd (@save_attendance text_rendering "cs" 0 demo_now
                                    demo_marked))))
         !! "cs" = Some reloaded
    /\ roll_column reloaded = "Roll No"
    /\ name_column reloaded = "Student Name"
    /\ heap (snd (add_new_class "/data/cs.xlsx"
                    (snd (@save_attendance text_rendering "cs" 0 demo_now demo_marked))))
         !! dataframe reloaded = Some written.
Proof.
  destruct (@saved_file_loads_back text_rendering "cs" 0 demo_now demo_marked
              demo_entry demo_stored roster_table)
    as (written & reloaded & Hwritten & Hreloaded & _ & Hroll & Hname & Hheap & _);
    [vm_compute; reflexivity | vm_compute; reflexivity | by_decide
    | vm_compute; reflexivity | by_decide | discriminate | vm_compute; reflexivity |].
  exists written, reloaded. repeat split; assumption.
Defined.

(** X22 after the three events: the class is opened again and student 103
    pressed in the new window. *)
Lemma opened_session_buttons_work_witness :
  fst (toggle_attendance "cs" "103"
         (snd (@open_attendance_screen text_rendering "cs"
                 (@mainloop text_rendering demo_events (initial_state demo_files [])))))
  = Return PNone.
Proof.
  apply (@opened_session_buttons_work text_rendering demo_events demo_files []
           "cs" _ "103" {| master := 1; bg := COLOR_absent |} eq_refl);
    [by_decide | vm_compute; reflexivity].
Defined.

End Further_runs.
